(** * scholar-ai: the scoring, projection, provider-selection and citation core

    A shallow embedding of the pure core of [src/main.py] (the FastAPI
    service "ScholarAI"): [normalize], [reconstruct_abstract],
    [get_snippet], [safe_journal_info], [extract_authors],
    [extract_concepts], [format_bibtex], [format_apa],
    [build_paper_result], the ranking tail of [search_papers],
    [check_ollama_available] and [get_active_llm_provider].

    Python values are JSON-shaped ([pyval]); Python exceptions are the
    [Raise] outcome of the [res] monad; a [float] is an IEEE-754 binary64
    number, given by the Standard Library's executable specification
    [SpecFloat] at precision 53 and [emax = 1024]. *)

From Stdlib Require Import ZArith List String Ascii Bool Lia.
From Stdlib Require Import Permutation Sorted.
From Stdlib Require Import Floats.SpecFloat.
From Stdlib Require Import DecimalString.
Import ListNotations.

Set Warnings "-register-all".

Local Open Scope string_scope.
Local Open Scope list_scope.
Local Open Scope Z_scope.

(* ===================================================================== *)
(** ** Outcomes *)
(* ===================================================================== *)

(** The exceptions the modelled code can raise.  [Unmodelled] is not a
    Python exception: it marks the inputs on which a builtin's behaviour is
    left outside this development (ordering of containers, [str()] of a
    float, sorting keys that are not totally ordered). *)
Inductive exn : Type :=
| TypeError
| AttributeError
| ZeroDivisionError
| OverflowError
| ValueError
| KeyError
| Unmodelled.

Inductive res (A : Type) : Type :=
| Ok (a : A)
| Raise (e : exn).
Arguments Ok {A} a.
Arguments Raise {A} e.

Definition bind {A B : Type} (c : res A) (k : A -> res B) : res B :=
  match c with
  | Ok a => k a
  | Raise e => Raise e
  end.

Notation "x <- c ;; k" := (bind c (fun x => k))
  (at level 61, c at next level, right associativity).
Notation "' p <- c ;; k" := (bind c (fun x => let 'p := x in k))
  (at level 61, p pattern, c at next level, right associativity).

Fixpoint mapM {A B : Type} (f : A -> res B) (l : list A) : res (list B) :=
  match l with
  | [] => Ok []
  | a :: l' => b <- f a ;; bs <- mapM f l' ;; Ok (b :: bs)
  end.

Definition is_ok {A : Type} (c : res A) : bool :=
  match c with Ok _ => true | Raise _ => false end.

(** The computation raises a Python exception.  [Raise Unmodelled] is not
    one: on such an input the code may well return, so a statement about a
    failure of the code is made with [fails], never with "is not [Ok]". *)
Definition fails {A : Type} (c : res A) : Prop :=
  exists e, c = Raise e /\ e <> Unmodelled.

(* ===================================================================== *)
(** ** binary64 *)
(* ===================================================================== *)

Module F64.

Definition prec : Z := 53.
Definition emax : Z := 1024.

Definition float : Type := spec_float.

Definition add : float -> float -> float := SFadd prec emax.
Definition sub : float -> float -> float := SFsub prec emax.
Definition mul : float -> float -> float := SFmul prec emax.
Definition div : float -> float -> float := SFdiv prec emax.
Definition compare : float -> float -> option comparison := SFcompare.

Definition is_nan (x : float) : bool :=
  match x with S754_nan => true | _ => false end.

Definition is_zero (x : float) : bool :=
  match x with S754_zero _ => true | _ => false end.

(** The binary64 number nearest to the rational [n / d] (ties to even):
    what a decimal literal, a JSON number and Python's [int / int]
    produce.  The quotient is formed by the division of [SpecFloat] on the
    two integers taken as (unnormalised) mantissas with exponent 0. *)
Definition of_ratio (n : Z) (d : positive) : float :=
  match n with
  | Z0 => S754_zero false
  | Zpos p => div (S754_finite false p 0) (S754_finite false d 0)
  | Zneg p => div (S754_finite true p 0) (S754_finite false d 0)
  end.

(** [float(n)] for an integer [n]. *)
Definition of_Z (n : Z) : float := binary_normalize prec emax n 0 false.

Definition one : float := Eval vm_compute in of_Z 1.
Definition zero : float := S754_zero false.

Definition ltb (x y : float) : bool := SFltb x y.
Definition leb (x y : float) : bool := SFleb x y.
Definition eqb (x y : float) : bool := SFeqb x y.

(** Exact comparison of an integer with a float (Python compares an
    [int] with a [float] without rounding the integer). *)
Definition compare_Z (n : Z) (x : float) : option comparison :=
  match x with
  | S754_nan => None
  | S754_infinity s => Some (if s then Gt else Lt)
  | S754_zero _ => Some (Z.compare n 0)
  | S754_finite s m e =>
      let v := if s then Zneg m else Zpos m in
      Some (match e with
            | Zneg k => Z.compare (n * 2 ^ Zpos k) v
            | _ => Z.compare n (v * 2 ^ e)
            end)
  end.

(** Round-half-even of the exact value [m * 2^e * 10^nd] to an integer. *)
Definition scaled_round (m : positive) (e : Z) (nd : Z) : Z :=
  match e with
  | Zneg k =>
      let num := Zpos m * 10 ^ nd in
      let den := 2 ^ Zpos k in
      let q := num / den in
      let r := num mod den in
      match Z.compare (2 * r) den with
      | Lt => q
      | Gt => q + 1
      | Eq => if Z.even q then q else q + 1
      end
  | _ => Zpos m * 2 ^ e * 10 ^ nd
  end.

(** [round(x, nd)] for a float [x] and [0 <= nd]: the decimal with [nd]
    fractional digits nearest to the exact value of [x] (ties to even),
    converted back to the nearest binary64. *)
Definition round_digits (x : float) (nd : Z) : float :=
  match x with
  | S754_finite s m e =>
      match scaled_round m e nd with
      | Zpos n => div (S754_finite s n 0)
                      (S754_finite false (Z.to_pos (10 ^ nd)) 0)
      | _ => S754_zero s
      end
  | _ => x
  end.

End F64.

Definition float : Type := F64.float.

(** Decimal literals of the source. *)
Definition f0_5 : float := Eval vm_compute in F64.of_ratio 5 10.
Definition f0_3 : float := Eval vm_compute in F64.of_ratio 3 10.
Definition f0_2 : float := Eval vm_compute in F64.of_ratio 2 10.

(* ===================================================================== *)
(** ** Python values *)
(* ===================================================================== *)

(** The values a decoded JSON document is made of.  A [dict] keeps its
    items in insertion order; its keys are strings. *)
Inductive pyval : Type :=
| PNone
| PBool (b : bool)
| PInt (n : Z)
| PFloat (x : float)
| PStr (s : string)
| PList (l : list pyval)
| PDict (d : list (string * pyval)).

(** Truth value of an object ([if v], [not v], [v or w]). *)
Definition truthy (v : pyval) : bool :=
  match v with
  | PNone => false
  | PBool b => b
  | PInt n => negb (n =? 0)
  | PFloat x => negb (F64.is_zero x)
  | PStr s => negb (String.eqb s "")
  | PList l => match l with [] => false | _ :: _ => true end
  | PDict d => match d with [] => false | _ :: _ => true end
  end.

(** [a or b]. *)
Definition py_or (a b : pyval) : pyval := if truthy a then a else b.

Fixpoint lookup (k : string) (d : list (string * pyval)) : option pyval :=
  match d with
  | [] => None
  | (k', v) :: d' => if String.eqb k k' then Some v else lookup k d'
  end.

(** [o.get(k, default)]; only a dict has the method. *)
Definition py_get (o : pyval) (k : string) (default : pyval) : res pyval :=
  match o with
  | PDict d => Ok (match lookup k d with Some v => v | None => default end)
  | _ => Raise AttributeError
  end.

(** [for x in o]: the elements a comprehension or a loop runs over. *)
Definition chars (s : string) : list pyval :=
  map (fun c => PStr (String c EmptyString)) (list_ascii_of_string s).

Definition py_iter (o : pyval) : res (list pyval) :=
  match o with
  | PList l => Ok l
  | PStr s => Ok (chars s)
  | PDict d => Ok (map (fun kv => PStr (fst kv)) d)
  | _ => Raise TypeError
  end.

(** *** Numbers *)

Inductive num : Type :=
| NInt (n : Z)
| NFloat (x : float).

(** [bool] is a subclass of [int]. *)
Definition as_num (v : pyval) : option num :=
  match v with
  | PBool b => Some (NInt (if b then 1 else 0))
  | PInt n => Some (NInt n)
  | PFloat x => Some (NFloat x)
  | _ => None
  end.

(** Conversion of an [int] operand of a mixed operation. *)
Definition to_float (n : Z) : res float :=
  match F64.of_Z n with
  | S754_infinity _ => Raise OverflowError
  | x => Ok x
  end.

Definition float_of_num (a : num) : res float :=
  match a with NInt n => to_float n | NFloat x => Ok x end.

Definition arith (fz : Z -> Z -> Z) (ff : float -> float -> float)
    (a b : num) : res pyval :=
  match a, b with
  | NInt m, NInt n => Ok (PInt (fz m n))
  | _, _ => x <- float_of_num a ;; y <- float_of_num b ;; Ok (PFloat (ff x y))
  end.

Definition is_seq (v : pyval) : bool :=
  match v with PStr _ | PList _ => true | _ => false end.

Definition is_int (v : pyval) : bool :=
  match v with PBool _ | PInt _ => true | _ => false end.

(** [a * b]; repetition of a sequence is left out. *)
Definition py_mul (a b : pyval) : res pyval :=
  match as_num a, as_num b with
  | Some x, Some y => arith Z.mul F64.mul x y
  | _, _ =>
      if (is_seq a && is_int b) || (is_int a && is_seq b)
      then Raise Unmodelled else Raise TypeError
  end.

(** [a + b]. *)
Definition py_add (a b : pyval) : res pyval :=
  match as_num a, as_num b with
  | Some x, Some y => arith Z.add F64.add x y
  | _, _ =>
      match a, b with
      | PStr s, PStr t => Ok (PStr (s ++ t)%string)
      | PList l, PList r => Ok (PList (l ++ r))
      | _, _ => Raise TypeError
      end
  end.

(** [a - b]. *)
Definition py_sub (a b : pyval) : res pyval :=
  match as_num a, as_num b with
  | Some x, Some y => arith Z.sub F64.sub x y
  | _, _ => Raise TypeError
  end.

(** [int / int]: the correctly rounded quotient. *)
Definition int_truediv (m n : Z) : res pyval :=
  match n with
  | Z0 => Raise ZeroDivisionError
  | Zpos d =>
      match F64.of_ratio m d with
      | S754_infinity _ => Raise OverflowError
      | x => Ok (PFloat x)
      end
  | Zneg d =>
      match F64.of_ratio (- m) d with
      | S754_infinity _ => Raise OverflowError
      | x => Ok (PFloat x)
      end
  end.

(** [a / b]. *)
Definition py_truediv (a b : pyval) : res pyval :=
  match as_num a, as_num b with
  | Some (NInt m), Some (NInt n) => int_truediv m n
  | Some x, Some y =>
      u <- float_of_num x ;;
      v <- float_of_num y ;;
      if F64.is_zero v then Raise ZeroDivisionError
      else Ok (PFloat (F64.div u v))
  | _, _ => Raise TypeError
  end.

(** Three-way comparison behind [<] and [>]: [None] when the operands are
    unordered (a NaN is involved), in which case both tests are false. *)
Definition num_compare (a b : num) : option comparison :=
  match a, b with
  | NInt m, NInt n => Some (Z.compare m n)
  | NInt m, NFloat y => F64.compare_Z m y
  | NFloat x, NInt n => option_map CompOpp (F64.compare_Z n x)
  | NFloat x, NFloat y => F64.compare x y
  end.

Definition py_compare (a b : pyval) : res (option comparison) :=
  match as_num a, as_num b with
  | Some x, Some y => Ok (num_compare x y)
  | _, _ =>
      match a, b with
      | PStr s, PStr t => Ok (Some (String.compare s t))
      | PList _, PList _ => Raise Unmodelled
      | _, _ => Raise TypeError
      end
  end.

(** [a > b]. *)
Definition py_gt (a b : pyval) : res bool :=
  c <- py_compare a b ;;
  Ok (match c with Some Gt => true | _ => false end).

(** [round(v, nd)] with [0 <= nd]. *)
Definition py_round (v : pyval) (nd : Z) : res pyval :=
  match v with
  | PBool b => Ok (PInt (if b then 1 else 0))
  | PInt n => Ok (PInt n)
  | PFloat x => Ok (PFloat (F64.round_digits x nd))
  | _ => Raise TypeError
  end.

(** *** Strings *)

(** [s[:n]] *)
Fixpoint str_take (n : nat) (s : string) : string :=
  match n, s with
  | S n', String c s' => String c (str_take n' s')
  | _, _ => EmptyString
  end.

(** [s.rfind(c)] for a one-character [c]: [None] stands for [-1]. *)
Fixpoint rfind (c : ascii) (s : string) : option nat :=
  match s with
  | EmptyString => None
  | String c' s' =>
      match rfind c s' with
      | Some i => Some (S i)
      | None => if Ascii.eqb c' c then Some O else None
      end
  end.

(** The characters [str.strip()] removes (code points below 256). *)
Definition is_space (c : ascii) : bool :=
  let n := N_of_ascii c in
  (((9 <=? n) && (n <=? 13)) || ((28 <=? n) && (n <=? 32))
   || (n =? 133) || (n =? 160))%N.

Fixpoint lstrip (s : string) : string :=
  match s with
  | String c s' => if is_space c then lstrip s' else s
  | EmptyString => EmptyString
  end.

Fixpoint rstrip (s : string) : string :=
  match s with
  | EmptyString => EmptyString
  | String c s' =>
      match rstrip s' with
      | EmptyString => if is_space c then EmptyString else String c EmptyString
      | t => String c t
      end
  end.

(** [s.strip()] *)
Definition strip (s : string) : string := rstrip (lstrip s).

(** [s.split(sep)] for a one-character separator. *)
Fixpoint split_on (sep : ascii) (s : string) : list string :=
  match s with
  | EmptyString => [EmptyString]
  | String c s' =>
      if Ascii.eqb c sep then EmptyString :: split_on sep s'
      else match split_on sep s' with
           | w :: ws => String c w :: ws
           | [] => [String c EmptyString]
           end
  end.

(** [s.replace(a, b)] for one-character [a] and [b]. *)
Fixpoint replace_char (a b : ascii) (s : string) : string :=
  match s with
  | EmptyString => EmptyString
  | String c s' =>
      String (if Ascii.eqb c a then b else c) (replace_char a b s')
  end.

(** [sub in s] *)
Fixpoint contains (sub s : string) : bool :=
  String.prefix sub s ||
  match s with
  | EmptyString => false
  | String _ s' => contains sub s'
  end.

(** [str(n)] for an integer. *)
Definition str_of_Z (n : Z) : string := NilZero.string_of_int (Z.to_int n).

(** [str(v)], as an f-string field formats it.  Python formats every
    value; the text of a float (its shortest round-trip decimal) and of a
    list or a dict (the [repr] of the elements) is not computed here, and
    [Unmodelled] marks these values: the formatters are modelled on records
    whose printed fields are null, booleans, integers and strings. *)
Definition py_str (v : pyval) : res string :=
  match v with
  | PNone => Ok "None"
  | PBool true => Ok "True"
  | PBool false => Ok "False"
  | PInt n => Ok (str_of_Z n)
  | PStr s => Ok s
  | PFloat _ | PList _ | PDict _ => Raise Unmodelled
  end.

(** [sep.join(l)]: every element has to be a [str]. *)
Definition py_join (sep : string) (l : list pyval) : res string :=
  ws <- mapM (fun v => match v with
                       | PStr s => Ok s
                       | _ => Raise TypeError
                       end) l ;;
  Ok (String.concat sep ws).

(** [o[:n]] *)
Definition py_take (o : pyval) (n : nat) : res pyval :=
  match o with
  | PList l => Ok (PList (firstn n l))
  | PStr s => Ok (PStr (str_take n s))
  | _ => Raise TypeError
  end.

(** [len(o)] *)
Definition py_len (o : pyval) : res Z :=
  match o with
  | PList l => Ok (Z.of_nat (List.length l))
  | PStr s => Ok (Z.of_nat (String.length s))
  | PDict d => Ok (Z.of_nat (List.length d))
  | _ => Raise TypeError
  end.

(** [o.split(sep)] *)
Definition py_split (o : pyval) (sep : ascii) : res (list string) :=
  match o with
  | PStr s => Ok (split_on sep s)
  | _ => Raise AttributeError
  end.

(** ["more" in o] *)
Definition py_contains (sub : string) (o : pyval) : res bool :=
  match o with
  | PStr s => Ok (contains sub s)
  | PList l =>
      Ok (existsb (fun v => match v with
                            | PStr t => String.eqb t sub
                            | _ => false
                            end) l)
  | PDict d => Ok (existsb (fun kv => String.eqb (fst kv) sub) d)
  | _ => Raise TypeError
  end.

(** *** [list.sort] *)

Section StableSort.

Context {A : Type} (ltb : A -> A -> bool).

Fixpoint insert (x : A) (l : list A) : list A :=
  match l with
  | [] => [x]
  | y :: l' => if ltb y x then y :: insert x l' else x :: l
  end.

(** Insertion from the right: an element is placed in front of the
    elements it is not greater than, so equal elements keep their order. *)
Definition stable_sort (l : list A) : list A := fold_right insert [] l.

End StableSort.

Definition key_ltb (a b : pyval) : bool :=
  match py_compare a b with
  | Ok (Some Lt) => true
  | _ => false
  end.

(** Keys that [<] orders totally: numbers without NaN, or strings. *)
Definition is_ordered_num (v : pyval) : bool :=
  match v with
  | PBool _ | PInt _ => true
  | PFloat x => negb (F64.is_nan x)
  | _ => false
  end.

Definition is_str (v : pyval) : bool :=
  match v with PStr _ => true | _ => false end.

Definition sortable_keys (ks : list pyval) : bool :=
  forallb is_ordered_num ks || forallb is_str ks.

(** [l.sort(key=key, reverse=reverse)]: the keys are computed first, the
    list is sorted stably on them; for [reverse=True] the list is reversed
    before and after, which keeps equal keys in their original order.  On
    totally ordered keys every stable sort returns the same list; other
    keys are left out. *)
Definition list_sort {A : Type} (key : A -> res pyval) (reverse : bool)
    (l : list A) : res (list A) :=
  ks <- mapM key l ;;
  match l with
  | [] | [_] => Ok l
  | _ =>
      if sortable_keys ks then
        let lt := fun a b : pyval * A => key_ltb (fst a) (fst b) in
        let kl := combine ks l in
        Ok (map snd (if reverse then rev (stable_sort lt (rev kl))
                     else stable_sort lt kl))
      else Raise Unmodelled
  end.

(** [(p1, w1) < (p2, w2)] on tuples of a position and a word. *)
Definition tuple_ltb (a b : pyval * string) : bool :=
  match py_compare (fst a) (fst b) with
  | Ok (Some Lt) => true
  | Ok (Some Eq) => String.ltb (snd a) (snd b)
  | _ => false
  end.

(** [word_positions.sort()] *)
Definition sort_tuples (l : list (pyval * string)) : res (list (pyval * string)) :=
  match l with
  | [] | [_] => Ok l
  | _ =>
      if sortable_keys (map fst l) then Ok (stable_sort tuple_ltb l)
      else Raise Unmodelled
  end.

(** [max(l)] *)
Fixpoint py_max_from (m : pyval) (l : list pyval) : res pyval :=
  match l with
  | [] => Ok m
  | x :: l' => g <- py_gt x m ;; py_max_from (if g then x else m) l'
  end.

Definition py_max (l : list pyval) : res pyval :=
  match l with
  | [] => Raise ValueError
  | x :: l' => py_max_from x l'
  end.

(* ===================================================================== *)
(** ** Utility functions *)
(* ===================================================================== *)

(** [def normalize(value, max_value)] *)
Definition normalize (value max_value : pyval) : res pyval :=
  if negb (truthy value) || negb (truthy max_value) then Ok (PInt 0)
  else py_truediv value max_value.

(** [def reconstruct_abstract(inv_index)] *)
Definition items (o : pyval) : res (list (string * pyval)) :=
  match o with
  | PDict d => Ok d
  | _ => Raise AttributeError
  end.

Definition word_positions_of (d : list (string * pyval))
  : res (list (pyval * string)) :=
  ps <- mapM (fun wp : string * pyval =>
                l <- py_iter (snd wp) ;;
                Ok (map (fun pos => (pos, fst wp)) l)) d ;;
  Ok (List.concat ps).

Definition reconstruct_abstract (inv_index : pyval) : res string :=
  if negb (truthy inv_index) then Ok ""
  else
    d <- items inv_index ;;
    word_positions <- word_positions_of d ;;
    sorted <- sort_tuples word_positions ;;
    Ok (String.concat " " (map snd sorted)).

(** [def get_snippet(text, max_chars=500)] *)
Definition get_snippet (text : string) (max_chars : nat) : string :=
  if String.eqb text "" then ""
  else
    let snippet := str_take max_chars text in
    let snippet :=
      match rfind "."%char snippet with
      | Some last_period => str_take (last_period + 1) snippet
      | None => snippet
      end in
    strip snippet.

(** [def safe_journal_info(item)] *)
Definition safe_journal_info (item : pyval) : res (pyval * pyval) :=
  pl <- py_get item "primary_location" PNone ;;
  let primary_location := py_or pl (PDict []) in
  src <- py_get primary_location "source" PNone ;;
  let source := py_or src (PDict []) in
  dn <- py_get source "display_name" PNone ;;
  let journal_name := py_or dn (PStr "Unknown Journal") in
  hn <- py_get source "host_organization_name" PNone ;;
  let publisher_name := py_or hn (PStr "Unknown Publisher") in
  Ok (journal_name, publisher_name).

(** [def extract_authors(item, max_authors=5)] *)
Definition author_entry (a : pyval) : res (list pyval) :=
  au <- py_get a "author" PNone ;;
  let author := py_or au (PDict []) in
  name <- py_get author "display_name" PNone ;;
  if truthy name then
    id <- py_get author "id" (PStr "") ;;
    orcid <- py_get author "orcid" (PStr "") ;;
    Ok [PDict [("name", name); ("id", id); ("orcid", orcid)]]
  else Ok [].

Definition more_entry (n : Z) : pyval :=
  PDict [("name", PStr ("+" ++ str_of_Z n ++ " more")%string);
         ("id", PStr ""); ("orcid", PStr "")].

Definition extract_authors (item : pyval) (max_authors : nat)
  : res (list pyval) :=
  a0 <- py_get item "authorships" PNone ;;
  let authorships := py_or a0 (PList []) in
  head <- py_take authorships max_authors ;;
  els <- py_iter head ;;
  entries <- mapM author_entry els ;;
  let authors := List.concat entries in
  n <- py_len authorships ;;
  if n >? Z.of_nat max_authors
  then Ok (authors ++ [more_entry (n - Z.of_nat max_authors)])
  else Ok authors.

(** [def extract_concepts(item, max_concepts=5)] *)
Definition concept_entry (c : pyval) : res (list pyval) :=
  sc <- py_get c "score" (PInt 0) ;;
  keep <- py_gt sc (PFloat f0_3) ;;
  if keep then
    name <- py_get c "display_name" (PStr "") ;;
    sc' <- py_get c "score" (PInt 0) ;;
    r <- py_round sc' 2 ;;
    Ok [PDict [("name", name); ("score", r)]]
  else Ok [].

Definition extract_concepts (item : pyval) (max_concepts : nat)
  : res (list pyval) :=
  c0 <- py_get item "concepts" PNone ;;
  let concepts := py_or c0 (PList []) in
  head <- py_take concepts max_concepts ;;
  els <- py_iter head ;;
  entries <- mapM concept_entry els ;;
  Ok (List.concat entries).

(** [urllib.parse.quote(s)] with its default [safe='/']: the UTF-8 bytes
    of every character outside [A-Za-z0-9_.-~/] are percent-encoded. *)
Definition hex_digit (n : N) : ascii :=
  ascii_of_N (if (n <? 10)%N then 48 + n else 55 + n)%N.

Definition percent (b : N) : string :=
  String "%" (String (hex_digit (b / 16)) (String (hex_digit (b mod 16)) "")).

Definition is_safe (c : ascii) : bool :=
  let n := N_of_ascii c in
  (((65 <=? n) && (n <=? 90)) || ((97 <=? n) && (n <=? 122))
   || ((48 <=? n) && (n <=? 57))
   || (n =? 95) || (n =? 46) || (n =? 45) || (n =? 126) || (n =? 47))%N.

Definition quote_char (c : ascii) : string :=
  let n := N_of_ascii c in
  if (n <? 128)%N then (if is_safe c then String c "" else percent n)
  else (percent (192 + n / 64) ++ percent (128 + n mod 64))%string.

Fixpoint quote (s : string) : string :=
  match s with
  | EmptyString => EmptyString
  | String c s' => (quote_char c ++ quote s')%string
  end.

(** [def get_scopus_search_url(title)] *)
Definition get_scopus_search_url (title : pyval) : res pyval :=
  match title with
  | PStr t =>
      Ok (PStr ("https://www.scopus.com/results/results.uri?sort=plf-f&src=s&sot=b&sdt=b&sl=50&s=TITLE%28"
                ++ quote t ++ "%29")%string)
  | _ => Raise TypeError
  end.

(** The author names a citation shows:
    [[a["name"] for a in paper.get("authors", [])
        if a.get("name") and "more" not in a["name"]]] *)
Definition cited_name (a : pyval) : res (list pyval) :=
  name <- py_get a "name" PNone ;;
  if truthy name then
    has_more <- py_contains "more" name ;;
    if has_more then Ok [] else Ok [name]
  else Ok [].

Definition citation_author_names (paper : pyval) : res (list pyval) :=
  au <- py_get paper "authors" (PList []) ;;
  els <- py_iter au ;;
  ns <- mapM cited_name els ;;
  Ok (List.concat ns).

Definition nl : string := String (ascii_of_nat 10) "".

Definition py_replace (o : pyval) (a b : ascii) : res string :=
  match o with
  | PStr s => Ok (replace_char a b s)
  | _ => Raise AttributeError
  end.

(** [def format_bibtex(paper)] *)
Definition format_bibtex (paper : pyval) : res string :=
  names <- citation_author_names paper ;;
  author_str <- py_join " and " names ;;
  d0 <- py_get paper "doi" (PStr "") ;;
  let doi := py_or d0 (PStr "") in
  key <- (if truthy doi
          then parts <- py_split doi "/" ;; Ok (last parts "")
          else t <- py_get paper "title" (PStr "unknown") ;;
               t20 <- py_take t 20 ;;
               py_replace t20 " " "_") ;;
  year <- py_get paper "year" (PStr "") ;;
  title <- py_get paper "title" (PStr "") ;;
  title_s <- py_str title ;;
  journal <- py_get paper "journal" (PStr "") ;;
  journal_s <- py_str journal ;;
  year_s <- py_str year ;;
  doi_s <- py_str doi ;;
  publisher <- py_get paper "publisher" (PStr "") ;;
  publisher_s <- py_str publisher ;;
  Ok ("@article{" ++ key ++ "," ++ nl ++
      "  title = {" ++ title_s ++ "}," ++ nl ++
      "  author = {" ++ author_str ++ "}," ++ nl ++
      "  journal = {" ++ journal_s ++ "}," ++ nl ++
      "  year = {" ++ year_s ++ "}," ++ nl ++
      "  doi = {" ++ doi_s ++ "}," ++ nl ++
      "  publisher = {" ++ publisher_s ++ "}" ++ nl ++
      "}" ++ nl)%string.

(** [def format_apa(paper)] *)
Definition apa_author_str (author_names : list pyval) : res string :=
  match author_names with
  | [] => Ok "Unknown"
  | [a] => py_str a
  | [a; b] => x <- py_str a ;; y <- py_str b ;; Ok (x ++ " & " ++ y)%string
  | _ =>
      front <- py_join ", " (removelast author_names) ;;
      z <- py_str (last author_names PNone) ;;
      Ok (front ++ ", & " ++ z)%string
  end.

Definition format_apa (paper : pyval) : res string :=
  author_names <- citation_author_names paper ;;
  author_str <- apa_author_str author_names ;;
  year <- py_get paper "year" (PStr "n.d.") ;;
  title <- py_get paper "title" (PStr "") ;;
  journal <- py_get paper "journal" (PStr "") ;;
  doi <- py_get paper "doi" (PStr "") ;;
  year_s <- py_str year ;;
  title_s <- py_str title ;;
  journal_s <- py_str journal ;;
  let citation :=
    (author_str ++ " (" ++ year_s ++ "). " ++ title_s ++ ". *"
       ++ journal_s ++ "*.")%string in
  if truthy doi
  then doi_s <- py_str doi ;; Ok (citation ++ " " ++ doi_s)%string
  else Ok citation.

(** [def build_paper_result(item, start_year, end_year, max_citations)];
    the two years are the integers [search_papers] passes. *)
Definition citation_score_of (citations max_citations : pyval) : res pyval :=
  if truthy max_citations then normalize citations max_citations
  else Ok (PInt 0).

Definition recency_score_of (year : pyval) (start_year end_year : Z)
  : res pyval :=
  let year_range := Z.max (end_year - start_year) 1 in
  if truthy year
  then d <- py_sub year (PInt start_year) ;; normalize d (PInt year_range)
  else Ok (PInt 0).

Definition final_score_of (relevance citation_score recency_score : pyval)
  : res pyval :=
  a <- py_mul relevance (PFloat f0_5) ;;
  b <- py_mul citation_score (PFloat f0_3) ;;
  ab <- py_add a b ;;
  c <- py_mul recency_score (PFloat f0_2) ;;
  py_add ab c.

Definition build_paper_result (item : pyval) (start_year end_year : Z)
    (max_citations : pyval) : res pyval :=
  r0 <- py_get item "relevance_score" PNone ;;
  let relevance := py_or r0 (PInt 0) in
  citations <- py_get item "cited_by_count" (PInt 0) ;;
  year <- py_get item "publication_year" (PInt 0) ;;
  citation_score <- citation_score_of citations max_citations ;;
  recency_score <- recency_score_of year start_year end_year ;;
  final_score <- final_score_of relevance citation_score recency_score ;;
  inv <- py_get item "abstract_inverted_index" PNone ;;
  abstract_raw <- reconstruct_abstract inv ;;
  let snippet := py_or (PStr (get_snippet abstract_raw 500))
                       (PStr "No abstract available.") in
  jp <- safe_journal_info item ;;
  authors <- extract_authors item 5 ;;
  concepts <- extract_concepts item 5 ;;
  openalex_id <- py_get item "id" (PStr "") ;;
  d0 <- py_get item "doi" PNone ;;
  let doi := py_or d0 (PStr "") in
  t0 <- py_get item "title" PNone ;;
  let title := py_or t0 (PStr "") in
  scopus_search_link <-
    (if truthy title then get_scopus_search_url title else Ok PNone) ;;
  oa <- py_get item "open_access" (PDict []) ;;
  is_oa <- py_get oa "is_oa" (PBool false) ;;
  oa' <- py_get item "open_access" (PDict []) ;;
  oa_url <- py_get oa' "oa_url" (PStr "") ;;
  type <- py_get item "type" (PStr "") ;;
  score <- py_round final_score 4 ;;
  Ok (PDict [("id", openalex_id);
             ("title", title);
             ("year", year);
             ("authors", PList authors);
             ("journal", fst jp);
             ("publisher", snd jp);
             ("citations", citations);
             ("open_access", is_oa);
             ("oa_url", oa_url);
             ("doi", doi);
             ("abstract", PStr abstract_raw);
             ("summary", snippet);
             ("concepts", PList concepts);
             ("type", type);
             ("score", score);
             ("scopus_search_url", scopus_search_link)]).

(* ===================================================================== *)
(** ** Search endpoint: ranking of the provider's batch *)
(* ===================================================================== *)

(** [x["score"]] *)
Definition py_item (o : pyval) (k : string) : res pyval :=
  match o with
  | PDict d => match lookup k d with
               | Some v => Ok v
               | None => Raise KeyError
               end
  | _ => Raise TypeError
  end.

(** [def search_papers(...)], from [papers = data.get("results", [])] on:
    the ["results"] entry of the returned object, given the decoded batch
    [papers], the year window after its defaults, [sort_by] and [limit]. *)
Definition search_papers (sort_by : string) (limit : nat)
    (start_year end_year : Z) (papers : list pyval) : res (list pyval) :=
  match papers with
  | [] => Ok []
  | _ =>
      counts <- mapM (fun p => py_get p "cited_by_count" (PInt 0)) papers ;;
      m <- py_max counts ;;
      let max_citations := py_or m (PInt 1) in
      ranked_results <-
        mapM (fun item =>
                build_paper_result item start_year end_year max_citations)
             papers ;;
      ranked_results <-
        (if String.eqb sort_by "relevance"
         then list_sort (fun x => py_item x "score") true ranked_results
         else Ok ranked_results) ;;
      Ok (firstn limit ranked_results)
  end.

(* ===================================================================== *)
(** ** LLM helpers *)
(* ===================================================================== *)

(** The settings read from the environment when the module is loaded. *)
Record config : Type := {
  LLM_PROVIDER : string;
  OPENAI_API_KEY : string;
  OLLAMA_MODEL : string
}.

(** What [requests.get(f"{OLLAMA_BASE_URL}/api/tags", timeout=3)] gives:
    an exception (connection refused, timeout), or a response with its
    status code and its body, [None] when [resp.json()] cannot decode it. *)
Inductive probe : Type :=
| RequestFailed
| Response (status_code : Z) (json : option pyval).

Definition model_tag_stripped (name : string) : string :=
  hd "" (split_on ":" name).

(** [[m.get("name", "").split(":")[0] for m in resp.json().get("models", [])]] *)
Definition listed_models (body : pyval) : res (list string) :=
  ms <- py_get body "models" (PList []) ;;
  els <- py_iter ms ;;
  mapM (fun m => name <- py_get m "name" (PStr "") ;;
                 parts <- py_split name ":" ;;
                 Ok (hd "" parts)) els.

(** [def check_ollama_available()]; every exception is swallowed. *)
Definition check_ollama_available (cfg : config) (p : probe) : bool :=
  match p with
  | RequestFailed => false
  | Response status_code json =>
      if status_code =? 200 then
        match json with
        | None => false
        | Some body =>
            match listed_models body with
            | Ok models =>
                existsb (String.eqb (model_tag_stripped (OLLAMA_MODEL cfg)))
                        models
            | Raise _ => false
            end
        end
      else false
  end.

Inductive provider : Type := Ollama | OpenAI.

(** [def get_active_llm_provider()]; [None] is Python's [None]. *)
Definition get_active_llm_provider (cfg : config) (p : probe)
  : option provider :=
  if String.eqb (LLM_PROVIDER cfg) "openai"
     && negb (String.eqb (OPENAI_API_KEY cfg) "")
  then Some OpenAI
  else if String.eqb (LLM_PROVIDER cfg) "ollama" then Some Ollama
  else if check_ollama_available cfg p then Some Ollama
  else if negb (String.eqb (OPENAI_API_KEY cfg) "") then Some OpenAI
  else None.

(* ===================================================================== *)
(** ** Auxiliary definitions for the statements *)
(* ===================================================================== *)

(** [float(v)] for a number. *)
Definition py_float (v : pyval) : res float :=
  match as_num v with
  | Some a => float_of_num a
  | None => Raise TypeError
  end.

(** The weighted sum of the source, on binary64 operands. *)
Definition weighted_sum (relevance citation_score recency_score : float)
  : float :=
  F64.add (F64.add (F64.mul relevance f0_5) (F64.mul citation_score f0_3))
          (F64.mul recency_score f0_2).

(** What [build_paper_result] computes before it assembles the record. *)
Record scores : Type := {
  sc_relevance : pyval;
  sc_citation : pyval;
  sc_recency : pyval
}.

Definition component_scores (item : pyval) (start_year end_year : Z)
    (max_citations : pyval) : res scores :=
  r0 <- py_get item "relevance_score" PNone ;;
  citations <- py_get item "cited_by_count" (PInt 0) ;;
  year <- py_get item "publication_year" (PInt 0) ;;
  citation_score <- citation_score_of citations max_citations ;;
  recency_score <- recency_score_of year start_year end_year ;;
  Ok {| sc_relevance := py_or r0 (PInt 0);
        sc_citation := citation_score;
        sc_recency := recency_score |}.

(** A work whose three signals are maximal in a batch whose largest
    citation count is 40 and whose window is 2020-2025. *)
Definition top_item : pyval :=
  PDict [("relevance_score", PFloat F64.one);
         ("cited_by_count", PInt 40);
         ("publication_year", PInt 2025)].

Definition top_paper : pyval :=
  Eval vm_compute in
    match build_paper_result top_item 2020 2025 (PInt 40) with
    | Ok p => p
    | Raise _ => PNone
    end.

(** A nested object that is absent, or present and null (or otherwise
    falsy), reads as the empty object behind [x.get(k) or {}]. *)
Definition absent_or_null (k : string) (d : list (string * pyval)) : Prop :=
  match lookup k d with
  | None => True
  | Some v => truthy v = false
  end.

(** The characters of a string. *)
Definition has_char (c : ascii) (s : string) : Prop :=
  In c (list_ascii_of_string s).

(** [base] is [name] without its tag: what stands before the first colon
    of [name], the whole name when it has no colon. *)
Definition without_tag (name base : string) : Prop :=
  ~ has_char ":" base /\
  (name = base \/ exists tag, name = (base ++ ":" ++ tag)%string).

(** An entry of the listing that carries the name [n]: an object whose
    ["name"] is the string [n], or which has no ["name"] when [n] is
    empty. *)
Definition model_entry (m : pyval) (n : string) : Prop :=
  exists d, m = PDict d /\
    (lookup "name" d = Some (PStr n) \/ (lookup "name" d = None /\ n = "")).

(** The probe succeeded and listed the models [names]: the answer has
    status 200 and its body is a JSON object whose ["models"] entry is a
    list of entries that carry these names. *)
Definition probe_lists (p : probe) (names : list string) : Prop :=
  exists d l,
    p = Response 200 (Some (PDict d)) /\
    lookup "models" d = Some (PList l) /\
    Forall2 model_entry l names.

(** The local provider answers and serves the configured model: one of
    the listed names is, tag apart, the configured name. *)
Definition local_ready (cfg : config) (p : probe) : Prop :=
  exists names base n,
    probe_lists p names /\
    without_tag (OLLAMA_MODEL cfg) base /\
    In n names /\ without_tag n base.

(** The automatic mode with the model ["llama3.2"] and no remote key. *)
Definition llama_auto : config :=
  {| LLM_PROVIDER := "auto"; OPENAI_API_KEY := "";
     OLLAMA_MODEL := "llama3.2" |}.

(** An answer of the local provider that lists the configured model next
    to an entry whose name is null. *)
Definition listing_with_null_name : probe :=
  Response 200
    (Some (PDict [("models",
                   PList [PDict [("name", PStr "llama3.2:latest")];
                          PDict [("name", PNone)]])])).


(** An authorship entry that yields an author: it carries a nested author
    with a display name. *)
Definition named (a : pyval) : Prop :=
  exists e, author_entry a = Ok [e].

(** An item with seven authorships, [A] to [G]. *)
Definition authorship (name : string) : pyval :=
  PDict [("author", PDict [("display_name", PStr name);
                            ("id", PStr ("https://openalex.org/" ++ name)%string)])].

Definition seven_authors_item : pyval :=
  PDict [("authorships",
          PList (map authorship ["A"; "B"; "C"; "D"; "E"; "F"; "G"]))].


(** The author entry [a] carries the display name [n]. *)
Definition has_name (a : pyval) (n : string) : Prop :=
  exists d, a = PDict d /\ lookup "name" d = Some (PStr n).

(** The names both citation styles keep: non-empty and without the
    substring ["more"]. *)
Definition cited (n : string) : bool :=
  negb (String.eqb n "") && negb (contains "more" n).

(** The narrative author string of [format_apa], on names. *)
Definition apa_names (ns : list string) : string :=
  match ns with
  | [] => "Unknown"
  | [a] => a
  | [a; b] => (a ++ " & " ++ b)%string
  | _ => (String.concat ", " (removelast ns) ++ ", & " ++ last ns "")%string
  end.

(** A paper by Seymour Papert, with his first name spelt "Seymore", and
    Cynthia Solomon. *)
Definition papert_paper : pyval :=
  PDict [("title", PStr "Twenty things to do with a computer");
         ("year", PInt 1971);
         ("authors",
          PList [PDict [("name", PStr "Seymore Papert");
                        ("id", PStr "A1"); ("orcid", PStr "")];
                 PDict [("name", PStr "Cynthia Solomon");
                        ("id", PStr "A2"); ("orcid", PStr "")]]);
         ("journal", PStr "Educational Technology");
         ("publisher", PStr "ETP");
         ("doi", PStr "")].


(** [c] is a concept object with display name [n] and float score [x]. *)
Definition is_concept (c : pyval) (nx : string * float) : Prop :=
  exists d, c = PDict d /\
            lookup "display_name" d = Some (PStr (fst nx)) /\
            lookup "score" d = Some (PFloat (snd nx)).

(** [x > 0.3] on floats. *)
Definition qualifies (nx : string * float) : bool :=
  match F64.compare (snd nx) f0_3 with
  | Some Gt => true
  | _ => false
  end.

(** The projected entry [{"name": n, "score": round(x, 2)}]. *)
Definition concept_record (nx : string * float) : pyval :=
  PDict [("name", PStr (fst nx));
         ("score", PFloat (F64.round_digits (snd nx) 2))].

(** The reading "exclude the concepts that do not qualify, then cap the
    remaining ones": the filter runs over all concepts of the item and the
    cap applies to what it keeps. *)
Definition concepts_filtered_then_capped (item : pyval) (max_concepts : nat)
  : res (list pyval) :=
  c0 <- py_get item "concepts" PNone ;;
  let concepts := py_or c0 (PList []) in
  els <- py_iter concepts ;;
  entries <- mapM concept_entry els ;;
  Ok (firstn max_concepts (List.concat entries)).

(** Six concepts, the first below the threshold, the other five above. *)
Definition concept (n : string) (num den : Z) : pyval :=
  PDict [("display_name", PStr n);
         ("score", PFloat (F64.of_ratio num (Z.to_pos den)))].

Definition six_scores : list (string * float) :=
  [("Art", F64.of_ratio 1 10); ("Biology", F64.of_ratio 9 10);
   ("Chemistry", F64.of_ratio 8 10); ("Data", F64.of_ratio 7 10);
   ("Ecology", F64.of_ratio 6 10); ("Finance", F64.of_ratio 5 10)].

Definition six_concepts : list pyval :=
  [concept "Art" 1 10; concept "Biology" 9 10; concept "Chemistry" 8 10;
   concept "Data" 7 10; concept "Ecology" 6 10; concept "Finance" 5 10].

Definition six_concepts_item : pyval :=
  PDict [("concepts", PList six_concepts)].


(** An inverted abstract index as the provider sends it: each word with the
    list of the integer positions it occurs at. *)
Definition inverted_index (idx : list (string * list Z)) : pyval :=
  PDict (map (fun wp => (fst wp, PList (map PInt (snd wp)))) idx).

(** Its (position, word) pairs, in the order the loops produce them. *)
Definition occurrences (idx : list (string * list Z)) : list (Z * string) :=
  flat_map (fun wp => map (fun pos => (pos, fst wp)) (snd wp)) idx.

Definition tuple_of (a : Z * string) : pyval * string := (PInt (fst a), snd a).

(** The order of the tuples [(pos, word)] on integer positions. *)
Definition occ_ltb (a b : Z * string) : bool :=
  (fst a <? fst b) || ((fst a =? fst b) && String.ltb (snd a) (snd b)).

Definition by_position (a b : Z * string) : Prop := fst a <= fst b.

Definition space_free (w : string) : bool :=
  forallb (fun c => negb (Ascii.eqb c " ")) (list_ascii_of_string w).

(** Reconstruction returns a text, and splitting that text on single
    spaces gives back the words of the index in ascending position order. *)
Definition resplit_yields_words (idx : list (string * list Z)) : Prop :=
  exists text sorted,
    reconstruct_abstract (inverted_index idx) = Ok text /\
    Permutation sorted (occurrences idx) /\
    StronglySorted by_position sorted /\
    text = String.concat " " (map snd sorted) /\
    split_on " " text = map snd sorted.


(** The index of "hello big world": [{"world": [2], "hello": [0], "big": [1]}]. *)
Definition hello_index : list (string * list Z) :=
  [("world", [2]); ("hello", [0]); ("big", [1])].


(** *** The order of binary64, through a lexicographic key

    A float that is not a NaN is ranked by its sign class, then its
    exponent, then its mantissa (negated for negative numbers). *)
Definition fkey (x : float) : Z * Z * Z :=
  match x with
  | S754_zero _ => (0, 0, 0)
  | S754_infinity false => (2, 0, 0)
  | S754_infinity true => (-2, 0, 0)
  | S754_finite false m e => (1, e, Zpos m)
  | S754_finite true m e => (-1, - e, Zneg m)
  | S754_nan => (0, 0, 0)
  end.

Definition lexcmp (a b : Z * Z * Z) : comparison :=
  match Z.compare (fst (fst a)) (fst (fst b)) with
  | Eq => match Z.compare (snd (fst a)) (snd (fst b)) with
          | Eq => Z.compare (snd a) (snd b)
          | c => c
          end
  | c => c
  end.

Definition lexlt (a b : Z * Z * Z) : Prop :=
  fst (fst a) < fst (fst b) \/
  (fst (fst a) = fst (fst b) /\
   (snd (fst a) < snd (fst b) \/
    (snd (fst a) = snd (fst b) /\ snd a < snd b))).

Definition lexeq (a b : Z * Z * Z) : Prop :=
  fst (fst a) = fst (fst b) /\ snd (fst a) = snd (fst b) /\ snd a = snd b.


(** *** Statements about the ranking *)

(** The float under the ["score"] key of a built record. *)
Definition score_of (p : pyval) : option float :=
  match py_item p "score" with
  | Ok (PFloat x) => Some x
  | _ => None
  end.

(** The record has a score that is not a NaN. *)
Definition score_ordered (p : pyval) : Prop :=
  exists x, score_of p = Some x /\ F64.is_nan x = false.

(** [a] comes before [b] in descending score order. *)
Definition score_ge (a b : pyval) : Prop :=
  exists x y, score_of a = Some x /\ score_of b = Some y /\
              F64.leb y x = true.

(** [p] has the same score as [q] ([==] on floats). *)
Definition same_score (q p : pyval) : bool :=
  match score_of q, score_of p with
  | Some a, Some b => F64.eqb a b
  | _, _ => false
  end.

(** [max([p.get("cited_by_count", 0) for p in papers]) or 1] *)
Definition batch_max_citations (papers : list pyval) : res pyval :=
  counts <- mapM (fun p => py_get p "cited_by_count" (PInt 0)) papers ;;
  m <- py_max counts ;;
  Ok (py_or m (PInt 1)).

(** A batch whose scores are 0.3, 0.9 and 0.9. *)
Definition scored_item (id : string) (num den : Z) : pyval :=
  PDict [("id", PStr id);
         ("relevance_score", PFloat (F64.of_ratio num (Z.to_pos den)))].

Definition tied_batch : list pyval :=
  [scored_item "A" 6 10; scored_item "B" 18 10; scored_item "C" 18 10].

Definition ids (r : res (list pyval)) : list pyval :=
  match r with
  | Ok l => map (fun p => match py_item p "id" with
                          | Ok v => v
                          | Raise _ => PNone
                          end) l
  | Raise _ => []
  end.

(** *** Statements about [list.sort] on float keys *)

Section FloatKeys.

Context {A : Type} (key : A -> res pyval).

(** The element has a float key that is not a NaN. *)
Definition float_keyed (a : A) : Prop :=
  exists x, key a = Ok (PFloat x) /\ F64.is_nan x = false.

Definition key_ge (a b : A) : Prop :=
  exists x y, key a = Ok (PFloat x) /\ key b = Ok (PFloat y) /\
              F64.leb y x = true.

Definition key_eqb (x : float) (a : A) : bool :=
  match key a with
  | Ok (PFloat y) => F64.eqb x y
  | _ => false
  end.

(** A decorated element: the key that [list.sort] computed for it. *)
Definition decorated (kp : pyval * A) : Prop :=
  exists x, fst kp = PFloat x /\ key (snd kp) = Ok (PFloat x) /\
            F64.is_nan x = false.

Definition dec_le (a b : pyval * A) : Prop :=
  exists x y, fst a = PFloat x /\ fst b = PFloat y /\ F64.leb x y = true.

Definition dec_ltb (a b : pyval * A) : bool := key_ltb (fst a) (fst b).

End FloatKeys.


Definition tied_ranked : list pyval :=
  Eval vm_compute in
    match mapM (fun item => build_paper_result item 2020 2025 (PInt 1))
               tied_batch with
    | Ok l => l
    | Raise _ => []
    end.


(** *** Statements about the component scores *)

(** A rounding state whose mantissa, read at exponent [-k], is at most 1,
    and less than 1 when digits have been shifted out. *)
Definition below_one (mrs : shr_record) (k : Z) : Prop :=
  0 <= shr_m mrs <= 2 ^ k /\
  (shr_r mrs || shr_s mrs = true -> shr_m mrs < 2 ^ k).

(** The score is the integer 0 or a float between 0.0 and 1.0. *)
Definition in_unit (v : pyval) : Prop :=
  v = PInt 0 \/
  exists x, v = PFloat x /\
            F64.leb F64.zero x = true /\ F64.leb x F64.one = true.


(** The records of a batch in provider order, as [search_papers] builds
    them before it sorts. *)
Definition built_records (start_year end_year : Z) (papers : list pyval)
  : res (list pyval) :=
  match papers with
  | [] => Ok []
  | _ =>
      max_citations <- batch_max_citations papers ;;
      mapM (fun item =>
              build_paper_result item start_year end_year max_citations)
           papers
  end.

Definition tied_results : list pyval :=
  Eval vm_compute in
    match search_papers "relevance" 10 2020 2025 tied_batch with
    | Ok l => l
    | Raise _ => []
    end.


(* ===================================================================== *)
(** ** Endpoints *)
(* ===================================================================== *)

(** What a request handler does: it returns a JSON object, raises an
    [HTTPException] with a status code and a detail, or lets another
    exception escape. *)
Inductive http (A : Type) : Type :=
| Returned (a : A)
| HTTPException (status_code : Z) (detail : string)
| Uncaught (e : exn).
Arguments Returned {A} a.
Arguments HTTPException {A} status_code detail.
Arguments Uncaught {A} e.

Definition run {A B : Type} (c : res A) (k : A -> http B) : http B :=
  match c with
  | Ok a => k a
  | Raise e => Uncaught e
  end.

Notation "x <~ c ;; k" := (run c (fun x => k))
  (at level 61, c at next level, right associativity).

(** [body.get(k, default)] on the request body, which is a dict. *)
Definition dict_get (d : list (string * pyval)) (k : string)
    (default : pyval) : pyval :=
  match lookup k d with
  | Some v => v
  | None => default
  end.

(** [v == s] for a string literal [s]. *)
Definition py_eq_str (v : pyval) (s : string) : bool :=
  match v with
  | PStr t => String.eqb t s
  | _ => false
  end.

(** [def generate_citation(request, body)] *)
Definition generate_citation (body : list (string * pyval)) : http pyval :=
  let format_type := dict_get body "format" (PStr "bibtex") in
  let paper := dict_get body "paper" (PDict []) in
  if negb (truthy paper) then HTTPException 400 "No paper data provided"
  else if py_eq_str format_type "bibtex" then
    c <~ format_bibtex paper ;; Returned (PDict [("citation", PStr c)])
  else if py_eq_str format_type "apa" then
    c <~ format_apa paper ;; Returned (PDict [("citation", PStr c)])
  else
    f <~ py_str format_type ;;
    HTTPException 400 ("Unsupported format: " ++ f)%string.

(** [def batch_citations(request, body)] *)
Definition batch_entry (format_type paper : pyval) : res (list string) :=
  if py_eq_str format_type "bibtex" then
    c <- format_bibtex paper ;; Ok [c]
  else if py_eq_str format_type "apa" then
    c <- format_apa paper ;; Ok [c]
  else Ok [].

Definition batch_citations (body : list (string * pyval)) : http pyval :=
  let papers := dict_get body "papers" (PList []) in
  let format_type := dict_get body "format" (PStr "bibtex") in
  if negb (truthy papers) then HTTPException 400 "No papers provided"
  else
    els <~ py_iter papers ;;
    citations <~ mapM (batch_entry format_type) els ;;
    Returned (PDict [("citations",
                      PStr (String.concat nl (List.concat citations)))]).

(** What [summarize_with_ollama(prompt)] and [summarize_with_openai(prompt)]
    give: the stripped text of the completion, a [requests.Timeout], another
    [requests.RequestException] (connection error, HTTP error status), or an
    exception of another class (a reply of an unexpected shape). *)
Inductive llm_outcome : Type :=
| LLMText (summary : string)
| LLMTimeout
| LLMRequestError
| LLMOther (e : exn).

Definition provider_name (p : provider) : string :=
  match p with
  | Ollama => "ollama"
  | OpenAI => "openai"
  end.

Definition summary_prompt (title abstract : string) : string :=
  ("You are a research assistant. Summarize this academic paper in 3-4 clear sentences. "
   ++ "Focus on: (1) the research objective, (2) the methodology, (3) key findings. "
   ++ "Use simple language accessible to graduate students." ++ nl ++ nl
   ++ "Title: " ++ title ++ nl ++ nl ++ "Abstract: " ++ abstract)%string.

(** [def summarize_paper(request, body)]; [llm] stands for the two
    completion helpers. *)
Definition summarize_paper (cfg : config) (p : probe)
    (llm : provider -> string -> llm_outcome)
    (body : list (string * pyval)) : http pyval :=
  match get_active_llm_provider cfg p with
  | None =>
      HTTPException 503
        "No AI provider available. Install Ollama (free) or set OPENAI_API_KEY in .env"
  | Some provider =>
      let title := dict_get body "title" (PStr "") in
      let abstract := dict_get body "abstract" (PStr "") in
      if negb (truthy abstract) || py_eq_str abstract "No abstract available."
      then
        HTTPException 400
          "This paper doesn't have an abstract available, so we can't generate a summary. Try another paper!"
      else
        t <~ py_str title ;;
        a <~ py_str abstract ;;
        match llm provider (summary_prompt t a) with
        | LLMText summary =>
            Returned (PDict [("summary", PStr summary);
                             ("provider", PStr (provider_name provider))])
        | LLMTimeout =>
            HTTPException 504
              "AI is taking too long to respond. The model might be busy - please try again in a moment."
        | LLMRequestError =>
            HTTPException 502
              ("AI summary service is temporarily unavailable. "
               ++ match provider with
                  | Ollama => "Make sure Ollama is running on your system."
                  | OpenAI => "Please check your API key and try again."
                  end)%string
        | LLMOther e => Uncaught e
        end
  end.

(** The other settings read from the environment. *)
Record settings : Type := {
  llm_config : config;
  APP_ENV : string;
  SCOPUS_API_KEY : string;
  OPENALEX_EMAIL : string
}.

Definition py_bool_of_str (s : string) : pyval :=
  PBool (negb (String.eqb s "")).

(** [def health_check(request)]; the endpoint probes the local provider
    twice, once in [get_active_llm_provider] and once by itself. *)
Definition health_check (st : settings) (p1 p2 : probe) : pyval :=
  let cfg := llm_config st in
  let provider := get_active_llm_provider cfg p1 in
  let ollama_ok := check_ollama_available cfg p2 in
  PDict [("status", PStr "healthy");
         ("version", PStr "2.0.0");
         ("environment", PStr (APP_ENV st));
         ("ai_enabled", PBool (match provider with
                               | Some _ => true
                               | None => false
                               end));
         ("ai_provider", PStr (match provider with
                               | Some q => provider_name q
                               | None => "none"
                               end));
         ("ollama_available", PBool ollama_ok);
         ("ollama_model", if ollama_ok then PStr (OLLAMA_MODEL cfg)
                          else PNone);
         ("openai_configured", py_bool_of_str (OPENAI_API_KEY cfg));
         ("scopus_enabled", py_bool_of_str (SCOPUS_API_KEY st));
         ("data_source", PStr "OpenAlex (260M+ scholarly works)")].


(** [def export_to_excel(...)]: the row the loop appends for one item of
    the batch. *)
Definition export_author (a : pyval) : res (list pyval) :=
  name <- py_get a "name" (PStr "") ;;
  has_more <- py_contains "more" name ;;
  if has_more then Ok []
  else n <- py_item a "name" ;; Ok [n].

Definition export_row (item : pyval) : res pyval :=
  jp <- safe_journal_info item ;;
  authors <- extract_authors item 5 ;;
  names <- mapM export_author authors ;;
  author_str <- py_join "; " (List.concat names) ;;
  inv <- py_get item "abstract_inverted_index" PNone ;;
  abstract <- reconstruct_abstract inv ;;
  title <- py_get item "title" PNone ;;
  year <- py_get item "publication_year" PNone ;;
  citations <- py_get item "cited_by_count" PNone ;;
  oa <- py_get item "open_access" (PDict []) ;;
  is_oa <- py_get oa "is_oa" (PBool false) ;;
  doi <- py_get item "doi" PNone ;;
  type <- py_get item "type" (PStr "") ;;
  Ok (PDict [("Title", title);
             ("Authors", PStr author_str);
             ("Year", year);
             ("Journal", fst jp);
             ("Publisher", snd jp);
             ("Citations", citations);
             ("Open Access", is_oa);
             ("DOI", doi);
             ("Type", type);
             ("Abstract", PStr (if String.eqb abstract "" then ""
                                else str_take 500 abstract))]).

(** What the request to the provider's works endpoint gives: a
    [requests.RequestException] with its message (connection error, HTTP
    error status, undecodable body), or the decoded body. *)
Inductive fetched : Type :=
| FetchFailed (message : string)
| Fetched (data : pyval).

(** The year window after its defaults: an absent or zero year is replaced. *)
Definition year_window (current_year : Z) (start_year end_year : option Z)
  : Z * Z :=
  (match start_year with
   | Some y => if y =? 0 then current_year - 5 else y
   | None => current_year - 5
   end,
   match end_year with
   | Some y => if y =? 0 then current_year else y
   | None => current_year
   end).

(** [journal_set.add(paper["journal"])]: the element has to be hashable;
    a list or a dict is not.  Names that are not strings are left out. *)
Definition journal_key (paper : pyval) : res string :=
  j <- py_item paper "journal" ;;
  match j with
  | PStr s => Ok s
  | PList _ | PDict _ => Raise TypeError
  | _ => Raise Unmodelled
  end.

(** [def search_papers(...)] from the answer of the provider on: the whole
    object the endpoint returns. *)
Definition search_papers_response (current_year : Z) (topic : string)
    (limit : nat) (page : Z) (start_year end_year : option Z)
    (sort_by : string) (f : fetched) : http pyval :=
  let '(start_year, end_year) :=
    year_window current_year start_year end_year in
  match f with
  | FetchFailed message =>
      HTTPException 502 ("Failed to fetch from OpenAlex: " ++ message)%string
  | Fetched data =>
      papers <~ py_get data "results" (PList []) ;;
      meta <~ py_get data "meta" (PDict []) ;;
      total_count <~ py_get meta "count" (PInt 0) ;;
      let years_filter :=
        PStr (str_of_Z start_year ++ "-" ++ str_of_Z end_year)%string in
      if negb (truthy papers) then
        Returned (PDict [("topic", PStr topic);
                         ("years_filter", years_filter);
                         ("total_found", PInt 0);
                         ("total_journals", PInt 0);
                         ("page", PInt page);
                         ("results", PList [])])
      else
        els <~ py_iter papers ;;
        counts <~ mapM (fun p => py_get p "cited_by_count" (PInt 0)) els ;;
        m <~ py_max counts ;;
        let max_citations := py_or m (PInt 1) in
        built <~ mapM (fun item =>
                         paper <- build_paper_result item start_year end_year
                                                     max_citations ;;
                         j <- journal_key paper ;;
                         Ok (paper, j)) els ;;
        let ranked_results := map fst built in
        let journal_set := nodup string_dec (map snd built) in
        ranked_results <~
          (if String.eqb sort_by "relevance"
           then list_sort (fun x => py_item x "score") true ranked_results
           else Ok ranked_results) ;;
        Returned (PDict [("topic", PStr topic);
                         ("years_filter", years_filter);
                         ("total_found", total_count);
                         ("total_journals",
                          PInt (Z.of_nat (List.length journal_set)));
                         ("page", PInt page);
                         ("per_page", PInt (Z.of_nat limit));
                         ("results", PList (firstn limit ranked_results))])
  end.
(* ===================================================================== *)
(** ** Auxiliary definitions for the further properties *)
(* ===================================================================== *)

(** The text kept before stripping: the first [max_chars] characters, cut
    after their last period when they hold one. *)
Definition cut_at_period (text : string) (max_chars : nat) : string :=
  let snippet := str_take max_chars text in
  match rfind "."%char snippet with
  | Some last_period => str_take (last_period + 1) snippet
  | None => snippet
  end.

(** Whether a string begins with a character [str.strip()] removes. *)
Definition starts_with_space (s : string) : bool :=
  match s with
  | String c _ => is_space c
  | EmptyString => false
  end.

(** A value the [x.get(k) or {}] idiom goes through: a falsy one is
    replaced by the empty dict, a dict is kept. *)
Definition falsy_or_dict (v : pyval) : Prop :=
  truthy v = false \/ exists d, v = PDict d.

(** The items on which [safe_journal_info] can follow its path
    [item -> primary_location -> source]. *)
Definition journal_path_ok (item : pyval) : Prop :=
  exists d, item = PDict d /\
    falsy_or_dict (dict_get d "primary_location" PNone) /\
    forall l, dict_get d "primary_location" PNone = PDict l ->
              falsy_or_dict (dict_get l "source" PNone).

(** A record with an ["authors"] list, as the citation formatters read it. *)
Definition with_authors (authors : list pyval) (rest : list (string * pyval))
  : pyval :=
  PDict (("authors", PList authors) :: rest).

(** Every entry [extract_authors] returns is an object with a truthy
    ["name"]. *)
Definition named_entry (a : pyval) : Prop :=
  exists d name, a = PDict d /\ lookup "name" d = Some name /\
                 truthy name = true.

(** The key [format_bibtex] derives from a DOI: what follows its last
    slash, the whole DOI when it has none. *)
Definition after_last_slash (doi key : string) : Prop :=
  ~ has_char "/" key /\
  (doi = key \/ exists front, doi = (front ++ "/" ++ key)%string).

(** The key [format_bibtex] derives from a title: its first twenty
    characters, spaces replaced by underscores. *)
Definition title_key (title : string) : string :=
  replace_char " " "_" (str_take 20 title).

(** The characters [quote] lets through or produces. *)
Definition url_char (c : ascii) : bool := is_safe c || Ascii.eqb c "%".

(** A value an f-string field of the model formats. *)
Definition printable (v : pyval) : Prop := exists s, py_str v = Ok s.

Definition str_field (k : string) (d : list (string * pyval)) : Prop :=
  forall v, lookup k d = Some v -> exists s, v = PStr s.

(** A record as the search endpoint sends it and the page sends it back:
    authors with string names, string title, journal, publisher and DOI, a
    year that is a number or a string; every field may be absent. *)
Definition cite_ready (d : list (string * pyval)) : Prop :=
  (exists authors names,
     dict_get d "authors" (PList []) = PList authors /\
     Forall2 has_name authors names) /\
  str_field "title" d /\ str_field "journal" d /\
  str_field "publisher" d /\ str_field "doi" d /\
  (forall v, lookup "year" d = Some v -> printable v).

(** The request body carries no abstract to summarize: the field is absent
    or falsy, or it is the placeholder the search results show. *)
Definition no_abstract (body : list (string * pyval)) : Prop :=
  truthy (dict_get body "abstract" (PStr "")) = false \/
  dict_get body "abstract" (PStr "") = PStr "No abstract available.".

Definition detail_503 : string :=
  "No AI provider available. Install Ollama (free) or set OPENAI_API_KEY in .env".

Definition detail_400 : string :=
  "This paper doesn't have an abstract available, so we can't generate a summary. Try another paper!".

Definition detail_504 : string :=
  "AI is taking too long to respond. The model might be busy - please try again in a moment.".

Definition detail_502 (p : provider) : string :=
  match p with
  | Ollama =>
      "AI summary service is temporarily unavailable. Make sure Ollama is running on your system."
  | OpenAI =>
      "AI summary service is temporarily unavailable. Please check your API key and try again."
  end.

(** A listing of the local provider, as its [/api/tags] endpoint answers. *)
Definition listing (names : list string) : probe :=
  Response 200
    (Some (PDict [("models",
                   PList (map (fun n => PDict [("name", PStr n)]) names))])).

(** The listing of the configuration with the model name replaced. *)
Definition with_model (cfg : config) (model : string) : config :=
  {| LLM_PROVIDER := LLM_PROVIDER cfg;
     OPENAI_API_KEY := OPENAI_API_KEY cfg;
     OLLAMA_MODEL := model |}.

(** The order [list.sort] puts the (position, word) tuples in, read as
    "not after". *)
Definition occ_le (a b : Z * string) : Prop := occ_ltb b a = false.

(** The items the search endpoint works on: the elements of the
    ["results"] entry of the provider's answer, none when it is absent or
    falsy. *)
Definition batch_of (data : pyval) (els : list pyval) : Prop :=
  exists papers,
    py_get data "results" (PList []) = Ok papers /\
    if truthy papers then py_iter papers = Ok els else els = [].

(** The record [rec] names the journal [j]. *)
Definition in_journal (rec : pyval) (j : string) : Prop :=
  py_item rec "journal" = Ok (PStr j).

(** An answer of the provider with two works, of two journals. *)
Definition work_in (title journal : string) : pyval :=
  PDict [("title", PStr title);
         ("primary_location",
          PDict [("source", PDict [("display_name", PStr journal)])])].

Definition two_works_answer : pyval :=
  PDict [("meta", PDict [("count", PInt 2)]);
         ("results", PList [work_in "A" "J1"; work_in "B" "J2"])].

(* ===================================================================== *)
(** * Properties *)
(* ===================================================================== *)

(* ===================================================================== *)
(** ** Properties of [normalize] *)
(* ===================================================================== *)

Lemma normalize_falsy_value (value max_value : pyval) :
  truthy value = false -> normalize value max_value = Ok (PInt 0).
Proof. intros H. unfold normalize. rewrite H. reflexivity. Qed.

Lemma normalize_falsy_max (value max_value : pyval) :
  truthy max_value = false -> normalize value max_value = Ok (PInt 0).
Proof.
  intros H. unfold normalize. rewrite H.
  destruct (truthy value); reflexivity.
Qed.

Lemma normalize_truthy (value max_value : pyval) :
  truthy value = true -> truthy max_value = true ->
  normalize value max_value = py_truediv value max_value.
Proof. intros Hv Hm. unfold normalize. rewrite Hv, Hm. reflexivity. Qed.

(** C8. [normalize(value, max_value)] is 0 as soon as one argument is falsy
    (zero, [None], an absent field read as [None], an empty container), and
    is the quotient [value / max_value] otherwise; so [normalize(0, X) = 0],
    [normalize(X, 0) = 0], [normalize(None, X) = 0 = normalize(X, None)] and
    [normalize(5, 10) = 0.5]. *)
Theorem normalize_spec (value max_value : pyval) :
  (truthy value = false \/ truthy max_value = false ->
   normalize value max_value = Ok (PInt 0)) /\
  (truthy value = true /\ truthy max_value = true ->
   normalize value max_value = py_truediv value max_value) /\
  normalize (PInt 0) max_value = Ok (PInt 0) /\
  normalize value (PInt 0) = Ok (PInt 0) /\
  normalize PNone max_value = Ok (PInt 0) /\
  normalize value PNone = Ok (PInt 0) /\
  normalize (PInt 5) (PInt 10) = Ok (PFloat f0_5).
Proof.
  split; [| split; [| split; [| split; [| split; [| split]]]]].
  - intros [H | H];
      [apply normalize_falsy_value | apply normalize_falsy_max]; exact H.
  - intros [Hv Hm]. apply normalize_truthy; assumption.
  - apply normalize_falsy_value. reflexivity.
  - apply normalize_falsy_max. reflexivity.
  - apply normalize_falsy_value. reflexivity.
  - apply normalize_falsy_max. reflexivity.
  - vm_compute. reflexivity.
Qed.

Lemma normalize_spec_witness :
  normalize (PInt 0) (PInt 7) = Ok (PInt 0) /\
  normalize (PInt 10) (PInt 40) = py_truediv (PInt 10) (PInt 40).
Proof.
  split.
  - apply (proj1 (normalize_spec (PInt 0) (PInt 7))). left. reflexivity.
  - apply (proj1 (proj2 (normalize_spec (PInt 10) (PInt 40)))).
    split; reflexivity.
Defined.

(* ===================================================================== *)
(** ** The error monad *)
(* ===================================================================== *)

Lemma bind_Ok {A B : Type} (c : res A) (k : A -> res B) (b : B) :
  bind c k = Ok b -> exists a, c = Ok a /\ k a = Ok b.
Proof.
  destruct c as [a | e]; simpl; intros H.
  - exists a. split; [reflexivity | exact H].
  - discriminate H.
Qed.

(** Splits a hypothesis [x <- c ;; k = Ok b] into [c = Ok x] and
    [k x = Ok b], as long as there is one. *)
Ltac bind_inv :=
  repeat match goal with
  | H : bind ?c _ = Ok _ |- _ =>
      let x := fresh "x" in
      let E := fresh "E" in
      apply bind_Ok in H; destruct H as [x [E H]]
  | H : Ok _ = Ok _ |- _ => injection H as H
  end.

Lemma mapM_Ok_Forall2 {A B : Type} (f : A -> res B) (l : list A) (r : list B) :
  mapM f l = Ok r -> Forall2 (fun a b => f a = Ok b) l r.
Proof.
  revert r. induction l as [| a l IH]; simpl; intros r H.
  - injection H as <-. constructor.
  - bind_inv. subst r. constructor; [assumption | apply IH; assumption].
Qed.

Lemma Forall2_mapM_Ok {A B : Type} (f : A -> res B) (l : list A) (r : list B) :
  Forall2 (fun a b => f a = Ok b) l r -> mapM f l = Ok r.
Proof.
  induction 1 as [| a b l r Hab _ IH]; simpl.
  - reflexivity.
  - rewrite Hab, IH. reflexivity.
Qed.

(* ===================================================================== *)
(** ** The hybrid score *)
(* ===================================================================== *)


Lemma py_mul_float_Ok (v : pyval) (c : float) (r : pyval) :
  py_mul v (PFloat c) = Ok r ->
  exists x, py_float v = Ok x /\ r = PFloat (F64.mul x c).
Proof.
  unfold py_mul, py_float. simpl.
  destruct (as_num v) as [a |] eqn:Ha.
  - destruct a as [n | x]; simpl; intros H.
    + bind_inv. exists x. split; [assumption | congruence].
    + injection H as <-. exists x. split; reflexivity.
  - destruct (_ || _); discriminate.
Qed.

Lemma final_score_of_Ok (relevance citation_score recency_score fs : pyval) :
  final_score_of relevance citation_score recency_score = Ok fs ->
  exists rel cit rec,
    py_float relevance = Ok rel /\
    py_float citation_score = Ok cit /\
    py_float recency_score = Ok rec /\
    fs = PFloat (weighted_sum rel cit rec).
Proof.
  unfold final_score_of. intros H. bind_inv.
  apply py_mul_float_Ok in E as [rel [Hrel ->]].
  apply py_mul_float_Ok in E0 as [cit [Hcit ->]].
  apply py_mul_float_Ok in E2 as [rec [Hrec ->]].
  simpl in E1. injection E1 as <-.
  simpl in H. injection H as <-.
  exists rel, cit, rec. repeat split; assumption.
Qed.


Lemma build_paper_result_Ok_score
    (item : pyval) (start_year end_year : Z) (max_citations paper : pyval) :
  build_paper_result item start_year end_year max_citations = Ok paper ->
  exists sc rel cit rec,
    component_scores item start_year end_year max_citations = Ok sc /\
    py_float (sc_relevance sc) = Ok rel /\
    py_float (sc_citation sc) = Ok cit /\
    py_float (sc_recency sc) = Ok rec /\
    py_item paper "score"
    = Ok (PFloat (F64.round_digits (weighted_sum rel cit rec) 4)).
Proof.
  unfold build_paper_result, component_scores. intros H.
  apply bind_Ok in H as [r0 [Er0 H]].
  apply bind_Ok in H as [citations [Ecit H]].
  apply bind_Ok in H as [year [Eyear H]].
  apply bind_Ok in H as [citation_score [Ecs H]].
  apply bind_Ok in H as [recency_score [Ers H]].
  apply bind_Ok in H as [final_score [Efs H]].
  apply final_score_of_Ok in Efs as [rel [cit [rec [Hrel [Hcit [Hrec ->]]]]]].
  rewrite Er0; cbn [bind]. rewrite Ecit; cbn [bind].
  rewrite Eyear; cbn [bind]. rewrite Ecs; cbn [bind]. rewrite Ers; cbn [bind].
  eexists. exists rel, cit, rec.
  split; [reflexivity |]. simpl.
  split; [assumption |]. split; [assumption |]. split; [assumption |].
  bind_inv. subst paper.
  match goal with
  | Hr : py_round _ 4 = Ok _ |- _ => simpl in Hr; injection Hr as <-
  end.
  reflexivity.
Qed.

Lemma relevance_default (item r0 : pyval) :
  py_get item "relevance_score" PNone = Ok r0 ->
  truthy r0 = false ->
  py_or r0 (PInt 0) = PInt 0 /\ py_float (py_or r0 (PInt 0)) = Ok F64.zero.
Proof.
  intros _ Hr. unfold py_or. rewrite Hr. split; reflexivity.
Qed.

(** C1. Whenever [build_paper_result] returns a record, the relevance,
    citation and recency components are numbers and the ["score"] field of
    the record is [relevance*0.5 + citation_score*0.3 + recency_score*0.2],
    evaluated in binary64 and rounded to 4 decimals; the relevance is 0 when
    the item carries no (or a null, or a zero) relevance score; and the
    components 1.0, 1.0, 1.0 give exactly 1.0, before and after rounding. *)
Theorem hybrid_score_attached
    (item : pyval) (start_year end_year : Z) (max_citations paper : pyval) :
  build_paper_result item start_year end_year max_citations = Ok paper ->
  (exists sc rel cit rec,
     component_scores item start_year end_year max_citations = Ok sc /\
     py_float (sc_relevance sc) = Ok rel /\
     py_float (sc_citation sc) = Ok cit /\
     py_float (sc_recency sc) = Ok rec /\
     py_item paper "score"
     = Ok (PFloat (F64.round_digits (weighted_sum rel cit rec) 4)) /\
     (forall r0, py_get item "relevance_score" PNone = Ok r0 ->
                 truthy r0 = false ->
                 sc_relevance sc = PInt 0 /\ rel = F64.zero)) /\
  weighted_sum F64.one F64.one F64.one = F64.one /\
  F64.round_digits (weighted_sum F64.one F64.one F64.one) 4 = F64.one.
Proof.
  intros H. split; [| split; vm_compute; reflexivity].
  destruct (build_paper_result_Ok_score _ _ _ _ _ H)
    as [sc [rel [cit [rec [Hsc [Hrel [Hcit [Hrec Hscore]]]]]]]].
  exists sc, rel, cit, rec.
  repeat (split; [assumption |]).
  intros r0 Hr0 Hfalsy.
  unfold component_scores in Hsc. rewrite Hr0 in Hsc. cbn [bind] in Hsc.
  bind_inv. subst sc. cbn [sc_relevance] in *.
  destruct (relevance_default item r0 Hr0 Hfalsy) as [Hor Hfl].
  split; [exact Hor |]. congruence.
Qed.

Lemma hybrid_score_attached_witness :
  (exists sc rel cit rec,
     component_scores top_item 2020 2025 (PInt 40) = Ok sc /\
     py_float (sc_relevance sc) = Ok rel /\
     py_float (sc_citation sc) = Ok cit /\
     py_float (sc_recency sc) = Ok rec /\
     py_item top_paper "score"
     = Ok (PFloat (F64.round_digits (weighted_sum rel cit rec) 4)) /\
     (forall r0, py_get top_item "relevance_score" PNone = Ok r0 ->
                 truthy r0 = false ->
                 sc_relevance sc = PInt 0 /\ rel = F64.zero)) /\
  weighted_sum F64.one F64.one F64.one = F64.one /\
  F64.round_digits (weighted_sum F64.one F64.one F64.one) 4 = F64.one.
Proof.
  apply (hybrid_score_attached top_item 2020 2025 (PInt 40) top_paper).
  vm_compute. reflexivity.
Defined.

(** The record built for [top_item] carries the score 1.0. *)
Example top_paper_score : py_item top_paper "score" = Ok (PFloat F64.one).
Proof. vm_compute. reflexivity. Qed.

(** With no relevance score the weighted sum starts from 0: an item that
    only has its citation count and year gets [0.3 + 0.2 = 0.5]. *)
Example no_relevance_score :
  (p <- build_paper_result
          (PDict [("cited_by_count", PInt 40); ("publication_year", PInt 2025)])
          2020 2025 (PInt 40) ;;
   py_item p "score")
  = Ok (PFloat f0_5).
Proof. vm_compute. reflexivity. Qed.

(* ===================================================================== *)
(** ** Defensive projection *)
(* ===================================================================== *)


Lemma get_or_empty (k : string) (d : list (string * pyval)) (dflt : pyval) :
  absent_or_null k d ->
  exists v, py_get (PDict d) k PNone = Ok v /\ py_or v dflt = dflt.
Proof.
  unfold absent_or_null, py_get, py_or. destruct (lookup k d) as [v |].
  - intros Hv. exists v. rewrite Hv. split; reflexivity.
  - intros _. exists PNone. split; reflexivity.
Qed.

(** A missing or null [primary_location] gives the two default strings. *)
Lemma safe_journal_info_no_location (d : list (string * pyval)) :
  absent_or_null "primary_location" d ->
  safe_journal_info (PDict d)
  = Ok (PStr "Unknown Journal", PStr "Unknown Publisher").
Proof.
  intros H. unfold safe_journal_info.
  destruct (get_or_empty _ _ (PDict []) H) as [v [Hg Ho]].
  rewrite Hg. cbn [bind]. rewrite Ho. reflexivity.
Qed.

(** A missing or null nested [source] gives the two default strings. *)
Lemma safe_journal_info_no_source (d loc : list (string * pyval)) :
  lookup "primary_location" d = Some (PDict loc) ->
  absent_or_null "source" loc ->
  safe_journal_info (PDict d)
  = Ok (PStr "Unknown Journal", PStr "Unknown Publisher").
Proof.
  intros Hl Hs. unfold safe_journal_info.
  cbn [py_get]. rewrite Hl. cbn [bind]. unfold py_or at 1.
  destruct (truthy (PDict loc)) eqn:Hloc.
  - destruct (get_or_empty _ _ (PDict []) Hs) as [v [Hg Ho]].
    rewrite Hg. cbn [bind]. rewrite Ho. reflexivity.
  - destruct loc; [reflexivity | discriminate].
Qed.

(** The record built from an item with none of the nested objects, and
    from one in which [primary_location], [authorships], [concepts] and the
    abstract index are null. *)
Example build_paper_result_empty_item :
  is_ok (build_paper_result (PDict []) 2020 2025 (PInt 1)) = true /\
  is_ok (build_paper_result
           (PDict [("primary_location", PNone); ("authorships", PNone);
                   ("concepts", PNone); ("abstract_inverted_index", PNone)])
           2020 2025 (PInt 1)) = true /\
  is_ok (build_paper_result
           (PDict [("primary_location", PDict [("source", PNone)])])
           2020 2025 (PInt 1)) = true.
Proof. vm_compute. repeat split. Qed.

(** C6. An item whose [open_access] field is present and null makes
    [build_paper_result] raise: [item.get("open_access", {})] returns
    [None], and [None.get] is an [AttributeError]. *)
Theorem build_paper_result_null_open_access
    (start_year end_year : Z) (max_citations : pyval) :
  build_paper_result (PDict [("open_access", PNone)])
                     start_year end_year max_citations
  = Raise AttributeError.
Proof.
  unfold build_paper_result, citation_score_of.
  destruct (truthy max_citations); vm_compute; reflexivity.
Qed.

(* ===================================================================== *)
(** ** Provider selection *)
(* ===================================================================== *)

Lemma split_on_nonempty (sep : ascii) (s : string) : split_on sep s <> [].
Proof.
  destruct s as [| c s]; simpl; [discriminate |].
  destruct (Ascii.eqb c sep); [discriminate |].
  destruct (split_on sep s); discriminate.
Qed.

(** Joining the pieces of a split with the separator gives the string
    back. *)
Lemma concat_split_on (sep : ascii) (s : string) :
  String.concat (String sep "") (split_on sep s) = s.
Proof.
  induction s as [| c s IH]; [reflexivity |].
  cbn [split_on]. destruct (Ascii.eqb_spec c sep) as [-> | Hne].
  - pose proof (split_on_nonempty sep s) as Hn.
    destruct (split_on sep s) as [| w ws]; [congruence |].
    change (String.concat (String sep "") ("" :: w :: ws))
      with (String sep (String.concat (String sep "") (w :: ws))).
    now rewrite IH.
  - pose proof (split_on_nonempty sep s) as Hn.
    destruct (split_on sep s) as [| w ws]; [congruence |].
    destruct ws as [| w' ws].
    + simpl in IH. simpl. now rewrite IH.
    + change (String.concat (String sep "") (String c w :: w' :: ws))
        with (String c (String.concat (String sep "") (w :: w' :: ws))).
      now rewrite IH.
Qed.

Lemma split_on_pieces (sep : ascii) (s : string) :
  Forall (fun w => ~ has_char sep w) (split_on sep s).
Proof.
  unfold has_char. induction s as [| c s IH].
  - constructor; [simpl; tauto | constructor].
  - cbn [split_on]. destruct (Ascii.eqb_spec c sep) as [-> | Hne].
    + constructor; [simpl; tauto | exact IH].
    + destruct (split_on sep s) as [| w ws].
      * constructor; [| constructor]. simpl. intros [H | []]. congruence.
      * apply Forall_cons_iff in IH as [Hw Hws].
        constructor; [| exact Hws]. simpl. intros [H | H]; [congruence | tauto].
Qed.

Lemma split_on_head (sep : ascii) (m rest : string) :
  ~ has_char sep m ->
  split_on sep (m ++ String sep rest) = m :: split_on sep rest.
Proof.
  unfold has_char. induction m as [| c m IH]; intros H.
  - simpl. now rewrite Ascii.eqb_refl.
  - change ((String c m ++ String sep rest)%string)
      with (String c (m ++ String sep rest)%string).
    cbn [split_on].
    destruct (Ascii.eqb_spec c sep) as [-> | Hne].
    + exfalso. apply H. left. reflexivity.
    + rewrite IH; [reflexivity |]. intros Hin. apply H. right. exact Hin.
Qed.

Lemma split_on_whole (sep : ascii) (m : string) :
  ~ has_char sep m -> split_on sep m = [m].
Proof.
  unfold has_char. induction m as [| c m IH]; intros H; [reflexivity |].
  cbn [split_on].
  destruct (Ascii.eqb_spec c sep) as [-> | Hne].
  - exfalso. apply H. left. reflexivity.
  - rewrite IH; [reflexivity |]. intros Hin. apply H. right. exact Hin.
Qed.

Lemma model_tag_stripped_tagged (m tag : string) :
  ~ has_char ":" m -> model_tag_stripped (m ++ ":" ++ tag) = m.
Proof.
  intros H. unfold model_tag_stripped.
  change (m ++ ":" ++ tag)%string with (m ++ String ":" tag)%string.
  rewrite (split_on_head ":" m tag H). reflexivity.
Qed.

Lemma model_tag_stripped_bare (m : string) :
  ~ has_char ":" m -> model_tag_stripped m = m.
Proof.
  intros H. unfold model_tag_stripped. now rewrite (split_on_whole ":" m H).
Qed.

(** Stripping the tag, as [name.split(":")[0]] does it. *)
Lemma model_tag_stripped_iff (name base : string) :
  model_tag_stripped name = base <-> without_tag name base.
Proof.
  split.
  - intros <-. unfold model_tag_stripped, without_tag.
    pose proof (split_on_pieces ":" name) as Hp.
    pose proof (concat_split_on ":" name) as Hc.
    destruct (split_on ":" name) as [| w ws] eqn:E;
      [exfalso; exact (split_on_nonempty ":" name E) |].
    cbn [hd]. apply Forall_inv in Hp. split; [exact Hp |].
    destruct ws as [| w' ws]; [left; symmetry; exact Hc |].
    right. exists (String.concat ":" (w' :: ws)). symmetry. exact Hc.
  - intros [Hb [-> | [tag ->]]].
    + apply model_tag_stripped_bare. exact Hb.
    + apply model_tag_stripped_tagged. exact Hb.
Qed.

(** The names [listed_models] reads are those of the entries, tags
    stripped; it fails as soon as one entry is not an object with a string
    name. *)
Lemma listed_entries (l : list pyval) (models : list string) :
  mapM (fun m => name <- py_get m "name" (PStr "") ;;
                 parts <- py_split name ":" ;;
                 Ok (hd "" parts)) l = Ok models <->
  exists names, Forall2 model_entry l names /\
                models = map model_tag_stripped names.
Proof.
  split.
  - intros H. apply mapM_Ok_Forall2 in H.
    induction H as [| m b l models Hm _ [names [Hn ->]]].
    + exists []. split; [constructor | reflexivity].
    + apply bind_Ok in Hm as [v [Hv Hm]].
      apply bind_Ok in Hm as [parts [Hparts Hm]]. injection Hm as <-.
      destruct m as [| | | | | | d]; try discriminate Hv.
      cbn [py_get] in Hv. injection Hv as <-.
      destruct (lookup "name" d) as [v |] eqn:El.
      * destruct v as [| | | | n | |]; try discriminate Hparts.
        injection Hparts as <-. exists (n :: names).
        split; [| reflexivity].
        constructor; [| exact Hn]. exists d. split; [reflexivity |].
        left. exact El.
      * injection Hparts as <-. exists ("" :: names).
        split; [| reflexivity].
        constructor; [| exact Hn]. exists d. split; [reflexivity |].
        right. split; [exact El | reflexivity].
  - intros [names [Hn ->]].
    induction Hn as [| m n l names Hm _ IH]; [reflexivity |].
    destruct Hm as [d [-> Hd]]. cbn [mapM py_get].
    assert (E : match lookup "name" d with
                | Some v => v
                | None => PStr ""
                end = PStr n).
    { destruct Hd as [-> | [-> ->]]; reflexivity. }
    rewrite E. cbn [bind py_split]. rewrite IH. reflexivity.
Qed.

Lemma Forall2_In_l {A B : Type} (R : A -> B -> Prop) (l : list A)
    (r : list B) (a : A) :
  Forall2 R l r -> In a l -> exists b, In b r /\ R a b.
Proof.
  induction 1 as [| x y l r Hxy _ IH]; intros Hin; [destruct Hin |].
  destruct Hin as [-> | Hin].
  - exists y. split; [left; reflexivity | exact Hxy].
  - destruct (IH Hin) as [b [Hb Hab]]. exists b. split; [right |]; assumption.
Qed.

Lemma check_ollama_available_iff (cfg : config) (p : probe) :
  check_ollama_available cfg p = true <-> local_ready cfg p.
Proof.
  unfold check_ollama_available, local_ready, probe_lists. split.
  - destruct p as [| status json]; [discriminate |].
    destruct (Z.eqb_spec status 200) as [-> | _]; [| discriminate].
    destruct json as [body |]; [| discriminate].
    destruct (listed_models body) as [models | e] eqn:Hm; [| discriminate].
    intros H. apply existsb_exists in H as [m [Hin Heq]].
    apply String.eqb_eq in Heq. subst m.
    unfold listed_models in Hm.
    apply bind_Ok in Hm as [ms [Hms Hm]].
    apply bind_Ok in Hm as [els [Hels Hm]].
    destruct body as [| | | | | | d]; try discriminate Hms.
    cbn [py_get] in Hms. injection Hms as <-.
    apply listed_entries in Hm as [names [Hn ->]].
    apply in_map_iff in Hin as [n [Hn1 Hn2]].
    assert (Hl : lookup "models" d = Some (PList els)).
    { destruct (lookup "models" d) as [ms |].
      - destruct ms as [| | | | s | l | kv]; try discriminate Hels;
          cbn [py_iter] in Hels; injection Hels as <-.
        + destruct s as [| c s]; [inversion Hn; subst; destruct Hn2 |].
          unfold chars in Hn. cbn [list_ascii_of_string map] in Hn.
          inversion Hn as [| x y l' r' [d' [Hd' _]] Hrest]. discriminate Hd'.
        + reflexivity.
        + destruct kv as [| kv0 kv]; [inversion Hn; subst; destruct Hn2 |].
          cbn [map] in Hn.
          inversion Hn as [| x y l' r' [d' [Hd' _]] Hrest]. discriminate Hd'.
      - cbn [py_iter] in Hels. injection Hels as <-.
        inversion Hn; subst. destruct Hn2. }
    exists names, (model_tag_stripped (OLLAMA_MODEL cfg)), n.
    split; [exists d, els; auto |].
    split; [apply model_tag_stripped_iff; reflexivity |].
    split; [exact Hn2 | apply model_tag_stripped_iff; exact Hn1].
  - intros (names & base & n & (d & l & -> & Hl & Hn) & Hb & Hin & Hnb).
    cbn [Z.eqb Pos.eqb]. unfold listed_models. cbn [py_get]. rewrite Hl.
    cbn [bind py_iter].
    rewrite (proj2 (listed_entries l (map model_tag_stripped names)));
      [| exists names; split; [exact Hn | reflexivity]].
    apply existsb_exists. exists base. split.
    + apply in_map_iff. exists n.
      split; [apply model_tag_stripped_iff; exact Hnb | exact Hin].
    + apply String.eqb_eq. apply model_tag_stripped_iff. exact Hb.
Qed.

Lemma nonempty_key (k : string) :
  negb (String.eqb k "") = true <-> k <> "".
Proof.
  destruct (String.eqb_spec k ""); simpl; split; congruence.
Qed.

(** The listing [listing_with_null_name] answers with status 200 and
    lists ["llama3.2:latest"], which is the configured ["llama3.2"] with a
    tag; its second entry has a null name, on which [.split] raises, and
    the exception makes the probe fail: in AUTO mode without a key no
    provider is selected. *)
Lemma listed_model_not_selected :
  (exists d l m,
     listing_with_null_name = Response 200 (Some (PDict d)) /\
     lookup "models" d = Some (PList l) /\ In m l /\
     model_entry m "llama3.2:latest" /\
     without_tag "llama3.2:latest" "llama3.2" /\
     without_tag (OLLAMA_MODEL llama_auto) "llama3.2") /\
  check_ollama_available llama_auto listing_with_null_name = false /\
  get_active_llm_provider llama_auto listing_with_null_name = None.
Proof.
  assert (Hb : ~ has_char ":" "llama3.2").
  { unfold has_char. simpl. intros H.
    repeat (destruct H as [H | H]; [discriminate H |]). exact H. }
  split; [| split; vm_compute; reflexivity].
  eexists. eexists. eexists.
  split; [reflexivity |]. split; [reflexivity |].
  split; [left; reflexivity |].
  split; [eexists; split; [reflexivity | left; reflexivity] |].
  split; (split; [exact Hb |]).
  - right. exists "latest". reflexivity.
  - left. reflexivity.
Qed.

(** C7 (amended). In AUTO mode ([LLM_PROVIDER = "auto"]) the selection is:
    the local provider exactly when the probe of its model-listing endpoint
    answers with status 200 and a JSON object whose ["models"] entry is a
    list of objects with string names (or none), one of which is the
    configured model name once the tag, the part from the first colon on,
    is removed from both; otherwise the remote provider exactly when a
    remote credential is configured; otherwise none.  A failed probe with
    no credential selects none, and a listing with an entry that is not an
    object with a string name counts as a failed probe, whatever else it
    lists. *)
Theorem auto_mode_selection (cfg : config) (p : probe) :
  LLM_PROVIDER cfg = "auto" ->
  (get_active_llm_provider cfg p = Some Ollama <-> local_ready cfg p) /\
  (get_active_llm_provider cfg p = Some OpenAI <->
     ~ local_ready cfg p /\ OPENAI_API_KEY cfg <> "") /\
  (get_active_llm_provider cfg p = None <->
     ~ local_ready cfg p /\ OPENAI_API_KEY cfg = "") /\
  (p = RequestFailed -> OPENAI_API_KEY cfg = "" ->
     get_active_llm_provider cfg p = None) /\
  (forall d l m,
     p = Response 200 (Some (PDict d)) ->
     lookup "models" d = Some (PList l) ->
     In m l -> (forall n, ~ model_entry m n) ->
     ~ local_ready cfg p).
Proof.
  intros Hauto.
  assert (Hbad : forall d l m,
             p = Response 200 (Some (PDict d)) ->
             lookup "models" d = Some (PList l) ->
             In m l -> (forall n, ~ model_entry m n) ->
             ~ local_ready cfg p).
  { intros d l m Hp Hl Hin Hm (names & base & n & (d' & l' & Hp' & Hl' & Hn)
                               & _).
    rewrite Hp in Hp'. injection Hp' as <-. rewrite Hl in Hl'.
    injection Hl' as <-.
    destruct (Forall2_In_l _ _ _ _ Hn Hin) as [n' [_ Hmn]].
    exact (Hm n' Hmn). }
  unfold get_active_llm_provider. rewrite Hauto.
  change (String.eqb "auto" "openai") with false.
  change (String.eqb "auto" "ollama") with false.
  cbn [andb].
  pose proof (check_ollama_available_iff cfg p) as Hloc.
  pose proof (nonempty_key (OPENAI_API_KEY cfg)) as Hkey.
  destruct (check_ollama_available cfg p) eqn:Hc.
  - assert (Hl : local_ready cfg p) by (apply Hloc; reflexivity).
    split; [| split; [| split; [| split; [| exact Hbad]]]].
    + split; [intros _; exact Hl | reflexivity].
    + split; [discriminate | intros [Hn _]; contradiction].
    + split; [discriminate | intros [Hn _]; contradiction].
    + intros -> _. discriminate Hc.
  - assert (Hl : ~ local_ready cfg p).
    { intros Hl. apply Hloc in Hl. discriminate Hl. }
    destruct (negb (String.eqb (OPENAI_API_KEY cfg) "")) eqn:Hk.
    + assert (Hne : OPENAI_API_KEY cfg <> "") by (apply Hkey; reflexivity).
      split; [| split; [| split; [| split; [| exact Hbad]]]].
      * split; [discriminate | intros Hr; contradiction].
      * split; [intros _; split; assumption | reflexivity].
      * split; [discriminate | intros [_ He]; contradiction].
      * intros _ He. contradiction.
    + assert (He : OPENAI_API_KEY cfg = "").
      { destruct (String.eqb_spec (OPENAI_API_KEY cfg) "");
          [assumption | discriminate]. }
      split; [| split; [| split; [| split; [| exact Hbad]]]].
      * split; [discriminate | intros Hr; contradiction].
      * split; [discriminate | intros [_ Hne]; contradiction].
      * split; [intros _; split; assumption | reflexivity].
      * reflexivity.
Qed.

Lemma auto_mode_selection_witness :
  let cfg := {| LLM_PROVIDER := "auto"; OPENAI_API_KEY := "";
                OLLAMA_MODEL := "llama3.2" |} in
  get_active_llm_provider cfg RequestFailed = None.
Proof.
  intros cfg.
  apply (proj1 (proj2 (proj2 (proj2
                 (auto_mode_selection cfg RequestFailed eq_refl)))));
    reflexivity.
Defined.

(** The tag is stripped on both sides of the comparison: the configured
    ["llama3.2"] is found in a listing of ["llama3.2:latest"], and a
    configured ["llama3.2:3b"] as well. *)
Example auto_mode_local_selected :
  let listing :=
    Response 200 (Some (PDict [("models",
      PList [PDict [("name", PStr "mistral:7b")];
             PDict [("name", PStr "llama3.2:latest")]])])) in
  get_active_llm_provider
    {| LLM_PROVIDER := "auto"; OPENAI_API_KEY := "sk-1";
       OLLAMA_MODEL := "llama3.2" |} listing = Some Ollama /\
  get_active_llm_provider
    {| LLM_PROVIDER := "auto"; OPENAI_API_KEY := "sk-1";
       OLLAMA_MODEL := "llama3.2:3b" |} listing = Some Ollama /\
  get_active_llm_provider
    {| LLM_PROVIDER := "auto"; OPENAI_API_KEY := "sk-1";
       OLLAMA_MODEL := "phi3" |} listing = Some OpenAI.
Proof. vm_compute. repeat split. Qed.

(* ===================================================================== *)
(** ** Author projection *)
(* ===================================================================== *)

Lemma author_entry_length (a : pyval) (es : list pyval) :
  author_entry a = Ok es -> (List.length es <= 1)%nat.
Proof.
  unfold author_entry. intros H. bind_inv.
  destruct (truthy _).
  - bind_inv. subst es. simpl. lia.
  - injection H as <-. simpl. lia.
Qed.

Lemma concat_length_le {A B : Type} (R : A -> list B -> Prop)
    (l : list A) (r : list (list B)) :
  (forall a es, R a es -> (List.length es <= 1)%nat) ->
  Forall2 R l r ->
  (List.length (List.concat r) <= List.length l)%nat.
Proof.
  intros HR. induction 1 as [| a es l r Hae _ IH]; simpl.
  - lia.
  - rewrite length_app. apply HR in Hae. lia.
Qed.

Lemma chars_length (s : string) :
  List.length (chars s) = String.length s.
Proof.
  unfold chars. rewrite length_map.
  induction s as [| c s IH]; simpl; [reflexivity | now rewrite IH].
Qed.

Lemma str_take_length (n : nat) (s : string) :
  (String.length (str_take n s) <= n)%nat.
Proof.
  revert s. induction n as [| n IH]; intros [| c s]; simpl; try lia.
  specialize (IH s). lia.
Qed.

(** The slice [o[:n]] has at most [n] elements to iterate over. *)
Lemma py_take_iter_length (o head : pyval) (n : nat) (els : list pyval) :
  py_take o n = Ok head -> py_iter head = Ok els ->
  (List.length els <= n)%nat.
Proof.
  destruct o; simpl; try discriminate; intros H; injection H as <-;
    simpl; intros H; injection H as <-.
  - rewrite chars_length. apply str_take_length.
  - apply firstn_le_length.
Qed.

Lemma extract_authors_length (item : pyval) (max_authors : nat)
    (authors : list pyval) :
  extract_authors item max_authors = Ok authors ->
  (List.length authors <= max_authors + 1)%nat.
Proof.
  unfold extract_authors. intros H.
  apply bind_Ok in H as [a0 [Ea0 H]].
  apply bind_Ok in H as [head [Ehead H]].
  apply bind_Ok in H as [els [Eels H]].
  apply bind_Ok in H as [entries [Eent H]].
  apply bind_Ok in H as [n [En H]].
  pose proof (py_take_iter_length _ _ _ _ Ehead Eels) as Hels.
  apply mapM_Ok_Forall2 in Eent.
  pose proof (concat_length_le _ _ _ author_entry_length Eent) as Hc.
  destruct (n >? Z.of_nat max_authors); injection H as <-.
  - rewrite length_app. simpl. lia.
  - lia.
Qed.

Lemma extract_authors_overflow (item : pyval) (max_authors : nat)
    (l authors : list pyval) :
  extract_authors item max_authors = Ok authors ->
  py_get item "authorships" PNone = Ok (PList l) ->
  (max_authors < List.length l)%nat ->
  exists front,
    mapM author_entry (firstn max_authors l) = Ok front /\
    authors = List.concat front
              ++ [more_entry (Z.of_nat (List.length l) - Z.of_nat max_authors)].
Proof.
  unfold extract_authors. intros H Hget Hlen.
  rewrite Hget in H. cbn [bind] in H.
  assert (Hor : py_or (PList l) (PList []) = PList l).
  { destruct l; [simpl in Hlen; lia | reflexivity]. }
  rewrite Hor in H. cbn [py_take py_iter py_len bind] in H.
  apply bind_Ok in H as [entries [Eent H]].
  assert (Hgt : (Z.of_nat (List.length l) >? Z.of_nat max_authors) = true).
  { apply Z.gtb_lt. lia. }
  rewrite Hgt in H. injection H as <-.
  exists entries. split; [assumption | reflexivity].
Qed.

Lemma mapM_named (l : list pyval) :
  Forall named l ->
  exists front,
    mapM author_entry l = Ok front /\
    List.length (List.concat front) = List.length l.
Proof.
  induction 1 as [| a l [e He] _ [front [Hf Hl]]]; simpl.
  - exists []. split; reflexivity.
  - rewrite He, Hf. cbn [bind]. exists ([e] :: front).
    split; [reflexivity |]. simpl. now rewrite Hl.
Qed.

(** C9. The projected author list has at most cap+1 entries (6 for the cap
    of 5); when the item has [k > cap] authorships its last entry is the
    placeholder named ["+{k-cap} more"] with empty id and orcid; an item
    with 7 authorships, the first five of which carry a name, projects to 6
    entries, the last being ["+2 more"], as the item with the authors [A]
    to [G] does. *)
Theorem extract_authors_capped (item : pyval) (max_authors : nat)
    (authors : list pyval) :
  extract_authors item max_authors = Ok authors ->
  (List.length authors <= max_authors + 1)%nat /\
  (forall l,
      py_get item "authorships" PNone = Ok (PList l) ->
      (max_authors < List.length l)%nat ->
      last authors PNone
      = PDict [("name",
                PStr ("+" ++ str_of_Z (Z.of_nat (List.length l)
                                       - Z.of_nat max_authors)
                      ++ " more")%string);
               ("id", PStr ""); ("orcid", PStr "")]) /\
  (forall l,
      max_authors = 5%nat ->
      py_get item "authorships" PNone = Ok (PList l) ->
      List.length l = 7%nat ->
      Forall named (firstn 5 l) ->
      List.length authors = 6%nat /\
      last authors PNone
      = PDict [("name", PStr "+2 more"); ("id", PStr ""); ("orcid", PStr "")]) /\
  (exists seven,
      extract_authors seven_authors_item 5 = Ok seven /\
      List.length seven = 6%nat /\
      last seven PNone
      = PDict [("name", PStr "+2 more"); ("id", PStr ""); ("orcid", PStr "")]).
Proof.
  intros H. split; [| split; [| split]]; cycle 3.
  { eexists. split; [vm_compute; reflexivity |]. split; reflexivity. }
  - apply extract_authors_length with (item := item). exact H.
  - intros l Hget Hlen.
    destruct (extract_authors_overflow _ _ _ _ H Hget Hlen)
      as [front [_ ->]].
    rewrite last_last. reflexivity.
  - intros l -> Hget Hlen Hnamed.
    assert (Hlt : (5 < List.length l)%nat) by lia.
    destruct (extract_authors_overflow _ _ _ _ H Hget Hlt)
      as [front [Hfront ->]].
    destruct (mapM_named _ Hnamed) as [front' [Hfront' Hlen']].
    rewrite Hfront in Hfront'. injection Hfront' as <-.
    rewrite length_app, Hlen', length_firstn, Hlen, last_last.
    split; reflexivity.
Qed.

Lemma extract_authors_capped_witness :
  exists authors,
    extract_authors seven_authors_item 5 = Ok authors /\
    List.length authors = 6%nat /\
    last authors PNone
    = PDict [("name", PStr "+2 more"); ("id", PStr ""); ("orcid", PStr "")].
Proof.
  destruct (extract_authors seven_authors_item 5) as [authors | e] eqn:H;
    [| vm_compute in H; discriminate H].
  exists authors. split; [reflexivity |].
  apply (proj1 (proj2 (proj2 (extract_authors_capped seven_authors_item 5
                                authors H)))
           (map authorship ["A"; "B"; "C"; "D"; "E"; "F"; "G"])).
  - reflexivity.
  - reflexivity.
  - reflexivity.
  - repeat constructor; eexists; reflexivity.
Defined.

(* ===================================================================== *)
(** ** Citation formatters *)
(* ===================================================================== *)

Lemma cited_name_has_name (a : pyval) (n : string) :
  has_name a n ->
  cited_name a = Ok (if cited n then [PStr n] else []).
Proof.
  intros [d [-> Hn]]. unfold cited_name, cited. cbn [py_get].
  rewrite Hn. cbn [bind truthy py_contains].
  destruct (String.eqb n ""); cbn [negb andb]; [reflexivity |].
  destruct (contains "more" n); reflexivity.
Qed.

Lemma mapM_cited_name (authors : list pyval) (names : list string) :
  Forall2 has_name authors names ->
  exists ns,
    mapM cited_name authors = Ok ns /\
    List.concat ns = map PStr (filter cited names).
Proof.
  induction 1 as [| a n authors names Han _ [ns [Hns Hc]]]; simpl.
  - exists []. split; reflexivity.
  - rewrite (cited_name_has_name _ _ Han), Hns. cbn [bind].
    eexists. split; [reflexivity |]. simpl. rewrite Hc.
    destruct (cited n); reflexivity.
Qed.

Lemma citation_author_names_cited (d : list (string * pyval))
    (authors : list pyval) (names : list string) :
  lookup "authors" d = Some (PList authors) ->
  Forall2 has_name authors names ->
  citation_author_names (PDict d) = Ok (map PStr (filter cited names)).
Proof.
  intros Hl H. unfold citation_author_names. cbn [py_get]. rewrite Hl.
  cbn [bind py_iter].
  destruct (mapM_cited_name _ _ H) as [ns [Hns Hc]].
  rewrite Hns. cbn [bind]. rewrite Hc. reflexivity.
Qed.

Lemma py_join_strings (sep : string) (ns : list string) :
  py_join sep (map PStr ns) = Ok (String.concat sep ns).
Proof.
  unfold py_join.
  assert (H : mapM (fun v => match v with
                             | PStr s => Ok s
                             | _ => Raise TypeError
                             end) (map PStr ns) = Ok ns).
  { induction ns as [| n ns IH]; simpl; [reflexivity |].
    rewrite IH. reflexivity. }
  rewrite H. reflexivity.
Qed.

Lemma removelast_map {A B : Type} (f : A -> B) (l : list A) :
  removelast (map f l) = map f (removelast l).
Proof.
  induction l as [| a [| b l] IH]; simpl; try reflexivity.
  simpl in IH. rewrite IH. reflexivity.
Qed.

Lemma apa_author_str_strings (ns : list string) :
  apa_author_str (map PStr ns) = Ok (apa_names ns).
Proof.
  destruct ns as [| a [| b [| c ns]]]; try reflexivity.
  remember (a :: b :: c :: ns) as l eqn:Hl.
  assert (Hstr : apa_author_str (map PStr l)
                 = (front <- py_join ", " (removelast (map PStr l)) ;;
                    z <- py_str (last (map PStr l) PNone) ;;
                    Ok (front ++ ", & " ++ z)%string)).
  { subst l. reflexivity. }
  assert (Hnames : apa_names l
                   = (String.concat ", " (removelast l) ++ ", & "
                      ++ last l "")%string).
  { subst l. reflexivity. }
  rewrite Hstr, Hnames, removelast_map, py_join_strings. cbn [bind].
  assert (Hlast : last (map PStr l) PNone = PStr (last l "")).
  { subst l. clear. revert a b c.
    induction ns as [| d ns IH]; intros a b c; [reflexivity |].
    specialize (IH b c d). simpl in *. exact IH. }
  rewrite Hlast. reflexivity.
Qed.

Lemma append_assoc (a b c : string) :
  ((a ++ b) ++ c = a ++ (b ++ c))%string.
Proof.
  induction a as [| x a IH]; simpl; [reflexivity | now rewrite IH].
Qed.

Lemma cited_without_more (n : string) :
  contains "more" n = true -> cited n = false.
Proof.
  intros H. unfold cited. rewrite H. apply andb_false_r.
Qed.

(** C10. Both citation formatters render the author names that are
    non-empty and do not contain the substring ["more"]: every author whose
    display name contains ["more"] is left out, the genuine ones included,
    and not only the ["+N more"] placeholder.  For the paper of "Seymore
    Papert" and Cynthia Solomon both styles cite Cynthia Solomon alone. *)
Theorem citations_drop_names_with_more
    (d : list (string * pyval)) (authors : list pyval) (names : list string) :
  lookup "authors" d = Some (PList authors) ->
  Forall2 has_name authors names ->
  (forall n, contains "more" n = true -> ~ In n (filter cited names)) /\
  (forall out,
      format_bibtex (PDict d) = Ok out ->
      exists key title journal year doi publisher : string,
        out = ("@article{" ++ key ++ "," ++ nl ++
               "  title = {" ++ title ++ "}," ++ nl ++
               "  author = {" ++ String.concat " and " (filter cited names)
                              ++ "}," ++ nl ++
               "  journal = {" ++ journal ++ "}," ++ nl ++
               "  year = {" ++ year ++ "}," ++ nl ++
               "  doi = {" ++ doi ++ "}," ++ nl ++
               "  publisher = {" ++ publisher ++ "}" ++ nl ++
               "}" ++ nl)%string) /\
  (forall out,
      format_apa (PDict d) = Ok out ->
      exists rest : string,
        out = (apa_names (filter cited names) ++ rest)%string) /\
  format_bibtex papert_paper
  = Ok ("@article{Twenty_things_to_do_," ++ nl ++
        "  title = {Twenty things to do with a computer}," ++ nl ++
        "  author = {Cynthia Solomon}," ++ nl ++
        "  journal = {Educational Technology}," ++ nl ++
        "  year = {1971}," ++ nl ++
        "  doi = {}," ++ nl ++
        "  publisher = {ETP}" ++ nl ++
        "}" ++ nl)%string /\
  format_apa papert_paper
  = Ok "Cynthia Solomon (1971). Twenty things to do with a computer. *Educational Technology*.".
Proof.
  intros Hl Hn.
  pose proof (citation_author_names_cited d authors names Hl Hn) as Hc.
  split; [| split; [| split; [| split]]].
  - intros n Hmore Hin. apply filter_In in Hin as [_ Hcited].
    rewrite (cited_without_more n Hmore) in Hcited. discriminate.
  - intros out H. unfold format_bibtex in H.
    rewrite Hc in H. cbn [bind] in H.
    rewrite py_join_strings in H. cbn [bind] in H.
    bind_inv. subst out. do 6 eexists. reflexivity.
  - intros out H. unfold format_apa in H.
    rewrite Hc in H. cbn [bind] in H.
    rewrite apa_author_str_strings in H. cbn [bind] in H.
    bind_inv.
    match goal with
    | Hd : (if truthy ?doi then _ else _) = Ok _ |- _ =>
        destruct (truthy doi)
    end.
    + bind_inv. subst out. eexists.
      rewrite append_assoc. reflexivity.
    + injection H as <-. eexists. reflexivity.
  - vm_compute. reflexivity.
  - vm_compute. reflexivity.
Qed.

Lemma citations_drop_names_with_more_witness :
  ~ In "Seymore Papert" (filter cited ["Seymore Papert"; "Cynthia Solomon"]) /\
  filter cited ["Seymore Papert"; "Cynthia Solomon"] = ["Cynthia Solomon"].
Proof.
  split; [| reflexivity].
  refine (proj1 (citations_drop_names_with_more
                   [("authors",
                     PList [PDict [("name", PStr "Seymore Papert")];
                            PDict [("name", PStr "Cynthia Solomon")]])]
                   [PDict [("name", PStr "Seymore Papert")];
                    PDict [("name", PStr "Cynthia Solomon")]]
                   ["Seymore Papert"; "Cynthia Solomon"]
                   eq_refl _) "Seymore Papert" eq_refl).
  repeat constructor; eexists; split; reflexivity.
Defined.

(* ===================================================================== *)
(** ** Concept projection *)
(* ===================================================================== *)

Lemma concept_entry_is_concept (c : pyval) (nx : string * float) :
  is_concept c nx ->
  concept_entry c = Ok (if qualifies nx then [concept_record nx] else []).
Proof.
  intros [d [-> [Hn Hs]]]. unfold concept_entry, qualifies, concept_record.
  cbn [py_get]. rewrite Hs, Hn. cbn [bind].
  unfold py_gt, py_compare. cbn [as_num num_compare bind].
  destruct (F64.compare (snd nx) f0_3) as [[| |] |]; reflexivity.
Qed.

Lemma mapM_concept_entry (cs : list pyval) (nxs : list (string * float)) :
  Forall2 is_concept cs nxs ->
  exists entries,
    mapM concept_entry cs = Ok entries /\
    List.concat entries = map concept_record (filter qualifies nxs).
Proof.
  induction 1 as [| c nx cs nxs Hc _ [entries [He Hcat]]]; simpl.
  - exists []. split; reflexivity.
  - rewrite (concept_entry_is_concept _ _ Hc), He. cbn [bind].
    eexists. split; [reflexivity |]. simpl. rewrite Hcat.
    destruct (qualifies nx); reflexivity.
Qed.

Lemma Forall2_firstn {A B : Type} (R : A -> B -> Prop) (n : nat)
    (l : list A) (r : list B) :
  Forall2 R l r -> Forall2 R (firstn n l) (firstn n r).
Proof.
  intros H. revert n. induction H as [| a b l r Hab _ IH]; intros [| n];
    simpl; constructor; auto.
Qed.

Lemma filter_length_le {A : Type} (f : A -> bool) (l : list A) :
  (List.length (filter f l) <= List.length l)%nat.
Proof.
  induction l as [| a l IH]; simpl; [lia |].
  destruct (f a); simpl; lia.
Qed.

(** The two orders of filtering and capping differ on [six_concepts_item]:
    the source keeps 4 entries although 5 concepts qualify. *)
Lemma extract_concepts_not_filtered_then_capped :
  extract_concepts six_concepts_item 5
  <> concepts_filtered_then_capped six_concepts_item 5 /\
  option_map (@List.length pyval)
    (match extract_concepts six_concepts_item 5 with
     | Ok l => Some l | Raise _ => None end) = Some 4%nat /\
  option_map (@List.length pyval)
    (match concepts_filtered_then_capped six_concepts_item 5 with
     | Ok l => Some l | Raise _ => None end) = Some 5%nat.
Proof.
  split; [| split].
  - vm_compute. discriminate.
  - vm_compute. reflexivity.
  - vm_compute. reflexivity.
Qed.

(** C5 (amended). The projected concepts are taken from the first
    [max_concepts] (5) concepts of the item only: of these the source keeps,
    in order, the ones whose score is greater than 0.3, each with its name
    and its score rounded to 2 decimals.  Hence the list has at most 5
    entries and none of a concept with score [<= 0.3]; a qualifying concept
    behind the fifth position is not projected. *)
Theorem extract_concepts_caps_then_filters
    (d : list (string * pyval)) (cs : list pyval)
    (nxs : list (string * float)) (max_concepts : nat) :
  lookup "concepts" d = Some (PList cs) ->
  Forall2 is_concept cs nxs ->
  let kept := filter qualifies (firstn max_concepts nxs) in
  extract_concepts (PDict d) max_concepts = Ok (map concept_record kept) /\
  (List.length kept <= max_concepts)%nat /\
  (forall nx, In nx kept ->
              In nx (firstn max_concepts nxs) /\
              F64.compare (snd nx) f0_3 = Some Gt).
Proof.
  intros Hl Hcs kept. split; [| split].
  - unfold extract_concepts. cbn [py_get]. rewrite Hl. cbn [bind].
    assert (Hor : py_or (PList cs) (PList []) = PList cs).
    { destruct cs; reflexivity. }
    rewrite Hor. cbn [py_take py_iter bind].
    destruct (mapM_concept_entry _ _ (Forall2_firstn _ max_concepts _ _ Hcs))
      as [entries [He Hcat]].
    rewrite He. cbn [bind]. rewrite Hcat. reflexivity.
  - unfold kept.
    pose proof (filter_length_le qualifies (firstn max_concepts nxs)).
    pose proof (firstn_le_length max_concepts nxs). lia.
  - intros nx Hin. apply filter_In in Hin as [Hin Hq].
    split; [assumption |]. unfold qualifies in Hq.
    destruct (F64.compare (snd nx) f0_3) as [[| |] |];
      try discriminate; reflexivity.
Qed.

Lemma extract_concepts_caps_then_filters_witness :
  extract_concepts six_concepts_item 5
  = Ok (map concept_record (filter qualifies (firstn 5 six_scores))).
Proof.
  refine (proj1 (extract_concepts_caps_then_filters
                   [("concepts", PList six_concepts)] six_concepts six_scores
                   5 eq_refl _)).
  repeat constructor; eexists; repeat split; reflexivity.
Defined.

(* ===================================================================== *)
(** ** The stable sort *)
(* ===================================================================== *)

Section StableSortFacts.

Context {A : Type} (ltb : A -> A -> bool).

Lemma insert_perm (x : A) (l : list A) :
  Permutation (insert ltb x l) (x :: l).
Proof.
  induction l as [| y l IH]; simpl.
  - apply Permutation_refl.
  - destruct (ltb y x).
    + apply perm_trans with (y :: x :: l).
      * apply perm_skip. exact IH.
      * apply perm_swap.
    + apply Permutation_refl.
Qed.

Lemma stable_sort_perm (l : list A) :
  Permutation (stable_sort ltb l) l.
Proof.
  induction l as [| x l IH]; simpl.
  - apply perm_nil.
  - apply perm_trans with (x :: stable_sort ltb l).
    + apply insert_perm.
    + apply perm_skip. exact IH.
Qed.

(** *** Stability: a class of elements none of which is below another
    comes out in the order it went in. *)

Lemma insert_filter (p : A -> bool) (x : A) (l : list A) :
  (forall y, In y l -> p x = true -> p y = true -> ltb y x = false) ->
  filter p (insert ltb x l) = filter p (x :: l).
Proof.
  induction l as [| y l IH]; intros Hcls; [reflexivity |].
  cbn [insert]. destruct (ltb y x) eqn:Hyx; [| reflexivity].
  cbn [filter]. rewrite IH.
  - cbn [filter]. destruct (p x) eqn:Hpx; [| reflexivity].
    destruct (p y) eqn:Hpy; [| reflexivity].
    rewrite (Hcls y (or_introl eq_refl) eq_refl Hpy) in Hyx. discriminate.
  - intros z Hz. apply Hcls. right. exact Hz.
Qed.

Lemma stable_sort_filter (p : A -> bool) (l : list A) :
  (forall x y, In x l -> In y l -> p x = true -> p y = true ->
               ltb y x = false) ->
  filter p (stable_sort ltb l) = filter p l.
Proof.
  induction l as [| x l IH]; intros Hcls; [reflexivity |].
  cbn [stable_sort fold_right]. fold (stable_sort ltb l).
  rewrite insert_filter.
  - cbn [filter]. rewrite IH; [reflexivity |].
    intros a b Ha Hb. apply Hcls; right; assumption.
  - intros y Hy. apply Hcls; [left; reflexivity |].
    right. apply (Permutation_in _ (stable_sort_perm l)). exact Hy.
Qed.

(** *** Order: on a domain where [ltb] refines a transitive [le], the
    result is sorted for [le]. *)

Variable dom : A -> Prop.
Variable le : A -> A -> Prop.
Hypothesis le_trans :
  forall x y z, dom x -> dom y -> dom z -> le x y -> le y z -> le x z.
Hypothesis lt_le : forall x y, dom x -> dom y -> ltb x y = true -> le x y.
Hypothesis nlt_le : forall x y, dom x -> dom y -> ltb y x = false -> le x y.

Lemma insert_sorted (x : A) (l : list A) :
  dom x -> Forall dom l ->
  StronglySorted le l -> StronglySorted le (insert ltb x l).
Proof.
  intros Hx. induction l as [| y l IH]; intros Hdom Hs.
  - repeat constructor.
  - apply Forall_cons_iff in Hdom as [Hy Hdom].
    apply StronglySorted_inv in Hs as [Hs Hhd].
    cbn [insert]. destruct (ltb y x) eqn:Hyx.
    + constructor; [apply IH; assumption |].
      apply (Permutation_Forall (Permutation_sym (insert_perm x l))).
      constructor; [apply lt_le; assumption | exact Hhd].
    + assert (Hxy : le x y) by (apply nlt_le; assumption).
      constructor; [constructor; assumption |].
      constructor; [exact Hxy |].
      rewrite Forall_forall in Hhd, Hdom |- *.
      intros z Hz. apply le_trans with y; auto.
Qed.

Lemma stable_sort_sorted (l : list A) :
  Forall dom l -> StronglySorted le (stable_sort ltb l).
Proof.
  induction l as [| x l IH]; intros Hdom.
  - constructor.
  - apply Forall_cons_iff in Hdom as [Hx Hdom].
    cbn [stable_sort fold_right]. fold (stable_sort ltb l).
    apply insert_sorted; [assumption | | apply IH; assumption].
    apply (Permutation_Forall (Permutation_sym (stable_sort_perm l))).
    exact Hdom.
Qed.

End StableSortFacts.

Lemma stable_sort_map {A B : Type} (f : A -> B)
    (ltA : A -> A -> bool) (ltB : B -> B -> bool) (l : list A) :
  (forall a b, ltB (f a) (f b) = ltA a b) ->
  stable_sort ltB (map f l) = map f (stable_sort ltA l).
Proof.
  intros Hf.
  assert (Hins : forall x s,
             insert ltB (f x) (map f s) = map f (insert ltA x s)).
  { intros x s. induction s as [| y s IH]; [reflexivity |].
    cbn [map insert]. rewrite Hf. destruct (ltA y x); cbn [map].
    - rewrite IH. reflexivity.
    - reflexivity. }
  induction l as [| x l IH]; [reflexivity |].
  cbn [map stable_sort fold_right].
  fold (stable_sort ltB (map f l)). fold (stable_sort ltA l).
  rewrite IH. apply Hins.
Qed.

Lemma StronglySorted_rev {A : Type} (R : A -> A -> Prop) (l : list A) :
  StronglySorted R l -> StronglySorted (fun a b => R b a) (rev l).
Proof.
  induction 1 as [| a l Hs IH Hhd]; simpl.
  - constructor.
  - assert (Happ : forall s, StronglySorted (fun a b => R b a) s ->
                             Forall (fun b => R a b) s ->
                             StronglySorted (fun a b => R b a) (s ++ [a])).
    { induction s as [| b s IHs]; simpl; intros Hss Hfa.
      - repeat constructor.
      - apply StronglySorted_inv in Hss as [Hss Hb].
        apply Forall_cons_iff in Hfa as [Hab Hfa].
        constructor; [apply IHs; assumption |].
        apply Forall_app. split; [exact Hb | repeat constructor; exact Hab]. }
    apply Happ; [exact IH |].
    apply Forall_rev. exact Hhd.
Qed.

(* ===================================================================== *)
(** ** Abstract reconstruction *)
(* ===================================================================== *)

Lemma word_positions_of_index (idx : list (string * list Z)) :
  word_positions_of (map (fun wp => (fst wp, PList (map PInt (snd wp)))) idx)
  = Ok (map tuple_of (occurrences idx)).
Proof.
  unfold word_positions_of.
  assert (H : forall l : list (string * list Z),
             mapM (fun wp : string * pyval =>
                     l0 <- py_iter (snd wp) ;;
                     Ok (map (fun pos => (pos, fst wp)) l0))
                  (map (fun wp => (fst wp, PList (map PInt (snd wp)))) l)
             = Ok (map (fun wp => map tuple_of
                                    (map (fun pos => (pos, fst wp)) (snd wp)))
                       l)).
  { induction l as [| [w ps] l IH]; [reflexivity |].
    cbn [map mapM fst snd py_iter bind]. rewrite IH. cbn [bind].
    do 2 f_equal. rewrite !map_map. reflexivity. }
  rewrite H. cbn [bind]. f_equal.
  unfold occurrences. rewrite flat_map_concat_map, concat_map, map_map.
  reflexivity.
Qed.

Lemma tuple_ltb_of (a b : Z * string) :
  tuple_ltb (tuple_of a) (tuple_of b) = occ_ltb a b.
Proof.
  destruct a as [p v], b as [q w]. unfold tuple_ltb, occ_ltb, tuple_of.
  cbn [fst snd py_compare as_num num_compare].
  destruct (Z.compare_spec p q) as [-> | Hlt | Hgt].
  - rewrite Z.ltb_irrefl, Z.eqb_refl. reflexivity.
  - apply Z.ltb_lt in Hlt. rewrite Hlt. reflexivity.
  - assert (H1 : (p <? q) = false) by (apply Z.ltb_ge; lia).
    assert (H2 : (p =? q) = false) by (apply Z.eqb_neq; lia).
    rewrite H1, H2. reflexivity.
Qed.

Lemma sortable_int_positions (occ : list (Z * string)) :
  sortable_keys (map fst (map tuple_of occ)) = true.
Proof.
  unfold sortable_keys. apply orb_true_iff. left.
  induction occ as [| a occ IH]; [reflexivity | exact IH].
Qed.

Lemma sort_tuples_of (occ : list (Z * string)) :
  sort_tuples (map tuple_of occ)
  = Ok (map tuple_of (stable_sort occ_ltb occ)).
Proof.
  rewrite <- (stable_sort_map tuple_of occ_ltb tuple_ltb)
    by (intros a b; apply tuple_ltb_of).
  destruct occ as [| a [| b occ]]; try reflexivity.
  unfold sort_tuples.
  change (map tuple_of (a :: b :: occ))
    with (tuple_of a :: tuple_of b :: map tuple_of occ) at 1.
  cbv iota beta.
  change (tuple_of a :: tuple_of b :: map tuple_of occ)
    with (map tuple_of (a :: b :: occ)).
  rewrite sortable_int_positions. reflexivity.
Qed.

Lemma occ_sorted (occ : list (Z * string)) :
  StronglySorted by_position (stable_sort occ_ltb occ).
Proof.
  apply stable_sort_sorted with (dom := fun _ => True).
  - unfold by_position. intros; lia.
  - unfold occ_ltb, by_position. intros x y _ _ H.
    apply orb_true_iff in H as [H | H].
    + apply Z.ltb_lt in H. lia.
    + apply andb_true_iff in H as [H _]. apply Z.eqb_eq in H. lia.
  - unfold occ_ltb, by_position. intros x y _ _ H.
    apply orb_false_iff in H as [H _]. apply Z.ltb_ge in H. lia.
  - apply Forall_forall. intros; exact I.
Qed.

(** The text of an index with integer positions: the words of its pairs,
    sorted by position, joined by single spaces. *)
Lemma reconstruct_abstract_index (idx : list (string * list Z)) :
  reconstruct_abstract (inverted_index idx)
  = Ok (String.concat " " (map snd (stable_sort occ_ltb (occurrences idx)))).
Proof.
  destruct idx as [| wp idx]; [reflexivity |].
  unfold reconstruct_abstract, inverted_index.
  cbn [map truthy negb items bind].
  change ((fst wp, PList (map PInt (snd wp)))
          :: map (fun wp0 => (fst wp0, PList (map PInt (snd wp0)))) idx)
    with (map (fun wp0 : string * list Z =>
                 (fst wp0, PList (map PInt (snd wp0)))) (wp :: idx)).
  rewrite word_positions_of_index. cbn [bind].
  rewrite sort_tuples_of. cbn [bind].
  rewrite map_map. reflexivity.
Qed.

Lemma split_on_space_free (w : string) :
  space_free w = true -> split_on " " w = [w].
Proof.
  unfold space_free. induction w as [| c w IH]; [reflexivity |].
  cbn [list_ascii_of_string forallb split_on]. intros H.
  apply andb_true_iff in H as [Hc Hw].
  apply negb_true_iff in Hc. rewrite Hc, (IH Hw). reflexivity.
Qed.

Lemma split_on_append (w rest : string) :
  space_free w = true ->
  split_on " " (w ++ String " " rest)%string = w :: split_on " " rest.
Proof.
  unfold space_free. induction w as [| c w IH]; [reflexivity |].
  cbn [list_ascii_of_string forallb]. intros H.
  apply andb_true_iff in H as [Hc Hw].
  apply negb_true_iff in Hc.
  change ((String c w ++ String " " rest)%string)
    with (String c (w ++ String " " rest)%string).
  cbn [split_on]. rewrite Hc, (IH Hw). reflexivity.
Qed.

(** Joining with single spaces and splitting on them are inverse on a
    non-empty list of words without spaces. *)
Lemma split_on_concat (ws : list string) :
  ws <> [] -> Forall (fun w => space_free w = true) ws ->
  split_on " " (String.concat " " ws) = ws.
Proof.
  induction ws as [| w ws IH]; [congruence |]. intros _ H.
  apply Forall_cons_iff in H as [Hw Hws].
  destruct ws as [| w' ws].
  - apply split_on_space_free. exact Hw.
  - change (String.concat " " (w :: w' :: ws))
      with (w ++ String " " (String.concat " " (w' :: ws)))%string.
    rewrite split_on_append by exact Hw.
    rewrite IH; [reflexivity | congruence | exact Hws].
Qed.

Lemma occurrences_words (idx : list (string * list Z)) (a : Z * string) :
  In a (occurrences idx) -> exists wp, In wp idx /\ fst wp = snd a.
Proof.
  unfold occurrences. intros H. apply in_flat_map in H as [wp [Hwp Ha]].
  apply in_map_iff in Ha as [pos [<- _]]. exists wp. split; [assumption | reflexivity].
Qed.

(** A word that contains a space is split again: re-splitting the text of
    [{"machine learning": [0], "works": [1]}] gives three words, not the two
    of the index. *)
Lemma resplit_fails_on_word_with_space :
  ~ resplit_yields_words [("machine learning", [0]); ("works", [1])].
Proof.
  intros [text [sorted [Hrec [Hperm [_ [_ Hsplit]]]]]].
  vm_compute in Hrec. injection Hrec as <-.
  apply Permutation_length in Hperm.
  apply (f_equal (@List.length string)) in Hsplit.
  rewrite length_map, Hperm in Hsplit.
  vm_compute in Hsplit. discriminate Hsplit.
Qed.

(** C4 (amended). For every inverted index with integer positions the
    reconstruction flattens it to (position, word) pairs, sorts them
    ascending by position and joins the words with single spaces; when no
    word contains a space and the index has at least one occurrence,
    splitting the text on single spaces gives back the words in ascending
    position order.  An absent ([None]) or empty index gives the empty
    string. *)
Theorem reconstruct_abstract_resplit (idx : list (string * list Z)) :
  (exists sorted,
      reconstruct_abstract (inverted_index idx)
      = Ok (String.concat " " (map snd sorted)) /\
      Permutation sorted (occurrences idx) /\
      StronglySorted by_position sorted) /\
  (occurrences idx <> [] ->
   Forall (fun wp => space_free (fst wp) = true) idx ->
   resplit_yields_words idx) /\
  reconstruct_abstract PNone = Ok "" /\
  reconstruct_abstract (inverted_index []) = Ok "".
Proof.
  pose proof (reconstruct_abstract_index idx) as Hrec.
  pose proof (stable_sort_perm occ_ltb (occurrences idx)) as Hperm.
  pose proof (occ_sorted (occurrences idx)) as Hsorted.
  split; [| split; [| split; reflexivity]].
  - exists (stable_sort occ_ltb (occurrences idx)). repeat split; assumption.
  - intros Hne Hfree.
    exists (String.concat " "
              (map snd (stable_sort occ_ltb (occurrences idx)))),
           (stable_sort occ_ltb (occurrences idx)).
    repeat split; try assumption.
    apply split_on_concat.
    + intros Hnil. apply map_eq_nil in Hnil. rewrite Hnil in Hperm.
      apply Permutation_nil in Hperm. contradiction.
    + apply Forall_forall. intros w Hw.
      apply in_map_iff in Hw as [a [<- Ha]].
      apply (Permutation_in _ Hperm) in Ha.
      apply occurrences_words in Ha as [wp [Hwp <-]].
      rewrite Forall_forall in Hfree. apply Hfree. exact Hwp.
Qed.

Lemma reconstruct_abstract_resplit_witness :
  resplit_yields_words hello_index.
Proof.
  apply (proj1 (proj2 (reconstruct_abstract_resplit hello_index))).
  - discriminate.
  - repeat constructor.
Defined.

Example reconstruct_hello :
  reconstruct_abstract (inverted_index hello_index) = Ok "hello big world" /\
  split_on " " "hello big world" = ["hello"; "big"; "world"].
Proof. vm_compute. split; reflexivity. Qed.

(* ===================================================================== *)
(** ** The order of binary64 *)
(* ===================================================================== *)

Lemma lexcmp_spec (a b : Z * Z * Z) :
  CompareSpec (lexeq a b) (lexlt a b) (lexlt b a) (lexcmp a b).
Proof.
  unfold lexcmp, lexeq, lexlt.
  destruct (Z.compare_spec (fst (fst a)) (fst (fst b)));
    [| constructor; lia | constructor; lia].
  destruct (Z.compare_spec (snd (fst a)) (snd (fst b)));
    [| constructor; lia | constructor; lia].
  destruct (Z.compare_spec (snd a) (snd b)); constructor; lia.
Qed.

Lemma compare_fkey (x y : float) :
  F64.is_nan x = false -> F64.is_nan y = false ->
  F64.compare x y = Some (lexcmp (fkey x) (fkey y)).
Proof.
  unfold F64.compare, lexcmp.
  destruct x as [sx | sx | | sx mx ex], y as [sy | sy | | sy my ey];
    try discriminate; intros _ _;
    try destruct sx; try destruct sy; try reflexivity.
  cbn [SFcompare fkey fst snd].
  change (Z.compare (-1) (-1)) with Eq. cbv iota.
  rewrite Z.compare_opp, (Z.compare_antisym ex ey).
  destruct (Z.compare ex ey); reflexivity.
Qed.

Section FloatOrder.

Variables x y z : float.
Hypothesis Hx : F64.is_nan x = false.
Hypothesis Hy : F64.is_nan y = false.
Hypothesis Hz : F64.is_nan z = false.

Lemma fleb_spec : F64.leb x y = true <-> ~ lexlt (fkey y) (fkey x).
Proof.
  unfold F64.leb, SFleb. fold (F64.compare x y).
  rewrite (compare_fkey x y Hx Hy).
  destruct (lexcmp_spec (fkey x) (fkey y)) as [H | H | H];
    unfold lexeq, lexlt in *; split; intros; try discriminate;
    try reflexivity; lia.
Qed.

Lemma fltb_spec : F64.ltb x y = true <-> lexlt (fkey x) (fkey y).
Proof.
  unfold F64.ltb, SFltb. fold (F64.compare x y).
  rewrite (compare_fkey x y Hx Hy).
  destruct (lexcmp_spec (fkey x) (fkey y)) as [H | H | H];
    unfold lexeq, lexlt in *; split; intros; try discriminate;
    try reflexivity; lia.
Qed.

Lemma feqb_spec : F64.eqb x y = true <-> lexeq (fkey x) (fkey y).
Proof.
  unfold F64.eqb, SFeqb. fold (F64.compare x y).
  rewrite (compare_fkey x y Hx Hy).
  destruct (lexcmp_spec (fkey x) (fkey y)) as [H | H | H];
    unfold lexeq, lexlt in *; split; intros; try discriminate;
    try reflexivity; lia.
Qed.

End FloatOrder.

Lemma fleb_trans (x y z : float) :
  F64.is_nan x = false -> F64.is_nan y = false -> F64.is_nan z = false ->
  F64.leb x y = true -> F64.leb y z = true -> F64.leb x z = true.
Proof.
  intros Hx Hy Hz Hxy Hyz.
  apply fleb_spec in Hxy; try assumption.
  apply fleb_spec in Hyz; try assumption.
  apply fleb_spec; try assumption.
  unfold lexlt in *. lia.
Qed.

Lemma fltb_leb (x y : float) :
  F64.is_nan x = false -> F64.is_nan y = false ->
  F64.ltb x y = true -> F64.leb x y = true.
Proof.
  intros Hx Hy H. apply fltb_spec in H; try assumption.
  apply fleb_spec; try assumption. unfold lexlt in *. lia.
Qed.

Lemma fleb_total (x y : float) :
  F64.is_nan x = false -> F64.is_nan y = false ->
  F64.ltb y x = false -> F64.leb x y = true.
Proof.
  intros Hx Hy H. apply fleb_spec; try assumption.
  intros Hlt. apply (fltb_spec y x Hy Hx) in Hlt. congruence.
Qed.

Lemma fleb_antisym (x y : float) :
  F64.is_nan x = false -> F64.is_nan y = false ->
  F64.leb x y = true -> F64.leb y x = true -> F64.eqb x y = true.
Proof.
  intros Hx Hy Hxy Hyx.
  apply fleb_spec in Hxy; try assumption.
  apply fleb_spec in Hyx; try assumption.
  apply feqb_spec; try assumption.
  unfold lexeq, lexlt in *. lia.
Qed.

Lemma feqb_refl (x : float) : F64.is_nan x = false -> F64.eqb x x = true.
Proof.
  intros Hx. apply feqb_spec; try assumption. unfold lexeq. lia.
Qed.

Lemma feqb_not_ltb (x a b : float) :
  F64.is_nan x = false -> F64.is_nan a = false -> F64.is_nan b = false ->
  F64.eqb x a = true -> F64.eqb x b = true -> F64.ltb b a = false.
Proof.
  intros Hx Ha Hb Hxa Hxb.
  apply feqb_spec in Hxa; try assumption.
  apply feqb_spec in Hxb; try assumption.
  destruct (F64.ltb b a) eqn:Hlt; [| reflexivity].
  apply fltb_spec in Hlt; try assumption.
  unfold lexeq, lexlt in *. lia.
Qed.

(* ===================================================================== *)
(** ** [list.sort] on float keys *)
(* ===================================================================== *)

Lemma key_ltb_float (x y : float) :
  key_ltb (PFloat x) (PFloat y) = F64.ltb x y.
Proof.
  unfold key_ltb, F64.ltb, SFltb. cbn [py_compare as_num num_compare].
  unfold F64.compare. destruct (SFcompare x y) as [[| |] |]; reflexivity.
Qed.

Lemma feqb_not_nan (x y : float) :
  F64.eqb x y = true -> F64.is_nan x = false /\ F64.is_nan y = false.
Proof.
  destruct x, y; try discriminate; split; reflexivity.
Qed.

Lemma map_snd_combine {A B : Type} (ks : list A) (l : list B) :
  List.length ks = List.length l -> map snd (combine ks l) = l.
Proof.
  revert l. induction ks as [| k ks IH]; intros [| b l]; simpl;
    try discriminate; intros H; [reflexivity |].
  f_equal. apply IH. lia.
Qed.

Lemma filter_map_comm {A B : Type} (f : A -> B) (p : B -> bool)
    (l : list A) :
  filter p (map f l) = map f (filter (fun a => p (f a)) l).
Proof.
  induction l as [| a l IH]; simpl; [reflexivity |].
  destruct (p (f a)); simpl; now rewrite IH.
Qed.

Lemma filter_rev {A : Type} (p : A -> bool) (l : list A) :
  filter p (rev l) = rev (filter p l).
Proof.
  induction l as [| a l IH]; simpl; [reflexivity |].
  rewrite filter_app, IH. simpl. destruct (p a); simpl.
  - reflexivity.
  - apply app_nil_r.
Qed.

Lemma StronglySorted_map_in {A B : Type} (R : A -> A -> Prop)
    (R' : B -> B -> Prop) (f : A -> B) (l : list A) :
  (forall a b, In a l -> In b l -> R a b -> R' (f a) (f b)) ->
  StronglySorted R l -> StronglySorted R' (map f l).
Proof.
  intros HR Hs. induction Hs as [| a l Hs IH Hhd]; simpl.
  - constructor.
  - constructor.
    + apply IH. intros x y Hx Hy. apply HR; right; assumption.
    + apply Forall_map. rewrite Forall_forall in Hhd |- *.
      intros b Hb. apply HR; [left; reflexivity | right; exact Hb |].
      apply Hhd. exact Hb.
Qed.

Section SortByFloatKey.

Context {A : Type} (key : A -> res pyval).

Lemma decorate (l : list A) :
  Forall (float_keyed key) l ->
  exists ks,
    mapM key l = Ok ks /\
    List.length ks = List.length l /\
    forallb is_ordered_num ks = true /\
    Forall (decorated key) (combine ks l).
Proof.
  induction 1 as [| a l [x [Hk Hn]] _ [ks [Hks [Hlen [Hord Hdec]]]]].
  - exists []. repeat split; constructor.
  - exists (PFloat x :: ks). cbn [mapM]. rewrite Hk, Hks. cbn [bind].
    split; [reflexivity |]. split; [simpl; now rewrite Hlen |].
    split; [cbn [forallb is_ordered_num]; now rewrite Hn, Hord |].
    cbn [combine]. constructor; [| exact Hdec].
    exists x. repeat split; assumption.
Qed.

Lemma dec_sorted (kl : list (pyval * A)) :
  Forall (decorated key) kl -> StronglySorted dec_le (stable_sort dec_ltb kl).
Proof.
  apply stable_sort_sorted.
  - intros a b c [x [Hx [_ Hnx]]] [y [Hy [_ Hny]]] [z [Hz [_ Hnz]]]
           [x' [y' [Hx' [Hy' Hxy]]]] [y'' [z' [Hy'' [Hz' Hyz]]]].
    exists x, z. repeat split; try assumption.
    assert (x' = x) by congruence. assert (y' = y) by congruence.
    assert (y'' = y) by congruence. assert (z' = z) by congruence.
    subst. apply fleb_trans with y; assumption.
  - intros a b [x [Hx [_ Hnx]]] [y [Hy [_ Hny]]] Hlt.
    unfold dec_ltb in Hlt. rewrite Hx, Hy, key_ltb_float in Hlt.
    exists x, y. repeat split; try assumption.
    apply fltb_leb; assumption.
  - intros a b [x [Hx [_ Hnx]]] [y [Hy [_ Hny]]] Hlt.
    unfold dec_ltb in Hlt. rewrite Hx, Hy, key_ltb_float in Hlt.
    exists x, y. repeat split; try assumption.
    apply fleb_total; assumption.
Qed.

Lemma dec_stable (x : float) (kl : list (pyval * A)) :
  Forall (decorated key) kl ->
  filter (fun kp => key_eqb key x (snd kp)) (stable_sort dec_ltb kl)
  = filter (fun kp => key_eqb key x (snd kp)) kl.
Proof.
  intros Hdec. apply stable_sort_filter.
  rewrite Forall_forall in Hdec.
  intros a b Ha Hb Hpa Hpb.
  destruct (Hdec a Ha) as [u [Hu [Hka Hnu]]].
  destruct (Hdec b Hb) as [v [Hv [Hkb Hnv]]].
  unfold key_eqb in Hpa, Hpb. rewrite Hka in Hpa. rewrite Hkb in Hpb.
  unfold dec_ltb. rewrite Hu, Hv, key_ltb_float.
  destruct (feqb_not_nan _ _ Hpa) as [Hnx _].
  apply feqb_not_ltb with x; assumption.
Qed.

(** [l.sort(key=key, reverse=True)] on float keys without NaN: it returns
    a permutation of [l], in descending key order, in which the elements
    that compare equal to a given key keep their order. *)
Lemma list_sort_reverse (l : list A) :
  Forall (float_keyed key) l ->
  exists sorted,
    list_sort key true l = Ok sorted /\
    Permutation sorted l /\
    StronglySorted (key_ge key) sorted /\
    (forall x, filter (key_eqb key x) sorted = filter (key_eqb key x) l).
Proof.
  intros Hl.
  destruct (decorate l Hl) as [ks [Hks [Hlen [Hord Hdec]]]].
  set (kl := combine ks l) in *.
  assert (Hsnd : map snd kl = l) by (apply map_snd_combine; exact Hlen).
  set (sorted := map snd (rev (stable_sort dec_ltb (rev kl)))).
  assert (Hrun : list_sort key true l = Ok sorted).
  { unfold list_sort. rewrite Hks. cbn [bind].
    destruct l as [| a [| b l']].
    - destruct ks; [reflexivity | discriminate Hlen].
    - destruct ks as [| k [| k' ks]]; try discriminate Hlen. reflexivity.
    - unfold sortable_keys. rewrite Hord. reflexivity. }
  assert (Hrev : Forall (decorated key) (rev kl)) by (apply Forall_rev; exact Hdec).
  exists sorted. split; [exact Hrun |]. split; [| split].
  - unfold sorted.
    apply (Permutation_trans (l' := map snd kl));
      [| rewrite Hsnd; apply Permutation_refl].
    apply Permutation_map.
    apply perm_trans with (stable_sort dec_ltb (rev kl)).
    + apply Permutation_sym, Permutation_rev.
    + apply perm_trans with (rev kl).
      * apply stable_sort_perm.
      * apply Permutation_sym, Permutation_rev.
  - unfold sorted.
    apply StronglySorted_map_in
      with (R := fun a b => dec_le b a).
    + intros a b Ha Hb [y [x [Hy [Hx Hle]]]].
      assert (Hin : forall c, In c (rev (stable_sort dec_ltb (rev kl))) ->
                              decorated key c).
      { intros c Hc. apply in_rev in Hc.
        apply (Permutation_in _ (stable_sort_perm dec_ltb (rev kl))) in Hc.
        rewrite Forall_forall in Hrev. apply Hrev. exact Hc. }
      destruct (Hin a Ha) as [u [Hu [Hka _]]].
      destruct (Hin b Hb) as [v [Hv [Hkb _]]].
      exists u, v. repeat split; try assumption.
      assert (Exu : x = u) by congruence.
      assert (Eyv : y = v) by congruence.
      rewrite <- Exu, <- Eyv. exact Hle.
    + apply StronglySorted_rev. apply dec_sorted. exact Hrev.
  - intros x. unfold sorted.
    rewrite filter_map_comm, filter_rev, (dec_stable x _ Hrev).
    rewrite filter_rev, rev_involutive, <- filter_map_comm, Hsnd.
    reflexivity.
Qed.

Lemma mapM_float_keys (l : list A) :
  (forall a, In a l -> exists x, key a = Ok (PFloat x)) ->
  exists xs, mapM key l = Ok (map PFloat xs) /\
             Forall2 (fun a x => key a = Ok (PFloat x)) l xs.
Proof.
  induction l as [| a l IH]; intros H.
  - exists []. split; [reflexivity | constructor].
  - destruct (H a (or_introl eq_refl)) as [x Hx].
    destruct IH as [xs [Hxs Hall]].
    { intros b Hb. apply H. right. exact Hb. }
    exists (x :: xs). cbn [mapM map]. rewrite Hx, Hxs. cbn [bind].
    split; [reflexivity | constructor; assumption].
Qed.

Lemma ordered_float_keys (l : list A) (xs : list float) :
  Forall2 (fun a x => key a = Ok (PFloat x)) l xs ->
  forallb is_ordered_num (map PFloat xs) = true ->
  Forall (float_keyed key) l.
Proof.
  induction 1 as [| a x l xs Hax _ IH]; cbn [map forallb]; intros H.
  - constructor.
  - apply andb_true_iff in H as [Hx Hxs]. constructor; [| apply IH; exact Hxs].
    exists x. split; [exact Hax |]. apply negb_true_iff in Hx. exact Hx.
Qed.

(** Whenever [l.sort(key=key, reverse=True)] returns on float keys, its
    result is the stable descending arrangement of [l]. *)
Lemma list_sort_reverse_Ok (l sorted : list A) :
  (forall a, In a l -> exists x, key a = Ok (PFloat x)) ->
  list_sort key true l = Ok sorted ->
  Permutation sorted l /\
  StronglySorted (key_ge key) sorted /\
  (forall x, filter (key_eqb key x) sorted = filter (key_eqb key x) l).
Proof.
  intros Hkeys Hrun.
  destruct (mapM_float_keys l Hkeys) as [xs [Hxs Hall]].
  assert (Hsmall : (List.length l <= 1)%nat -> sorted = l).
  { intros Hlen. unfold list_sort in Hrun. rewrite Hxs in Hrun.
    cbn [bind] in Hrun.
    destruct l as [| a [| b l']]; [| | simpl in Hlen; lia];
      injection Hrun as <-; reflexivity. }
  destruct l as [| a [| b l']].
  - rewrite (Hsmall ltac:(simpl; lia)).
    split; [constructor |]. split; [constructor | reflexivity].
  - rewrite (Hsmall ltac:(simpl; lia)).
    split; [apply Permutation_refl |].
    split; [repeat constructor | reflexivity].
  - assert (Hord : forallb is_ordered_num (map PFloat xs) = true).
    { unfold list_sort in Hrun. rewrite Hxs in Hrun. cbn [bind] in Hrun.
      unfold sortable_keys in Hrun.
      destruct (forallb is_ordered_num (map PFloat xs)); [reflexivity |].
      inversion Hall as [| a' x l0 xs0 _ _ E1 E2]. subst xs.
      cbn in Hrun. discriminate Hrun. }
    pose proof (ordered_float_keys _ _ Hall Hord) as Hkeyed.
    destruct (list_sort_reverse _ Hkeyed)
      as [sorted' [Hrun' [Hperm [Hsorted Hstable]]]].
    rewrite Hrun in Hrun'. injection Hrun' as <-.
    split; [exact Hperm |]. split; [exact Hsorted | exact Hstable].
Qed.

(** The three properties determine the result: two arrangements of the
    same elements that are both descending and agree on the order inside
    every class of equal keys are the same list.  So every stable sort
    returns what [list_sort] returns on such keys. *)
Lemma descending_stable_unique (s1 s2 : list A) :
  Forall (float_keyed key) s1 ->
  Permutation s1 s2 ->
  StronglySorted (key_ge key) s1 ->
  StronglySorted (key_ge key) s2 ->
  (forall x, filter (key_eqb key x) s1 = filter (key_eqb key x) s2) ->
  s1 = s2.
Proof.
  revert s2. induction s1 as [| a t1 IH]; intros s2 Hdom Hperm Hs1 Hs2 Hcls.
  - apply Permutation_nil in Hperm. congruence.
  - destruct s2 as [| b t2].
    { apply Permutation_sym, Permutation_nil in Hperm. discriminate. }
    apply Forall_cons_iff in Hdom as [[xa [Hka Hna]] Hdom].
    apply StronglySorted_inv in Hs1 as [Hs1 Ha].
    apply StronglySorted_inv in Hs2 as [Hs2 Hb].
    assert (Eaa : key_eqb key xa a = true).
    { unfold key_eqb. rewrite Hka. apply feqb_refl. exact Hna. }
    assert (Eab : key_eqb key xa b = true).
    { assert (Hin : In b (a :: t1))
        by (apply (Permutation_in _ (Permutation_sym Hperm)); left; reflexivity).
      destruct Hin as [<- | Hin]; [exact Eaa |].
      assert (Hin' : In a (b :: t2))
        by (apply (Permutation_in _ Hperm); left; reflexivity).
      destruct Hin' as [-> | Hin']; [exact Eaa |].
      rewrite Forall_forall in Ha, Hb, Hdom.
      destruct (Ha b Hin) as [x [y [Hx [Hy Hle]]]].
      destruct (Hb a Hin') as [y' [x' [Hy' [Hx' Hle']]]].
      destruct (Hdom b Hin) as [yb [Hkb Hnb]].
      assert (x = xa) by congruence. assert (x' = xa) by congruence.
      assert (y = yb) by congruence. assert (y' = yb) by congruence.
      subst. unfold key_eqb. rewrite Hkb.
      apply fleb_antisym; assumption. }
    pose proof (Hcls xa) as Hhead. cbn [filter] in Hhead.
    rewrite Eaa, Eab in Hhead. injection Hhead as Hab _. subst b.
    f_equal. apply IH.
    + exact Hdom.
    + apply Permutation_cons_inv with a. exact Hperm.
    + exact Hs1.
    + exact Hs2.
    + intros x. specialize (Hcls x). cbn [filter] in Hcls.
      destruct (key_eqb key x a); [injection Hcls as Hcls |]; exact Hcls.
Qed.

End SortByFloatKey.

(* ===================================================================== *)
(** ** Ranking of a batch *)
(* ===================================================================== *)

Lemma score_of_Some (p : pyval) (x : float) :
  score_of p = Some x <-> py_item p "score" = Ok (PFloat x).
Proof.
  unfold score_of. split.
  - destruct (py_item p "score") as [[] |]; try discriminate.
    intros H. injection H as ->. reflexivity.
  - intros ->. reflexivity.
Qed.

Lemma same_score_key_eqb (q p : pyval) :
  same_score q p
  = match score_of q with
    | Some a => key_eqb (fun x => py_item x "score") a p
    | None => false
    end.
Proof.
  unfold same_score, key_eqb, score_of.
  destruct (py_item q "score") as [[] |]; try reflexivity.
  destruct (py_item p "score") as [[] |]; reflexivity.
Qed.

Lemma filter_none {A : Type} (l : list A) :
  filter (fun _ => false) l = [].
Proof. induction l; simpl; auto. Qed.

Lemma In_firstn {A : Type} (n : nat) (l : list A) (a : A) :
  In a (firstn n l) -> In a l.
Proof.
  intros H. rewrite <- (firstn_skipn n l). apply in_or_app. left. exact H.
Qed.

Lemma StronglySorted_firstn {A : Type} (R : A -> A -> Prop) (n : nat)
    (l : list A) :
  StronglySorted R l -> StronglySorted R (firstn n l).
Proof.
  intros H. revert n. induction H as [| a l Hs IH Hhd]; intros [| n]; simpl;
    try constructor.
  - apply IH.
  - rewrite Forall_forall in Hhd |- *. intros b Hb.
    apply Hhd. apply (In_firstn n l). exact Hb.
Qed.

Lemma search_papers_unfold (sort_by : string) (limit : nat)
    (start_year end_year : Z) (papers ranked : list pyval)
    (max_citations : pyval) :
  batch_max_citations papers = Ok max_citations ->
  mapM (fun item =>
          build_paper_result item start_year end_year max_citations) papers
  = Ok ranked ->
  search_papers sort_by limit start_year end_year papers
  = (sorted <- (if String.eqb sort_by "relevance"
                then list_sort (fun x => py_item x "score") true ranked
                else Ok ranked) ;;
     Ok (firstn limit sorted)).
Proof.
  unfold batch_max_citations, search_papers. intros Hmax Hbuild.
  apply bind_Ok in Hmax as [counts [Hcounts Hmax]].
  apply bind_Ok in Hmax as [m [Hm Hmax]].
  injection Hmax as <-.
  destruct papers as [| item papers].
  - cbn in Hcounts. injection Hcounts as <-. discriminate Hm.
  - rewrite Hcounts. cbn [bind]. rewrite Hm. cbn [bind].
    rewrite Hbuild. reflexivity.
Qed.

(** The search returns as soon as the records can be built and, in
    ["relevance"] mode, no score is a NaN. *)
Lemma search_papers_returns (sort_by : string) (limit : nat)
    (start_year end_year : Z) (papers ranked : list pyval)
    (max_citations : pyval) :
  batch_max_citations papers = Ok max_citations ->
  mapM (fun item =>
          build_paper_result item start_year end_year max_citations) papers
  = Ok ranked ->
  (sort_by <> "relevance" ->
   search_papers sort_by limit start_year end_year papers
   = Ok (firstn limit ranked)) /\
  (sort_by = "relevance" ->
   Forall score_ordered ranked ->
   exists sorted,
     search_papers sort_by limit start_year end_year papers
     = Ok (firstn limit sorted) /\
     Permutation sorted ranked /\
     StronglySorted score_ge sorted /\
     StronglySorted score_ge (firstn limit sorted) /\
     (forall q, filter (same_score q) sorted
                = filter (same_score q) ranked)).
Proof.
  intros Hmax Hbuild.
  pose proof (search_papers_unfold sort_by limit _ _ _ _ _ Hmax Hbuild)
    as Hrun.
  split.
  - intros Hmode. apply String.eqb_neq in Hmode.
    rewrite Hrun, Hmode. reflexivity.
  - intros Hmode Hord. apply String.eqb_eq in Hmode.
    rewrite Hrun, Hmode.
    assert (Hkeyed : Forall (float_keyed (fun x => py_item x "score")) ranked).
    { rewrite Forall_forall in Hord |- *. intros p Hp.
      destruct (Hord p Hp) as [x [Hx Hn]]. exists x.
      split; [apply score_of_Some; exact Hx | exact Hn]. }
    destruct (list_sort_reverse _ ranked Hkeyed)
      as [sorted [Hsort [Hperm [Hsorted Hstable]]]].
    assert (Hge : StronglySorted score_ge sorted).
    { apply StronglySorted_map_in
        with (f := fun p : pyval => p) (R' := score_ge) in Hsorted.
      - rewrite map_id in Hsorted. exact Hsorted.
      - intros a b _ _ [x [y [Hx [Hy Hle]]]]. exists x, y.
        repeat split; try assumption; apply score_of_Some; assumption. }
    exists sorted. rewrite Hsort. cbn [bind].
    split; [reflexivity |]. split; [exact Hperm |].
    split; [exact Hge |].
    split; [apply StronglySorted_firstn; exact Hge |].
    intros q.
    rewrite (filter_ext _ _ (same_score_key_eqb q) sorted).
    rewrite (filter_ext _ _ (same_score_key_eqb q) ranked).
    destruct (score_of q) as [a |].
    + apply Hstable.
    + rewrite !filter_none. reflexivity.
Qed.

Lemma built_records_scores (start_year end_year : Z)
    (max_citations : pyval) (papers ranked : list pyval) :
  mapM (fun item =>
          build_paper_result item start_year end_year max_citations) papers
  = Ok ranked ->
  forall p, In p ranked -> exists x, py_item p "score" = Ok (PFloat x).
Proof.
  intros H. apply mapM_Ok_Forall2 in H.
  induction H as [| item paper papers ranked Hb _ IH]; intros p Hp.
  - contradiction.
  - destruct Hp as [<- | Hp]; [| apply IH; exact Hp].
    destruct (build_paper_result_Ok_score _ _ _ _ _ Hb)
      as [sc [rel [cit [rec [_ [_ [_ [_ Hscore]]]]]]]].
    eexists. exact Hscore.
Qed.

(** C2. Whenever the search returns: in ["relevance"] mode the returned
    records are the first [limit] of the built records sorted by score
    descending, stably (records with equal scores keep their provider
    order); in every other mode they are the first [limit] of the built
    records in provider order, each carrying its score.  On the batch with
    scores 0.3, 0.9, 0.9 the two tied records [B], [C] come first, in that
    order, and [A], [B], [C] is kept under ["year_desc"]. *)
Theorem search_papers_order (sort_by : string) (limit : nat)
    (start_year end_year : Z) (papers results : list pyval) :
  search_papers sort_by limit start_year end_year papers = Ok results ->
  (exists ranked,
      built_records start_year end_year papers = Ok ranked /\
      (sort_by <> "relevance" -> results = firstn limit ranked) /\
      (sort_by = "relevance" ->
       exists sorted,
         results = firstn limit sorted /\
         Permutation sorted ranked /\
         StronglySorted score_ge sorted /\
         StronglySorted score_ge results /\
         (forall q, filter (same_score q) sorted
                    = filter (same_score q) ranked))) /\
  ids (search_papers "relevance" 10 2020 2025 tied_batch)
  = [PStr "B"; PStr "C"; PStr "A"] /\
  ids (search_papers "year_desc" 10 2020 2025 tied_batch)
  = [PStr "A"; PStr "B"; PStr "C"].
Proof.
  intros Hrun. split; [| split; vm_compute; reflexivity].
  unfold search_papers in Hrun. unfold built_records, batch_max_citations.
  destruct papers as [| item papers].
  - injection Hrun as <-. exists []. split; [reflexivity |].
    split; [intros _; symmetry; apply firstn_nil |].
    intros _. exists []. rewrite firstn_nil.
    split; [reflexivity |]. split; [constructor |].
    split; [constructor |]. split; [constructor | reflexivity].
  - apply bind_Ok in Hrun as [counts [Hcounts Hrun]].
    apply bind_Ok in Hrun as [m [Hm Hrun]].
    apply bind_Ok in Hrun as [ranked [Hbuild Hrun]].
    apply bind_Ok in Hrun as [sorted [Hsort Hrun]].
    injection Hrun as <-.
    exists ranked. rewrite Hcounts. cbn [bind]. rewrite Hm. cbn [bind].
    split; [exact Hbuild |]. split.
    + intros Hmode. apply String.eqb_neq in Hmode. rewrite Hmode in Hsort.
      injection Hsort as <-. reflexivity.
    + intros Hmode. apply String.eqb_eq in Hmode. rewrite Hmode in Hsort.
      pose proof (built_records_scores _ _ _ _ _ Hbuild) as Hscores.
      destruct (list_sort_reverse_Ok _ ranked sorted Hscores Hsort)
        as [Hperm [Hsorted Hstable]].
      assert (Hge : StronglySorted score_ge sorted).
      { apply StronglySorted_map_in
          with (f := fun p : pyval => p) (R' := score_ge) in Hsorted.
        - rewrite map_id in Hsorted. exact Hsorted.
        - intros a b _ _ [x [y [Hx [Hy Hle]]]]. exists x, y.
          repeat split; try assumption; apply score_of_Some; assumption. }
      exists sorted. split; [reflexivity |]. split; [exact Hperm |].
      split; [exact Hge |].
      split; [apply StronglySorted_firstn; exact Hge |].
      intros q.
      rewrite (filter_ext _ _ (same_score_key_eqb q) sorted).
      rewrite (filter_ext _ _ (same_score_key_eqb q) ranked).
      destruct (score_of q) as [a |].
      * apply Hstable.
      * rewrite !filter_none. reflexivity.
Qed.

(** The scores of [tied_batch] are 0.3, 0.9 and 0.9. *)
Example tied_batch_scores :
  map score_of tied_ranked
  = [Some f0_3; Some (F64.of_ratio 9 10); Some (F64.of_ratio 9 10)].
Proof. vm_compute. reflexivity. Qed.

Lemma search_papers_order_witness :
  exists ranked,
    built_records 2020 2025 tied_batch = Ok ranked /\
    ("relevance" <> "relevance" -> tied_results = firstn 10 ranked) /\
    ("relevance" = "relevance" ->
     exists sorted,
       tied_results = firstn 10 sorted /\
       Permutation sorted ranked /\
       StronglySorted score_ge sorted /\
       StronglySorted score_ge tied_results /\
       (forall q, filter (same_score q) sorted
                  = filter (same_score q) ranked)).
Proof.
  apply (proj1 (search_papers_order "relevance" 10 2020 2025 tied_batch
                  tied_results eq_refl)).
Defined.

(* ===================================================================== *)
(** ** Quotients of integers in binary64 *)
(* ===================================================================== *)

Lemma digits2_pos_bounds (p : positive) :
  2 ^ (Zpos (digits2_pos p) - 1) <= Zpos p < 2 ^ Zpos (digits2_pos p).
Proof.
  induction p as [p IH | p IH |]; cbn [digits2_pos].
  - rewrite Pos2Z.inj_succ.
    replace (Z.succ (Zpos (digits2_pos p)) - 1) with (Z.succ (Zpos (digits2_pos p) - 1)) by lia.
    rewrite !Z.pow_succ_r by lia. lia.
  - rewrite Pos2Z.inj_succ.
    replace (Z.succ (Zpos (digits2_pos p)) - 1) with (Z.succ (Zpos (digits2_pos p) - 1)) by lia.
    rewrite !Z.pow_succ_r by lia. lia.
  - simpl. lia.
Qed.

Lemma Zdigits2_le (q j : Z) :
  0 <= j -> 0 <= q < 2 ^ j -> Zdigits2 q <= j.
Proof.
  intros Hj [Hq0 Hq]. destruct q as [| p | p]; simpl; try lia.
  pose proof (digits2_pos_bounds p) as [Hlo _].
  assert (H : 2 ^ (Zpos (digits2_pos p) - 1) < 2 ^ j) by lia.
  apply Z.pow_lt_mono_r_iff in H; lia.
Qed.

Lemma digits2_pos_mono (a b : positive) :
  (a <= b)%positive -> Zpos (digits2_pos a) <= Zpos (digits2_pos b).
Proof.
  intros Hab.
  pose proof (digits2_pos_bounds a) as [Hlo _].
  pose proof (digits2_pos_bounds b) as [_ Hhi].
  assert (H : 2 ^ (Zpos (digits2_pos a) - 1) < 2 ^ Zpos (digits2_pos b)) by lia.
  apply Z.pow_lt_mono_r_iff in H; lia.
Qed.


Lemma shr_1_below_one (mrs : shr_record) (k : Z) :
  1 <= k -> below_one mrs k -> below_one (shr_1 mrs) (k - 1).
Proof.
  intros Hk [[H0 Hle] Hlt].
  assert (Hpow : 2 ^ k = 2 * 2 ^ (k - 1)).
  { replace k with (Z.succ (k - 1)) at 1 by lia. apply Z.pow_succ_r. lia. }
  assert (0 < 2 ^ (k - 1)) by (apply Z.pow_pos_nonneg; lia).
  destruct mrs as [m r s]. cbn [shr_m shr_r shr_s] in *.
  unfold below_one, shr_1.
  destruct m as [| [p | p |] | p]; cbn [shr_m shr_r shr_s]; try lia.
  - split; [destruct (r || s); [specialize (Hlt eq_refl) |]; lia |].
    cbn [orb]. intros Hrs. specialize (Hlt Hrs). lia.
Qed.

Lemma iter_pos_below_one (n : positive) (mrs : shr_record) (k : Z) :
  Zpos n <= k -> below_one mrs k ->
  below_one (iter_pos shr_1 n mrs) (k - Zpos n).
Proof.
  revert mrs k. induction n as [n IH | n IH |]; intros mrs k Hk H;
    cbn [iter_pos].
  - replace (k - Zpos n~1) with (k - 1 - Zpos n - Zpos n) by lia.
    apply IH; [lia |]. apply IH; [lia |].
    apply shr_1_below_one; [lia | exact H].
  - replace (k - Zpos n~0) with (k - Zpos n - Zpos n) by lia.
    apply IH; [lia |]. apply IH; [lia | exact H].
  - apply shr_1_below_one; [lia | exact H].
Qed.

Lemma shr_m_of_loc (m : Z) (l : location) :
  shr_m (shr_record_of_loc m l) = m.
Proof. destruct l as [| []]; reflexivity. Qed.

Lemma fexp_le (x : Z) : x <= 1 -> fexp 53 1024 x <= -52.
Proof. unfold fexp, emin. lia. Qed.

Lemma shr_fexp_below_one (m e : Z) (l : location) :
  e <= -52 -> below_one (shr_record_of_loc m l) (- e) ->
  snd (shr_fexp 53 1024 m e l) <= -52 /\
  below_one (fst (shr_fexp 53 1024 m e l)) (- snd (shr_fexp 53 1024 m e l)).
Proof.
  intros He H. unfold shr_fexp, shr.
  assert (Hm : 0 <= m <= 2 ^ (- e)).
  { destruct H as [H _]. rewrite shr_m_of_loc in H. exact H. }
  assert (Hd : Zdigits2 m <= - e + 1).
  { apply Zdigits2_le; [lia |]. rewrite Z.pow_add_r by lia. 
    assert (0 < 2 ^ (- e)) by (apply Z.pow_pos_nonneg; lia). lia. }
  pose proof (fexp_le (Zdigits2 m + e) ltac:(lia)) as Hf.
  destruct (fexp 53 1024 (Zdigits2 m + e) - e) as [| p | p] eqn:Hn;
    cbn [fst snd].
  - split; [lia | exact H].
  - split; [lia |].
    replace (- (e + Zpos p)) with (- e - Zpos p) by lia.
    apply iter_pos_below_one; [lia | exact H].
  - split; [lia | exact H].
Qed.

Lemma round_nearest_even_below_one (mrs : shr_record) (k : Z) :
  below_one mrs k ->
  0 <= round_nearest_even (shr_m mrs) (loc_of_shr_record mrs) <= 2 ^ k.
Proof.
  intros [[H0 Hle] Hlt]. destruct mrs as [m r s].
  cbn [shr_m shr_r shr_s] in *.
  destruct r, s; cbn [loc_of_shr_record round_nearest_even orb] in *;
    try (specialize (Hlt eq_refl)); try lia.
  destruct (Z.even m); lia.
Qed.


Lemma SFleb_finite (p c : positive) (e k : Z) :
  e <= k -> (e = k -> Zpos p <= Zpos c) ->
  SFleb (S754_finite false p e) (S754_finite false c k) = true.
Proof.
  intros He Hp. unfold SFleb, SFcompare.
  destruct (Z.compare_spec e k) as [Heq | Hlt | Hgt]; [| reflexivity | lia].
  specialize (Hp Heq). fold (Pos.compare p c).
  destruct (Pos.compare_spec p c) as [H | H | H]; try reflexivity.
  lia.
Qed.

Lemma pow2_52 : 2 ^ 52 = Zpos 4503599627370496.
Proof. vm_compute. reflexivity. Qed.

(** Rounding a value that is at most 1, held at an exponent below -52,
    gives a float in [0, 1]. *)
Lemma binary_round_aux_unit (m e : Z) (l : location) :
  e <= -52 -> below_one (shr_record_of_loc m l) (- e) ->
  let x := binary_round_aux 53 1024 false m e l in
  SFleb (S754_zero false) x = true /\ SFleb x F64.one = true.
Proof.
  intros He H. unfold binary_round_aux.
  pose proof (shr_fexp_below_one m e l He H) as [He1 H1].
  destruct (shr_fexp 53 1024 m e l) as [mrs1 e1]. cbn [fst snd] in *.
  pose proof (round_nearest_even_below_one mrs1 (- e1) H1) as Hr.
  set (mr := round_nearest_even (shr_m mrs1) (loc_of_shr_record mrs1)) in *.
  assert (H2 : below_one (shr_record_of_loc mr loc_Exact) (- e1)).
  { split; cbn [shr_record_of_loc shr_m shr_r shr_s orb];
      [exact Hr | discriminate]. }
  pose proof (shr_fexp_below_one mr e1 loc_Exact He1 H2) as [He2 H3].
  destruct (shr_fexp 53 1024 mr e1 loc_Exact) as [mrs2 e2].
  cbn [fst snd] in *. destruct H3 as [[H30 H3le] _].
  destruct (shr_m mrs2) as [| p | p]; [| | lia].
  - split; reflexivity.
  - assert (Hle : (e2 <=? 1024 - 53) = true) by (apply Z.leb_le; lia).
    rewrite Hle. split; [reflexivity |].
    unfold F64.one.
    apply SFleb_finite; [exact He2 |].
    intros ->. change (- -52) with 52 in H3le. rewrite pow2_52 in H3le.
    exact H3le.
Qed.

Lemma new_location_zero (nb : Z) : new_location nb 0 = loc_Exact.
Proof.
  unfold new_location, new_location_even, new_location_odd.
  destruct (Z.even nb); reflexivity.
Qed.

Lemma quotient_below_one (a b : positive) (s : Z) :
  (a <= b)%positive -> 0 <= s ->
  forall q r, Z.div_eucl (Zpos a * 2 ^ s) (Zpos b) = (q, r) ->
  below_one (shr_record_of_loc q (new_location (Zpos b) r)) s.
Proof.
  intros Hab Hs q r Hqr.
  pose proof (Z_div_mod (Zpos a * 2 ^ s) (Zpos b) ltac:(lia)) as Hdm.
  rewrite Hqr in Hdm. destruct Hdm as [Heq Hr].
  assert (Hpow : 0 < 2 ^ s) by (apply Z.pow_pos_nonneg; lia).
  assert (Hab' : Zpos a <= Zpos b) by lia.
  unfold below_one.
  set (P := 2 ^ s) in *. set (A := Zpos a) in *. set (B := Zpos b) in *.
  assert (HB : 0 < B) by (unfold B; lia).
  assert (HA : 0 < A) by (unfold A; lia).
  clearbody P A B.
  assert (Hq0 : 0 <= q) by nia.
  assert (HqP : q <= P) by nia.
  destruct (Z.eq_dec r 0) as [-> | Hr0].
  - rewrite new_location_zero. split; cbn; [lia | discriminate].
  - assert (q < P) by nia.
    rewrite shr_m_of_loc. split; [lia | intros _; lia].
Qed.

(** The correctly rounded quotient of two positive integers [a <= b]. *)
Lemma SFdiv_unit (a b : positive) :
  (a <= b)%positive ->
  let x := SFdiv 53 1024 (S754_finite false a 0) (S754_finite false b 0) in
  SFleb (S754_zero false) x = true /\ SFleb x F64.one = true.
Proof.
  intros Hab. unfold SFdiv, SFdiv_core_binary.
  pose proof (digits2_pos_mono a b Hab) as Hd.
  cbn [Zdigits2 xorb].
  set (d1 := Zpos (digits2_pos a)) in *.
  set (d2 := Zpos (digits2_pos b)) in *.
  assert (He : Z.min (fexp 53 1024 (d1 + 0 - (d2 + 0))) (0 - 0)
               = fexp 53 1024 (d1 - d2)).
  { replace (d1 + 0 - (d2 + 0)) with (d1 - d2) by lia.
    unfold fexp, emin. lia. }
  rewrite He.
  assert (Hf : fexp 53 1024 (d1 - d2) <= -53) by (unfold fexp, emin; lia).
  set (e' := fexp 53 1024 (d1 - d2)) in *. clearbody e'.
  destruct (0 - 0 - e') as [| s | s] eqn:Hs; try lia.
  rewrite Z.shiftl_mul_pow2 by lia.
  destruct (Z.div_eucl (Zpos a * 2 ^ Zpos s) (Zpos b)) as [q r] eqn:Hqr.
  apply binary_round_aux_unit; [lia |].
  replace (- e') with (Zpos s) by lia.
  apply quotient_below_one with (a := a); [exact Hab | lia | exact Hqr].
Qed.

(** *** A non-zero integer does not round to zero *)

Lemma shr_1_lower (mrs : shr_record) (j : Z) :
  1 <= j -> 2 ^ j <= shr_m mrs -> 2 ^ (j - 1) <= shr_m (shr_1 mrs).
Proof.
  intros Hj H.
  assert (Hpow : 2 ^ j = 2 * 2 ^ (j - 1)).
  { replace j with (Z.succ (j - 1)) at 1 by lia. apply Z.pow_succ_r. lia. }
  assert (0 < 2 ^ (j - 1)) by (apply Z.pow_pos_nonneg; lia).
  destruct mrs as [m r s]. cbn [shr_m] in *. unfold shr_1.
  destruct m as [| [p | p |] | p]; cbn [shr_m]; lia.
Qed.

Lemma iter_pos_lower (n : positive) (mrs : shr_record) (j : Z) :
  Zpos n <= j -> 2 ^ j <= shr_m mrs ->
  2 ^ (j - Zpos n) <= shr_m (iter_pos shr_1 n mrs).
Proof.
  revert mrs j. induction n as [n IH | n IH |]; intros mrs j Hj H;
    cbn [iter_pos].
  - replace (j - Zpos n~1) with (j - 1 - Zpos n - Zpos n) by lia.
    apply IH; [lia |]. apply IH; [lia |].
    apply shr_1_lower; [lia | exact H].
  - replace (j - Zpos n~0) with (j - Zpos n - Zpos n) by lia.
    apply IH; [lia |]. apply IH; [lia | exact H].
  - apply shr_1_lower; [lia | exact H].
Qed.

Lemma shr_fexp_positive (m e : Z) (l : location) :
  0 < m -> -1074 <= e ->
  0 < shr_m (fst (shr_fexp 53 1024 m e l)) /\
  -1074 <= snd (shr_fexp 53 1024 m e l).
Proof.
  intros Hm He. unfold shr_fexp, shr.
  destruct m as [| p | p]; try lia. cbn [Zdigits2].
  pose proof (digits2_pos_bounds p) as [Hlo _].
  set (d := Zpos (digits2_pos p)) in *.
  assert (Hd : 1 <= d) by (unfold d; lia).
  assert (Hn : fexp 53 1024 (d + e) - e <= d - 1)
    by (unfold fexp, emin; lia).
  destruct (fexp 53 1024 (d + e) - e) as [| n | n] eqn:En; cbn [fst snd].
  - rewrite shr_m_of_loc. lia.
  - split; [| lia].
    pose proof (iter_pos_lower n (shr_record_of_loc (Zpos p) l) (d - 1)
                  Hn ltac:(rewrite shr_m_of_loc; exact Hlo)) as H.
    assert (0 < 2 ^ (d - 1 - Zpos n)) by (apply Z.pow_pos_nonneg; lia).
    lia.
  - rewrite shr_m_of_loc. lia.
Qed.

Lemma round_nearest_even_positive (m : Z) (l : location) :
  0 < m -> 0 < round_nearest_even m l.
Proof.
  intros Hm. destruct l as [| []]; cbn [round_nearest_even]; try lia.
  destruct (Z.even m); lia.
Qed.

Lemma binary_round_aux_nonzero (s : bool) (p : positive) (e : Z)
    (l : location) :
  -1074 <= e ->
  match binary_round_aux 53 1024 s (Zpos p) e l with
  | S754_zero _ => False
  | _ => True
  end.
Proof.
  intros He. unfold binary_round_aux.
  pose proof (shr_fexp_positive (Zpos p) e l ltac:(lia) He) as [H1 He1].
  destruct (shr_fexp 53 1024 (Zpos p) e l) as [mrs1 e1]. cbn [fst snd] in *.
  pose proof (round_nearest_even_positive _ (loc_of_shr_record mrs1) H1) as Hr.
  set (mr := round_nearest_even (shr_m mrs1) (loc_of_shr_record mrs1)) in *.
  pose proof (shr_fexp_positive mr e1 loc_Exact Hr He1) as [H2 _].
  destruct (shr_fexp 53 1024 mr e1 loc_Exact) as [mrs2 e2].
  cbn [fst snd] in *.
  destruct (shr_m mrs2) as [| q | q]; try lia.
  destruct (e2 <=? 1024 - 53); exact I.
Qed.

Lemma binary_round_nonzero (s : bool) (p : positive) :
  match binary_round 53 1024 s p 0 with
  | S754_zero _ => False
  | _ => True
  end.
Proof.
  unfold binary_round, shl_align.
  set (f := fexp 53 1024 (Zpos (digits2_pos p) + 0)).
  assert (Hf : -1074 <= f) by (unfold f, fexp, emin; lia).
  destruct (f - 0) as [| d | d] eqn:Ed.
  - apply binary_round_aux_nonzero. lia.
  - apply binary_round_aux_nonzero. lia.
  - apply binary_round_aux_nonzero. exact Hf.
Qed.

Lemma of_Z_nonzero (n : Z) : n <> 0 -> F64.is_zero (F64.of_Z n) = false.
Proof.
  intros Hn. unfold F64.of_Z, binary_normalize, F64.prec, F64.emax.
  destruct n as [| p | p]; [contradiction | |].
  - pose proof (binary_round_nonzero false p) as H.
    destruct (binary_round 53 1024 false p 0); [contradiction | | |];
      reflexivity.
  - pose proof (binary_round_nonzero true p) as H.
    destruct (binary_round 53 1024 true p 0); [contradiction | | |];
      reflexivity.
Qed.

(* ===================================================================== *)
(** ** The component scores *)
(* ===================================================================== *)

Lemma of_ratio_unit (a b : positive) :
  (a <= b)%positive ->
  F64.leb F64.zero (F64.of_ratio (Zpos a) b) = true /\
  F64.leb (F64.of_ratio (Zpos a) b) F64.one = true.
Proof.
  intros Hab. unfold F64.of_ratio, F64.div, F64.leb, F64.zero.
  apply (SFdiv_unit a b Hab).
Qed.

Lemma int_truediv_unit (m n : Z) :
  0 < m <= n ->
  exists x, int_truediv m n = Ok (PFloat x) /\
            F64.leb F64.zero x = true /\ F64.leb x F64.one = true.
Proof.
  intros [Hm Hmn]. destruct n as [| d | d]; try lia.
  destruct m as [| p | p]; try lia.
  assert (Hpd : (p <= d)%positive) by lia.
  destruct (of_ratio_unit p d Hpd) as [H0 H1].
  unfold int_truediv. exists (F64.of_ratio (Zpos p) d).
  split; [| split; assumption].
  destruct (F64.of_ratio (Zpos p) d) as [| [] | |]; try reflexivity;
    discriminate.
Qed.

Lemma int_truediv_nonzero (m n : Z) :
  n <> 0 -> int_truediv m n <> Raise ZeroDivisionError.
Proof.
  intros Hn. unfold int_truediv. destruct n as [| d | d]; [contradiction | |].
  - destruct (F64.of_ratio m d); discriminate.
  - destruct (F64.of_ratio (- m) d); discriminate.
Qed.

(** A truthy number is not zero, and stays so as a float. *)
Lemma truthy_float_of_num (b : pyval) (y : num) (v : float) :
  truthy b = true -> as_num b = Some y -> float_of_num y = Ok v ->
  F64.is_zero v = false.
Proof.
  intros Ht Hy Hv.
  destruct b as [| [] | n | x | | |]; try discriminate;
    injection Hy as <-; cbn [float_of_num] in Hv.
  - injection Hv as <-. reflexivity.
  - unfold to_float in Hv.
    assert (Hn : n <> 0).
    { intros ->. discriminate Ht. }
    pose proof (of_Z_nonzero n Hn) as Hz.
    destruct (F64.of_Z n); try discriminate; injection Hv as <-; exact Hz.
  - injection Hv as <-. cbn [truthy] in Ht.
    apply negb_true_iff in Ht. exact Ht.
Qed.

Lemma float_of_num_raise (a : num) (e : exn) :
  float_of_num a = Raise e -> e = OverflowError.
Proof.
  destruct a as [n | x]; cbn [float_of_num]; [| discriminate].
  unfold to_float. destruct (F64.of_Z n); try discriminate.
  intros H. injection H as <-. reflexivity.
Qed.

(** [a / b] does not raise [ZeroDivisionError] when [b] is truthy. *)
Lemma py_truediv_no_zero_division (a b : pyval) :
  truthy b = true -> py_truediv a b <> Raise ZeroDivisionError.
Proof.
  intros Ht. unfold py_truediv.
  destruct (as_num a) as [x |] eqn:Hx; [| discriminate].
  destruct (as_num b) as [y |] eqn:Hy; [| destruct x; discriminate].
  assert (Hfloat : (u <- float_of_num x ;;
                    v <- float_of_num y ;;
                    if F64.is_zero v then Raise ZeroDivisionError
                    else Ok (PFloat (F64.div u v)))
                   <> Raise ZeroDivisionError).
  { destruct (float_of_num x) as [u | e] eqn:Eu; cbn [bind];
      [| apply float_of_num_raise in Eu; subst e; discriminate].
    destruct (float_of_num y) as [v | e] eqn:Ev; cbn [bind];
      [| apply float_of_num_raise in Ev; subst e; discriminate].
    rewrite (truthy_float_of_num b y v Ht Hy Ev). discriminate. }
  destruct x as [m | u], y as [n | v]; try exact Hfloat.
  apply int_truediv_nonzero. intros ->.
  destruct b as [| [] | n | | | |]; try discriminate.
  injection Hy as Hn. rewrite Hn in Ht. discriminate Ht.
Qed.

(** [normalize] never divides by zero, whatever its arguments are. *)
Lemma normalize_no_zero_division (value max_value : pyval) :
  normalize value max_value <> Raise ZeroDivisionError.
Proof.
  unfold normalize. destruct (truthy value); cbn [negb orb].
  - destruct (truthy max_value) eqn:Hm; cbn [negb].
    + apply py_truediv_no_zero_division. exact Hm.
    + discriminate.
  - discriminate.
Qed.

Lemma py_sub_no_zero_division (a b : pyval) :
  py_sub a b <> Raise ZeroDivisionError.
Proof.
  unfold py_sub. destruct (as_num a) as [x |]; [| discriminate].
  destruct (as_num b) as [y |]; [| discriminate].
  assert (Hfloat : (u <- float_of_num x ;;
                    v <- float_of_num y ;;
                    Ok (PFloat (F64.sub u v)))
                   <> Raise ZeroDivisionError).
  { destruct (float_of_num x) as [u | e] eqn:Eu; cbn [bind];
      [| apply float_of_num_raise in Eu; subst e; discriminate].
    destruct (float_of_num y) as [v | e] eqn:Ev; cbn [bind];
      [| apply float_of_num_raise in Ev; subst e; discriminate].
    discriminate. }
  unfold arith. destruct x, y; try exact Hfloat. discriminate.
Qed.

Lemma truthy_int (n : Z) : truthy (PInt n) = negb (n =? 0).
Proof. reflexivity. Qed.

Lemma normalize_ints (m n : Z) :
  normalize (PInt m) (PInt n)
  = if (m =? 0) || (n =? 0) then Ok (PInt 0) else int_truediv m n.
Proof.
  unfold normalize. rewrite !truthy_int, !negb_involutive.
  destruct ((m =? 0) || (n =? 0)); reflexivity.
Qed.

Lemma normalize_ints_unit (m n : Z) :
  0 <= m <= n ->
  exists v, normalize (PInt m) (PInt n) = Ok v /\ in_unit v.
Proof.
  intros [Hm Hmn]. rewrite normalize_ints.
  destruct (Z.eqb_spec m 0) as [-> | Hm0]; cbn [orb].
  - exists (PInt 0). split; [reflexivity | left; reflexivity].
  - destruct (Z.eqb_spec n 0) as [-> | Hn0]; [lia |].
    destruct (int_truediv_unit m n ltac:(lia)) as [x [Hx Hb]].
    exists (PFloat x). split; [exact Hx |]. right. exists x.
    split; [reflexivity | exact Hb].
Qed.

Lemma recency_score_of_int (y s e : Z) :
  recency_score_of (PInt y) s e
  = if y =? 0 then Ok (PInt 0)
    else normalize (PInt (y - s)) (PInt (Z.max (e - s) 1)).
Proof.
  unfold recency_score_of. rewrite truthy_int.
  destruct (y =? 0); reflexivity.
Qed.

Lemma citation_score_of_int (c m : Z) :
  citation_score_of (PInt c) (PInt m)
  = if m =? 0 then Ok (PInt 0) else normalize (PInt c) (PInt m).
Proof.
  unfold citation_score_of. rewrite truthy_int.
  destruct (m =? 0); reflexivity.
Qed.

Lemma citation_score_ints_unit (c m : Z) :
  0 <= c <= m ->
  exists v, citation_score_of (PInt c) (PInt m) = Ok v /\ in_unit v.
Proof.
  intros H. rewrite citation_score_of_int.
  destruct (Z.eqb_spec m 0).
  - exists (PInt 0). split; [reflexivity | left; reflexivity].
  - apply normalize_ints_unit. exact H.
Qed.

(** The recency of a work dated after the window is above 1, the recency
    of one dated before it is negative: for the window 2020-2025, a work of
    2030 scores 2.0 and a work of 2019 scores -0.2. *)
Lemma recency_outside_unit_interval :
  recency_score_of (PInt 2030) 2020 2025 = Ok (PFloat (F64.of_Z 2)) /\
  ~ in_unit (PFloat (F64.of_Z 2)) /\
  recency_score_of (PInt 2019) 2020 2025
  = Ok (PFloat (F64.of_ratio (-2) 10)) /\
  ~ in_unit (PFloat (F64.of_ratio (-2) 10)).
Proof.
  split; [vm_compute; reflexivity |].
  split; [| split; [vm_compute; reflexivity |]].
  - intros [H | [x [Hx [_ H1]]]]; [discriminate |].
    injection Hx as <-. vm_compute in H1. discriminate.
  - intros [H | [x [Hx [H0 _]]]]; [discriminate |].
    injection Hx as <-. vm_compute in H0. discriminate.
Qed.

(** C3 (amended). Whatever the item holds, computing the two component
    scores never divides by zero, and either score is 0 when its value or
    its denominator is falsy.  The recency of an integer year other than 0
    is [normalize(year - start_year, d)] with the divisor
    [d = max(end_year - start_year, 1) >= 1]: the width of the window is
    never the divisor when it is zero or negative, and in such a window the
    recency of a year other than [start_year] is [(year - start_year) / 1]
    (2021 in the window 2020-2020 gives 1.0).  For integer counts and
    years the citation score lies in [0, 1] when
    [0 <= citations <= max_citations] and the recency score lies in [0, 1]
    when [start_year <= year <= end_year]; nothing is clamped outside
    these ranges. *)
Theorem component_scores_bounds (citations max_citations year : Z)
    (start_year end_year : Z) :
  (forall c m : pyval, citation_score_of c m <> Raise ZeroDivisionError) /\
  (forall y : pyval,
      recency_score_of y start_year end_year <> Raise ZeroDivisionError) /\
  (forall c m : pyval,
      truthy c = false \/ truthy m = false ->
      citation_score_of c m = Ok (PInt 0)) /\
  (forall y : pyval,
      truthy y = false ->
      recency_score_of y start_year end_year = Ok (PInt 0)) /\
  ((year <> 0 ->
    recency_score_of (PInt year) start_year end_year
    = normalize (PInt (year - start_year))
                (PInt (Z.max (end_year - start_year) 1))) /\
   1 <= Z.max (end_year - start_year) 1 /\
   (end_year <= start_year -> year <> 0 -> year <> start_year ->
    recency_score_of (PInt year) start_year end_year
    = int_truediv (year - start_year) 1) /\
   recency_score_of (PInt 2021) 2020 2020 = Ok (PFloat F64.one)) /\
  (0 <= citations <= max_citations ->
   exists v, citation_score_of (PInt citations) (PInt max_citations) = Ok v /\
             in_unit v) /\
  (start_year <= year <= end_year ->
   exists v, recency_score_of (PInt year) start_year end_year = Ok v /\
             in_unit v).
Proof.
  split; [| split; [| split; [| split; [| split; [| split]]]]].
  - intros c m. unfold citation_score_of. destruct (truthy m).
    + apply normalize_no_zero_division.
    + discriminate.
  - intros y. unfold recency_score_of. destruct (truthy y); [| discriminate].
    destruct (py_sub y (PInt start_year)) as [d | e] eqn:Ed; cbn [bind].
    + apply normalize_no_zero_division.
    + rewrite <- Ed. apply py_sub_no_zero_division.
  - intros c m H. unfold citation_score_of.
    destruct (truthy m) eqn:Hm; [| reflexivity].
    destruct H as [H | H]; [| discriminate H].
    apply normalize_falsy_value. exact H.
  - intros y H. unfold recency_score_of. rewrite H. reflexivity.
  - split; [| split; [lia | split; [| vm_compute; reflexivity]]].
    + intros Hy. rewrite recency_score_of_int.
      apply Z.eqb_neq in Hy. rewrite Hy. reflexivity.
    + intros Hw Hy Hs. rewrite recency_score_of_int, normalize_ints.
      apply Z.eqb_neq in Hy. rewrite Hy.
      replace (Z.max (end_year - start_year) 1) with 1 by lia.
      assert (E : (year - start_year =? 0) = false)
        by (apply Z.eqb_neq; lia).
      rewrite E. reflexivity.
  - apply citation_score_ints_unit.
  - intros H. rewrite recency_score_of_int.
    destruct (Z.eqb_spec year 0).
    + exists (PInt 0). split; [reflexivity | left; reflexivity].
    + apply normalize_ints_unit. lia.
Qed.

Lemma component_scores_bounds_witness :
  (exists v, citation_score_of (PInt 10) (PInt 40) = Ok v /\ in_unit v) /\
  (exists v, recency_score_of (PInt 2021) 2020 2025 = Ok v /\ in_unit v).
Proof.
  pose proof (component_scores_bounds 10 40 2021 2020 2025)
    as [_ [_ [_ [_ [_ [Hc Hr]]]]]].
  split; [apply Hc | apply Hr]; lia.
Defined.

(** The values of the specification: citations 10, 20, 40 in a batch whose
    maximum is 40 score 0.25, 0.5, 1.0, and the year 2021 in the window
    2020-2025 scores 0.2. *)
Example component_scores_values :
  map (fun c => citation_score_of (PInt c) (PInt 40)) [10; 20; 40]
  = [Ok (PFloat (F64.of_ratio 25 100)); Ok (PFloat f0_5);
     Ok (PFloat F64.one)] /\
  recency_score_of (PInt 2021) 2020 2025 = Ok (PFloat f0_2).
Proof. vm_compute. split; reflexivity. Qed.

(** *** The denominator [search_papers] passes *)

Lemma py_max_from_ints (m : Z) (cs : list Z) :
  py_max_from (PInt m) (map PInt cs) = Ok (PInt (fold_left Z.max cs m)).
Proof.
  revert m. induction cs as [| c cs IH]; intros m; [reflexivity |].
  cbn [map py_max_from fold_left].
  unfold py_gt, py_compare. cbn [as_num num_compare bind].
  destruct (Z.compare_spec c m) as [Heq | Hlt | Hgt];
    rewrite IH; do 2 f_equal; f_equal; lia.
Qed.

Lemma fold_left_max_bounds (cs : list Z) (m : Z) :
  m <= fold_left Z.max cs m /\
  Forall (fun c => c <= fold_left Z.max cs m) cs.
Proof.
  revert m. induction cs as [| c cs IH]; intros m; cbn [fold_left].
  - split; [lia | constructor].
  - destruct (IH (Z.max m c)) as [Hm Hcs]. split; [lia |].
    constructor; [lia | exact Hcs].
Qed.

(** In a batch whose citation counts are non-negative integers the
    denominator is a positive integer, at least every count of the batch,
    so every citation score of the batch lies in [0, 1]. *)
Lemma batch_citation_scores_unit (papers : list pyval) (cs : list Z) :
  papers <> [] ->
  Forall2 (fun p c => py_get p "cited_by_count" (PInt 0) = Ok (PInt c))
          papers cs ->
  Forall (fun c => 0 <= c) cs ->
  exists m,
    batch_max_citations papers = Ok (PInt m) /\
    1 <= m /\
    Forall (fun c => exists v,
                citation_score_of (PInt c) (PInt m) = Ok v /\ in_unit v) cs.
Proof.
  intros Hne Hget Hpos. unfold batch_max_citations.
  assert (Hcounts : mapM (fun p => py_get p "cited_by_count" (PInt 0)) papers
                    = Ok (map PInt cs)).
  { apply Forall2_mapM_Ok.
    clear Hne Hpos. induction Hget; cbn [map]; constructor; assumption. }
  rewrite Hcounts. cbn [bind].
  destruct cs as [| c cs].
  { inversion Hget. subst. contradiction. }
  cbn [map py_max]. rewrite py_max_from_ints. cbn [bind].
  destruct (fold_left_max_bounds cs c) as [Hc Hcs].
  apply Forall_cons_iff in Hpos as [Hc0 Hpos].
  set (mx := fold_left Z.max cs c) in *.
  assert (Hall : Forall (fun x => 0 <= x <= mx) (c :: cs)).
  { constructor; [lia |].
    rewrite Forall_forall in Hcs, Hpos |- *. intros x Hx.
    split; [apply Hpos | apply Hcs]; exact Hx. }
  destruct (Z.eqb_spec mx 0) as [H0 | H0].
  - exists 1. unfold py_or. rewrite truthy_int, H0. cbn.
    split; [reflexivity |]. split; [lia |].
    rewrite Forall_forall in Hall |- *. intros x Hx.
    destruct (citation_score_ints_unit x 1) as [v Hv]; [| exists v; exact Hv].
    specialize (Hall x Hx). lia.
  - exists mx. unfold py_or. rewrite truthy_int.
    replace (mx =? 0) with false by (symmetry; apply Z.eqb_neq; exact H0).
    cbn [negb]. split; [reflexivity |]. split; [lia |].
    rewrite Forall_forall in Hall |- *. intros x Hx.
    destruct (citation_score_ints_unit x mx) as [v Hv]; [| exists v; exact Hv].
    apply Hall. exact Hx.
Qed.

(* ===================================================================== *)
(** * Further properties of the utility functions *)
(* ===================================================================== *)

(** ** [get_snippet] *)

Lemma string_length_append (a b : string) :
  String.length (a ++ b) = (String.length a + String.length b)%nat.
Proof.
  induction a as [| c a IH]; simpl; [reflexivity | now rewrite IH].
Qed.

Lemma append_empty_r (a : string) : (a ++ "")%string = a.
Proof.
  induction a as [| c a IH]; simpl; [reflexivity | now rewrite IH].
Qed.

Lemma str_take_prefix (n : nat) (s : string) :
  exists r, s = (str_take n s ++ r)%string.
Proof.
  revert s. induction n as [| n IH]; intros s.
  - exists s. destruct s; reflexivity.
  - destruct s as [| c s]; [exists ""; reflexivity |].
    destruct (IH s) as [r Hr]. exists r. simpl. now rewrite <- Hr.
Qed.

Lemma lstrip_suffix (s : string) :
  exists w, s = (w ++ lstrip s)%string.
Proof.
  induction s as [| c s [w Hw]]; [exists ""; reflexivity |].
  simpl. destruct (is_space c).
  - exists (String c w). simpl. now rewrite <- Hw.
  - exists "". reflexivity.
Qed.

Lemma rstrip_prefix (s : string) :
  exists w, s = (rstrip s ++ w)%string.
Proof.
  induction s as [| c s [w Hw]]; [exists ""; reflexivity |].
  simpl. destruct (rstrip s) as [| c' t] eqn:E.
  - destruct (is_space c).
    + exists (String c s). reflexivity.
    + exists s. reflexivity.
  - exists w. simpl. simpl in Hw. now rewrite <- Hw.
Qed.

Lemma strip_part (s : string) :
  exists a b, s = (a ++ strip s ++ b)%string.
Proof.
  destruct (lstrip_suffix s) as [a Ha].
  destruct (rstrip_prefix (lstrip s)) as [b Hb].
  exists a, b. unfold strip. now rewrite <- Hb.
Qed.

Lemma strip_length (s : string) :
  (String.length (strip s) <= String.length s)%nat.
Proof.
  destruct (strip_part s) as (a & b & H).
  rewrite H at 2. rewrite !string_length_append. lia.
Qed.

Lemma get_snippet_cut (text : string) (max_chars : nat) :
  get_snippet text max_chars = strip (cut_at_period text max_chars).
Proof.
  unfold get_snippet, cut_at_period.
  destruct (String.eqb_spec text "") as [-> | _]; [| reflexivity].
  destruct max_chars; reflexivity.
Qed.

Lemma cut_at_period_prefix (text : string) (max_chars : nat) :
  exists r, text = (cut_at_period text max_chars ++ r)%string.
Proof.
  unfold cut_at_period.
  destruct (str_take_prefix max_chars text) as [r Hr].
  destruct (rfind "." (str_take max_chars text)) as [i |].
  - destruct (str_take_prefix (i + 1) (str_take max_chars text)) as [r' Hr'].
    exists (r' ++ r)%string. rewrite <- append_assoc, <- Hr'. exact Hr.
  - exists r. exact Hr.
Qed.

Lemma cut_at_period_length (text : string) (max_chars : nat) :
  (String.length (cut_at_period text max_chars) <= max_chars)%nat.
Proof.
  unfold cut_at_period.
  pose proof (str_take_length max_chars text) as H.
  destruct (rfind "." (str_take max_chars text)) as [i |]; [| exact H].
  destruct (str_take_prefix (i + 1) (str_take max_chars text)) as [r Hr].
  rewrite Hr, string_length_append in H. lia.
Qed.

Lemma get_snippet_length (text : string) (max_chars : nat) :
  (String.length (get_snippet text max_chars) <= max_chars)%nat.
Proof.
  rewrite get_snippet_cut.
  pose proof (strip_length (cut_at_period text max_chars)).
  pose proof (cut_at_period_length text max_chars). lia.
Qed.

Lemma get_snippet_part (text : string) (max_chars : nat) :
  exists before after,
    text = (before ++ get_snippet text max_chars ++ after)%string.
Proof.
  rewrite get_snippet_cut.
  destruct (cut_at_period_prefix text max_chars) as [r Hr].
  destruct (strip_part (cut_at_period text max_chars)) as (a & b & Hab).
  exists a, (b ++ r)%string.
  rewrite Hr at 1. rewrite Hab at 1. now rewrite !append_assoc.
Qed.

(** X1. [get_snippet] never returns more than [max_chars] characters, and
    what it returns is a contiguous part of the text: nothing is inserted,
    reordered or replaced. *)
Theorem get_snippet_part_of_text (text : string) (max_chars : nat) :
  (String.length (get_snippet text max_chars) <= max_chars)%nat /\
  exists before after,
    text = (before ++ get_snippet text max_chars ++ after)%string.
Proof.
  split; [apply get_snippet_length | apply get_snippet_part].
Qed.

Lemma lstrip_no_leading_space (s : string) :
  starts_with_space (lstrip s) = false.
Proof.
  induction s as [| c s IH]; [reflexivity |].
  simpl. destruct (is_space c) eqn:E; [exact IH | simpl; exact E].
Qed.

Lemma lstrip_fixed (s : string) :
  starts_with_space s = false -> lstrip s = s.
Proof.
  destruct s as [| c s]; [reflexivity |]. simpl. now intros ->.
Qed.

Lemma rstrip_keeps_start (s : string) :
  starts_with_space s = false -> starts_with_space (rstrip s) = false.
Proof.
  destruct s as [| c s]; [reflexivity |]. simpl. intros H.
  destruct (rstrip s); [rewrite H |]; simpl; exact H.
Qed.

Lemma rstrip_idempotent (s : string) : rstrip (rstrip s) = rstrip s.
Proof.
  induction s as [| c s IH]; [reflexivity |].
  simpl. destruct (rstrip s) as [| c' t] eqn:E.
  - destruct (is_space c) eqn:Ec; [reflexivity |]. simpl. now rewrite Ec.
  - change (rstrip (String c (String c' t)))
      with (match rstrip (String c' t) with
            | EmptyString =>
                if is_space c then EmptyString else String c EmptyString
            | u => String c u
            end).
    rewrite IH. reflexivity.
Qed.

(** X2. The snippet carries no leading and no trailing whitespace:
    stripping it again, on either side, changes nothing. *)
Theorem get_snippet_stripped (text : string) (max_chars : nat) :
  lstrip (get_snippet text max_chars) = get_snippet text max_chars /\
  rstrip (get_snippet text max_chars) = get_snippet text max_chars /\
  strip (get_snippet text max_chars) = get_snippet text max_chars.
Proof.
  rewrite get_snippet_cut.
  set (s := cut_at_period text max_chars).
  assert (Hl : lstrip (strip s) = strip s).
  { apply lstrip_fixed. unfold strip. apply rstrip_keeps_start.
    apply lstrip_no_leading_space. }
  assert (Hr : rstrip (strip s) = strip s).
  { unfold strip. apply rstrip_idempotent. }
  split; [exact Hl |]. split; [exact Hr |].
  unfold strip at 1. rewrite Hl. exact Hr.
Qed.

Lemma rfind_None (c : ascii) (s : string) :
  rfind c s = None -> ~ In c (list_ascii_of_string s).
Proof.
  induction s as [| c' s IH]; simpl; [tauto |].
  destruct (rfind c s) as [i |]; [discriminate |].
  destruct (Ascii.eqb_spec c' c) as [-> | Hne]; [discriminate |].
  intros _ [H | H]; [exact (Hne H) | exact (IH eq_refl H)].
Qed.

Lemma rfind_Some (c : ascii) (s : string) (i : nat) :
  rfind c s = Some i ->
  exists a b, s = (a ++ String c b)%string /\ String.length a = i /\
              rfind c b = None.
Proof.
  revert i. induction s as [| c' s IH]; simpl; [discriminate |].
  intros i. destruct (rfind c s) as [j |] eqn:E.
  - intros [= <-]. destruct (IH j eq_refl) as (a & b & -> & Hl & Hb).
    exists (String c' a), b. simpl. now rewrite Hl.
  - destruct (Ascii.eqb_spec c' c) as [-> | Hne]; [| discriminate].
    intros [= <-]. exists "", s. auto.
Qed.

Lemma str_take_append (a b : string) :
  str_take (String.length a) (a ++ b) = a.
Proof.
  induction a as [| c a IH]; simpl; [destruct b; reflexivity |].
  now rewrite IH.
Qed.

Lemma rstrip_snoc (a : string) (c : ascii) :
  is_space c = false ->
  rstrip (a ++ String c "") = (a ++ String c "")%string.
Proof.
  intros Hc. induction a as [| x a IH]; simpl.
  - now rewrite Hc.
  - rewrite IH. destruct a; reflexivity.
Qed.

Lemma lstrip_snoc (a : string) (c : ascii) :
  is_space c = false ->
  exists a', lstrip (a ++ String c "") = (a' ++ String c "")%string.
Proof.
  intros Hc. induction a as [| x a [a' IH]]; simpl.
  - rewrite Hc. exists "". reflexivity.
  - destruct (is_space x).
    + exists a'. exact IH.
    + exists (String x a). reflexivity.
Qed.

(** X3. When the first [max_chars] characters of the text hold a period,
    the snippet ends with a period and stops at the last of them: what is
    left out of those characters holds no period. *)
Theorem get_snippet_ends_with_period (text : string) (max_chars : nat) :
  In "."%char (list_ascii_of_string (str_take max_chars text)) ->
  exists kept dropped,
    str_take max_chars text = (kept ++ "." ++ dropped)%string /\
    ~ In "."%char (list_ascii_of_string dropped) /\
    get_snippet text max_chars = strip (kept ++ ".") /\
    exists body, get_snippet text max_chars = (body ++ ".")%string.
Proof.
  intros Hin. rewrite get_snippet_cut. unfold cut_at_period.
  destruct (rfind "." (str_take max_chars text)) as [i |] eqn:E.
  2:{ exfalso. exact (rfind_None _ _ E Hin). }
  destruct (rfind_Some _ _ _ E) as (a & b & Hs & Hl & Hb).
  exists a, b. split; [exact Hs |]. split; [exact (rfind_None _ _ Hb) |].
  assert (Hcut : str_take (i + 1) (str_take max_chars text)
                 = (a ++ ".")%string).
  { rewrite Hs, <- Hl.
    replace (String.length a + 1)%nat
      with (String.length (a ++ "."))%nat
      by (rewrite string_length_append; reflexivity).
    change (a ++ String "." b)%string with (a ++ ("." ++ b))%string.
    rewrite <- append_assoc. apply str_take_append. }
  rewrite Hcut. split; [reflexivity |].
  unfold strip.
  destruct (lstrip_snoc a "." eq_refl) as [a' Ha']. rewrite Ha'.
  exists a'. apply rstrip_snoc. reflexivity.
Qed.

Lemma get_snippet_ends_with_period_witness :
  exists body, get_snippet "  One. Two. Thr" 12 = (body ++ ".")%string.
Proof.
  destruct (get_snippet_ends_with_period "  One. Two. Thr" 12)
    as (k & d & _ & _ & _ & H).
  - vm_compute. repeat (first [left; reflexivity | right]).
  - exact H.
Defined.

(** ** [safe_journal_info] *)

Lemma truthy_py_or (a b : pyval) :
  truthy b = true -> truthy (py_or a b) = true.
Proof.
  unfold py_or. intros H. destruct (truthy a) eqn:E; assumption.
Qed.

Lemma safe_journal_info_truthy_pair (item journal_name publisher_name : pyval) :
  safe_journal_info item = Ok (journal_name, publisher_name) ->
  truthy journal_name = true /\ truthy publisher_name = true.
Proof.
  unfold safe_journal_info. intros H.
  apply bind_Ok in H as [pl [_ H]]. apply bind_Ok in H as [src [_ H]].
  apply bind_Ok in H as [dn [_ H]]. apply bind_Ok in H as [hn [_ H]].
  injection H as <- <-.
  split; apply truthy_py_or; reflexivity.
Qed.

(** X4. Whenever [safe_journal_info] returns, both the journal name and the
    publisher name are truthy: an absent, null or empty name has been
    replaced by its default. *)
Theorem safe_journal_info_truthy (item journal_name publisher_name : pyval) :
  safe_journal_info item = Ok (journal_name, publisher_name) ->
  truthy journal_name = true /\ truthy publisher_name = true.
Proof.
  apply safe_journal_info_truthy_pair.
Qed.

Lemma safe_journal_info_truthy_witness :
  truthy (PStr "Nature") = true /\ truthy (PStr "Unknown Publisher") = true.
Proof.
  apply (safe_journal_info_truthy
           (PDict [("primary_location",
                    PDict [("source",
                            PDict [("display_name", PStr "Nature");
                                   ("host_organization_name", PStr "")])])])).
  reflexivity.
Defined.

Lemma py_get_Ok_dict (o : pyval) (k : string) (dflt v : pyval) :
  py_get o k dflt = Ok v ->
  exists d, o = PDict d /\ v = dict_get d k dflt.
Proof.
  destruct o; simpl; try discriminate. intros [= <-].
  eexists. split; reflexivity.
Qed.

Lemma py_get_dict (d : list (string * pyval)) (k : string) (dflt : pyval) :
  py_get (PDict d) k dflt = Ok (dict_get d k dflt).
Proof. reflexivity. Qed.

Lemma py_or_dict_inv (v : pyval) (d : list (string * pyval)) :
  py_or v (PDict []) = PDict d ->
  (truthy v = false /\ d = []) \/ v = PDict d.
Proof.
  unfold py_or. destruct (truthy v) eqn:E.
  - intros ->. right. reflexivity.
  - intros [= <-]. left. split; reflexivity.
Qed.

Lemma py_or_falsy_or_dict (v : pyval) :
  falsy_or_dict v -> exists d, py_or v (PDict []) = PDict d.
Proof.
  unfold py_or. intros [H | [d ->]].
  - rewrite H. exists []. reflexivity.
  - destruct (truthy (PDict d)); eexists; reflexivity.
Qed.

(** X5. [safe_journal_info] returns exactly on the items that are objects
    whose [primary_location] is absent, falsy or an object, and whose
    [source] below it is absent, falsy or an object; on every other item
    (a truthy string, number or list in one of the two places) it raises. *)
Theorem safe_journal_info_returns_iff (item : pyval) :
  (exists jp, safe_journal_info item = Ok jp) <-> journal_path_ok item.
Proof.
  unfold safe_journal_info, journal_path_ok. split.
  - intros [jp H].
    apply bind_Ok in H as [pl [Epl H]].
    apply bind_Ok in H as [src [Esrc H]].
    apply py_get_Ok_dict in Epl as [d [-> ->]].
    apply py_get_Ok_dict in Esrc as [l [Hl ->]].
    exists d. split; [reflexivity |].
    apply bind_Ok in H as [dn [Edn H]].
    apply py_get_Ok_dict in Edn as [s [Hs _]]. clear H.
    apply py_or_dict_inv in Hl. apply py_or_dict_inv in Hs.
    split.
    + destruct Hl as [[Hf _] | Hd]; [left; exact Hf | right; eauto].
    + intros l' Hl'.
      assert (l' = l) as ->.
      { destruct Hl as [[Hf ->] | Hd]; [| congruence].
        rewrite Hl' in Hf. destruct l'; [reflexivity | discriminate]. }
      destruct Hs as [[Hf _] | Hd]; [left; exact Hf | right; eauto].
  - intros (d & -> & Hpl & Hsrc).
    rewrite py_get_dict. cbn [bind].
    destruct (py_or_falsy_or_dict _ Hpl) as [l Hl]. rewrite Hl.
    rewrite py_get_dict. cbn [bind].
    assert (Hs : falsy_or_dict (dict_get l "source" PNone)).
    { apply py_or_dict_inv in Hl as [[_ ->] | Hd].
      - left. reflexivity.
      - apply Hsrc. exact Hd. }
    destruct (py_or_falsy_or_dict _ Hs) as [s ->].
    rewrite !py_get_dict. cbn [bind]. eexists. reflexivity.
Qed.

(** ** Authors and citations *)

Lemma mapM_app {A B : Type} (f : A -> res B) (l r : list A) :
  mapM f (l ++ r) = (x <- mapM f l ;; y <- mapM f r ;; Ok (x ++ y)).
Proof.
  induction l as [| a l IH]; simpl.
  - destruct (mapM f r); reflexivity.
  - destruct (f a) as [b | e]; simpl; [| reflexivity].
    rewrite IH. destruct (mapM f l) as [x | e]; simpl; [| reflexivity].
    destruct (mapM f r); reflexivity.
Qed.

Lemma prefix_refl (s : string) : String.prefix s s = true.
Proof.
  induction s as [| c s IH]; [reflexivity |].
  simpl. destruct (ascii_dec c c); [exact IH | contradiction].
Qed.

Lemma contains_suffix (sub a : string) : contains sub (a ++ sub) = true.
Proof.
  induction a as [| c a IH].
  - destruct sub as [| c s]; [reflexivity |].
    unfold append. cbn [contains]. rewrite prefix_refl. reflexivity.
  - change ((String c a ++ sub)%string) with (String c (a ++ sub)%string).
    cbn [contains]. rewrite IH. apply orb_true_r.
Qed.

(** The [+N more] entry is never cited, whatever the number. *)
Lemma cited_name_more_entry (n : Z) : cited_name (more_entry n) = Ok [].
Proof.
  unfold cited_name, more_entry. cbn [py_get lookup String.eqb Ascii.eqb
    Bool.eqb bind].
  change (("+" ++ str_of_Z n ++ " more")%string)
    with (("+" ++ (str_of_Z n ++ (" " ++ "more")))%string).
  rewrite <- !append_assoc.
  set (s := (("+" ++ str_of_Z n) ++ " ")%string).
  assert (Hc : contains "more" (s ++ "more") = true)
    by apply contains_suffix.
  destruct (truthy (PStr (s ++ "more"))); [| reflexivity].
  cbn [py_contains bind]. rewrite Hc. reflexivity.
Qed.

(** X6. Citing what [extract_authors] returns cites the listed authors
    only: the [+N more] entry that stands for the authors beyond
    [max_authors] never reaches a BibTeX or APA citation. *)
Theorem placeholder_never_cited (item : pyval) (max_authors : nat)
    (authors l : list pyval) (rest : list (string * pyval)) :
  extract_authors item max_authors = Ok authors ->
  py_get item "authorships" PNone = Ok (PList l) ->
  exists entries,
    mapM author_entry (firstn max_authors l) = Ok entries /\
    citation_author_names (with_authors authors rest)
    = citation_author_names (with_authors (List.concat entries) rest).
Proof.
  intros H Hget.
  destruct (Nat.ltb_spec max_authors (List.length l)) as [Hlt | Hge].
  - destruct (extract_authors_overflow _ _ _ _ H Hget Hlt)
      as [entries [He ->]].
    exists entries. split; [exact He |].
    unfold citation_author_names, with_authors.
    cbn [py_get lookup String.eqb Ascii.eqb Bool.eqb bind py_iter].
    rewrite mapM_app. cbn [mapM]. rewrite cited_name_more_entry.
    cbn [bind].
    destruct (mapM cited_name (List.concat entries)) as [ns | e];
      cbn [bind]; [| reflexivity].
    rewrite concat_app. cbn [List.concat]. rewrite !app_nil_r.
    reflexivity.
  - unfold extract_authors in H. rewrite Hget in H. cbn [bind] in H.
    assert (Hor : exists l', py_or (PList l) (PList []) = PList l' /\
                             List.length l' = List.length l /\
                             firstn max_authors l' = firstn max_authors l).
    { destruct l; [exists []; repeat split | eexists; repeat split]. }
    destruct Hor as (l' & Hor & Hlen & Hfst). rewrite Hor in H.
    cbn [py_take py_iter py_len bind] in H.
    apply bind_Ok in H as [entries [He H]].
    assert (Hgt : (Z.of_nat (List.length l') >? Z.of_nat max_authors)
                  = false).
    { rewrite Z.gtb_ltb. apply Z.ltb_ge. lia. }
    rewrite Hgt in H. injection H as <-.
    exists entries. rewrite <- Hfst. split; [exact He | reflexivity].
Qed.

Lemma placeholder_never_cited_witness :
  exists entries,
    mapM author_entry
         (firstn 5 (map authorship ["A"; "B"; "C"; "D"; "E"; "F"; "G"]))
    = Ok entries /\
    citation_author_names
      (with_authors
         (map (fun n => PDict [("name", PStr n);
                               ("id", PStr ("https://openalex.org/" ++ n));
                               ("orcid", PStr "")])
              ["A"; "B"; "C"; "D"; "E"] ++ [more_entry 2]) [])
    = citation_author_names (with_authors (List.concat entries) []).
Proof.
  apply (placeholder_never_cited seven_authors_item 5); reflexivity.
Defined.

(** ** [build_paper_result] and the export rows *)

(** What a returned record holds, field by field. *)
Lemma build_paper_result_fields
    (item : pyval) (start_year end_year : Z) (max_citations paper : pyval) :
  build_paper_result item start_year end_year max_citations = Ok paper ->
  exists d inv abstract_raw jp authors concepts,
    paper = PDict d /\
    py_get item "abstract_inverted_index" PNone = Ok inv /\
    reconstruct_abstract inv = Ok abstract_raw /\
    safe_journal_info item = Ok jp /\
    extract_authors item 5 = Ok authors /\
    extract_concepts item 5 = Ok concepts /\
    lookup "abstract" d = Some (PStr abstract_raw) /\
    lookup "summary" d
    = Some (py_or (PStr (get_snippet abstract_raw 500))
                  (PStr "No abstract available.")) /\
    lookup "journal" d = Some (fst jp) /\
    lookup "publisher" d = Some (snd jp) /\
    lookup "authors" d = Some (PList authors) /\
    lookup "concepts" d = Some (PList concepts).
Proof.
  unfold build_paper_result. intros H.
  apply bind_Ok in H as [r0 [_ H]].
  apply bind_Ok in H as [citations [_ H]].
  apply bind_Ok in H as [year [_ H]].
  apply bind_Ok in H as [citation_score [_ H]].
  apply bind_Ok in H as [recency_score [_ H]].
  apply bind_Ok in H as [final_score [_ H]].
  apply bind_Ok in H as [inv [Einv H]].
  apply bind_Ok in H as [abstract_raw [Eabs H]].
  apply bind_Ok in H as [jp [Ejp H]].
  apply bind_Ok in H as [authors [Eau H]].
  apply bind_Ok in H as [concepts [Eco H]].
  bind_inv. subst paper.
  eexists. exists inv, abstract_raw, jp, authors, concepts.
  split; [reflexivity |].
  split; [exact Einv |]. split; [exact Eabs |]. split; [exact Ejp |].
  split; [exact Eau |]. split; [exact Eco |].
  split; [reflexivity |]. split; [reflexivity |]. split; [reflexivity |].
  split; [reflexivity |]. split; reflexivity.
Qed.

Lemma concept_entry_length (c : pyval) (es : list pyval) :
  concept_entry c = Ok es -> (List.length es <= 1)%nat.
Proof.
  unfold concept_entry. intros H.
  apply bind_Ok in H as [sc [_ H]]. apply bind_Ok in H as [keep [_ H]].
  destruct keep.
  - bind_inv. subst es. simpl. lia.
  - injection H as <-. simpl. lia.
Qed.

Lemma extract_concepts_length (item : pyval) (max_concepts : nat)
    (concepts : list pyval) :
  extract_concepts item max_concepts = Ok concepts ->
  (List.length concepts <= max_concepts)%nat.
Proof.
  unfold extract_concepts. intros H.
  apply bind_Ok in H as [c0 [_ H]].
  apply bind_Ok in H as [head [Ehead H]].
  apply bind_Ok in H as [els [Eels H]].
  apply bind_Ok in H as [entries [Eent H]].
  injection H as <-.
  pose proof (py_take_iter_length _ _ _ _ Ehead Eels) as Hels.
  apply mapM_Ok_Forall2 in Eent.
  pose proof (concat_length_le _ _ _ concept_entry_length Eent). lia.
Qed.

(** X7. Every record [build_paper_result] returns has a non-empty summary
    of at most 500 characters, which is the placeholder or a part of the
    abstract, a truthy journal and publisher, at most six author entries
    and at most five concepts. *)
Theorem build_paper_result_record
    (item : pyval) (start_year end_year : Z) (max_citations paper : pyval) :
  build_paper_result item start_year end_year max_citations = Ok paper ->
  exists d abstract summary journal publisher authors concepts,
    paper = PDict d /\
    lookup "abstract" d = Some (PStr abstract) /\
    lookup "summary" d = Some (PStr summary) /\
    summary <> "" /\ (String.length summary <= 500)%nat /\
    (summary = "No abstract available." \/
     exists before after, abstract = (before ++ summary ++ after)%string) /\
    lookup "journal" d = Some journal /\ truthy journal = true /\
    lookup "publisher" d = Some publisher /\ truthy publisher = true /\
    lookup "authors" d = Some (PList authors) /\
    (List.length authors <= 6)%nat /\
    lookup "concepts" d = Some (PList concepts) /\
    (List.length concepts <= 5)%nat.
Proof.
  intros H.
  destruct (build_paper_result_fields _ _ _ _ _ H)
    as (d & inv & abstract & [j p] & authors & concepts & -> & _ & _ & Hjp
        & Hau & Hco & Labs & Lsum & Lj & Lp & Lau & Lco).
  pose proof (get_snippet_length abstract 500) as Hlen.
  pose proof (get_snippet_part abstract 500) as Hpart.
  apply extract_authors_length in Hau.
  apply extract_concepts_length in Hco.
  assert (Hsum : exists s,
             py_or (PStr (get_snippet abstract 500))
                   (PStr "No abstract available.") = PStr s /\
             s <> "" /\ (String.length s <= 500)%nat /\
             (s = "No abstract available." \/ s = get_snippet abstract 500)).
  { unfold py_or. cbn [truthy].
    destruct (String.eqb_spec (get_snippet abstract 500) "") as [E | E];
      cbn [negb].
    - eexists. split; [reflexivity |]. split; [discriminate |].
      split; [simpl; lia | left; reflexivity].
    - eexists. split; [reflexivity |]. split; [exact E |].
      split; [exact Hlen | right; reflexivity]. }
  destruct Hsum as (s & Hs & Hne & Hl & Hor). rewrite Hs in Lsum.
  exists d, abstract, s, j, p, authors, concepts.
  split; [reflexivity |]. split; [exact Labs |]. split; [exact Lsum |].
  split; [exact Hne |]. split; [exact Hl |].
  split; [destruct Hor as [-> | ->]; [left; reflexivity | right; exact Hpart] |].
  destruct (safe_journal_info_truthy_pair _ _ _ Hjp) as [Tj Tp].
  split; [exact Lj |]. split; [exact Tj |].
  split; [exact Lp |]. split; [exact Tp |].
  split; [exact Lau |]. split; [simpl in Hau; lia |].
  split; [exact Lco | exact Hco].
Qed.

Lemma build_paper_result_record_witness :
  exists d abstract summary journal publisher authors concepts,
    PDict [("id", PStr ""); ("title", PStr ""); ("year", PInt 0);
           ("authors", PList []); ("journal", PStr "Unknown Journal");
           ("publisher", PStr "Unknown Publisher"); ("citations", PInt 0);
           ("open_access", PBool false); ("oa_url", PStr "");
           ("doi", PStr ""); ("abstract", PStr "");
           ("summary", PStr "No abstract available.");
           ("concepts", PList []); ("type", PStr "");
           ("score", PFloat F64.zero);
           ("scopus_search_url", PNone)] = PDict d /\
    lookup "abstract" d = Some (PStr abstract) /\
    lookup "summary" d = Some (PStr summary) /\
    summary <> "" /\ (String.length summary <= 500)%nat /\
    (summary = "No abstract available." \/
     exists before after, abstract = (before ++ summary ++ after)%string) /\
    lookup "journal" d = Some journal /\ truthy journal = true /\
    lookup "publisher" d = Some publisher /\ truthy publisher = true /\
    lookup "authors" d = Some (PList authors) /\
    (List.length authors <= 6)%nat /\
    lookup "concepts" d = Some (PList concepts) /\
    (List.length concepts <= 5)%nat.
Proof.
  apply (build_paper_result_record (PDict []) 2020 2025 (PInt 1)).
  vm_compute. reflexivity.
Defined.

(** X8. An item whose [open_access] entry is present and is not an object
    (null, a string, a number, a list) makes both [build_paper_result] and
    the export row raise: the default of [item.get("open_access", {})] only
    covers an absent key. *)
Theorem open_access_must_be_object
    (d : list (string * pyval)) (v : pyval)
    (start_year end_year : Z) (max_citations : pyval) :
  lookup "open_access" d = Some v ->
  (forall o, v <> PDict o) ->
  (forall paper,
      build_paper_result (PDict d) start_year end_year max_citations
      <> Ok paper) /\
  (forall row, export_row (PDict d) <> Ok row).
Proof.
  intros Hl Hv.
  assert (Hno : forall oa x,
             py_get (PDict d) "open_access" (PDict []) = Ok oa ->
             py_get oa "is_oa" (PBool false) = Ok x -> False).
  { intros oa x Hoa Hx. cbn [py_get] in Hoa. rewrite Hl in Hoa.
    injection Hoa as <-.
    apply py_get_Ok_dict in Hx as [o [-> _]]. exact (Hv o eq_refl). }
  split.
  - intros paper H. unfold build_paper_result in H. bind_inv.
    repeat match goal with
           | Hoa : py_get (PDict d) "open_access" _ = Ok ?oa,
             Hx : py_get ?oa "is_oa" _ = Ok _ |- _ =>
               exact (Hno _ _ Hoa Hx)
           end.
  - intros row H. unfold export_row in H. bind_inv.
    repeat match goal with
           | Hoa : py_get (PDict d) "open_access" _ = Ok ?oa,
             Hx : py_get ?oa "is_oa" _ = Ok _ |- _ =>
               exact (Hno _ _ Hoa Hx)
           end.
Qed.

Lemma open_access_must_be_object_witness :
  (forall paper,
      build_paper_result (PDict [("title", PStr "T"); ("open_access", PStr "gold")])
                         2020 2025 (PInt 1) <> Ok paper) /\
  (forall row,
      export_row (PDict [("title", PStr "T"); ("open_access", PStr "gold")])
      <> Ok row).
Proof.
  apply (open_access_must_be_object _ (PStr "gold")).
  - reflexivity.
  - discriminate.
Defined.


(** ** The export row and the citations *)

Lemma author_entry_named (a : pyval) (es : list pyval) :
  author_entry a = Ok es -> Forall named_entry es.
Proof.
  unfold author_entry. intros H.
  apply bind_Ok in H as [au [_ H]]. apply bind_Ok in H as [name [_ H]].
  destruct (truthy name) eqn:T.
  - apply bind_Ok in H as [id [_ H]]. apply bind_Ok in H as [orcid [_ H]].
    injection H as <-. constructor; [| constructor].
    eexists. exists name. split; [reflexivity |]. split; [reflexivity | exact T].
  - injection H as <-. constructor.
Qed.

Lemma more_entry_named (n : Z) : named_entry (more_entry n).
Proof.
  eexists. eexists. split; [reflexivity |]. split; reflexivity.
Qed.

Lemma mapM_author_entry_named (l : list pyval) (entries : list (list pyval)) :
  mapM author_entry l = Ok entries -> Forall named_entry (List.concat entries).
Proof.
  intros H. apply mapM_Ok_Forall2 in H.
  induction H as [| a es l entries Hae _ IH]; simpl; [constructor |].
  apply Forall_app. split; [exact (author_entry_named _ _ Hae) | exact IH].
Qed.

Lemma extract_authors_named (item : pyval) (max_authors : nat)
    (authors : list pyval) :
  extract_authors item max_authors = Ok authors ->
  Forall named_entry authors.
Proof.
  unfold extract_authors. intros H.
  apply bind_Ok in H as [a0 [_ H]].
  apply bind_Ok in H as [head [_ H]].
  apply bind_Ok in H as [els [_ H]].
  apply bind_Ok in H as [entries [Eent H]].
  apply bind_Ok in H as [n [_ H]].
  apply mapM_author_entry_named in Eent.
  destruct (n >? Z.of_nat max_authors); injection H as <-.
  - apply Forall_app. split; [exact Eent |].
    constructor; [apply more_entry_named | constructor].
  - exact Eent.
Qed.

Lemma export_author_named (a : pyval) :
  named_entry a -> export_author a = cited_name a.
Proof.
  intros (d & name & -> & Hl & Ht).
  unfold export_author, cited_name. cbn [py_get py_item]. rewrite Hl.
  cbn [bind]. rewrite Ht.
  destruct (py_contains "more" name) as [[|] | e]; reflexivity.
Qed.

Lemma mapM_ext_Forall {A B : Type} (P : A -> Prop) (f g : A -> res B)
    (l : list A) :
  (forall a, P a -> f a = g a) -> Forall P l -> mapM f l = mapM g l.
Proof.
  intros Hfg. induction 1 as [| a l Ha _ IH]; simpl; [reflexivity |].
  rewrite (Hfg a Ha), IH. reflexivity.
Qed.

(** X9. The names the export writes in the Authors cell of a row are the
    names a citation of the same authors shows: the export drops the
    [+N more] entry and every name containing ["more"], and fails on the
    same names, as [format_bibtex] and [format_apa] do. *)
Theorem export_authors_are_cited_names (item : pyval) (max_authors : nat)
    (authors : list pyval) (rest : list (string * pyval)) :
  extract_authors item max_authors = Ok authors ->
  (names <- mapM export_author authors ;; Ok (List.concat names))
  = citation_author_names (with_authors authors rest).
Proof.
  intros H. apply extract_authors_named in H.
  unfold citation_author_names, with_authors.
  cbn [py_get lookup String.eqb Ascii.eqb Bool.eqb bind py_iter].
  rewrite (mapM_ext_Forall named_entry export_author cited_name authors
             export_author_named H).
  reflexivity.
Qed.

Lemma export_authors_are_cited_names_witness :
  (names <- mapM export_author
                 (map (fun n => PDict [("name", PStr n);
                                       ("id", PStr ("https://openalex.org/" ++ n));
                                       ("orcid", PStr "")])
                      ["A"; "B"; "C"; "D"; "E"] ++ [more_entry 2]) ;;
   Ok (List.concat names))
  = Ok (map PStr ["A"; "B"; "C"; "D"; "E"]).
Proof.
  rewrite (export_authors_are_cited_names seven_authors_item 5 _ []);
    reflexivity.
Defined.

(** *** The BibTeX key *)

Lemma concat_last (sep : string) (l : list string) :
  l <> [] ->
  String.concat sep l = last l "" \/
  exists front, String.concat sep l = (front ++ sep ++ last l "")%string.
Proof.
  induction l as [| w l IH]; [congruence |]. intros _.
  destruct l as [| w' l]; [left; reflexivity |]. right.
  change (String.concat sep (w :: w' :: l))
    with (w ++ sep ++ String.concat sep (w' :: l))%string.
  change (last (w :: w' :: l) "") with (last (w' :: l) "").
  destruct IH as [E | [front E]]; [discriminate | |].
  - exists w. now rewrite E.
  - exists (w ++ sep ++ front)%string. rewrite E.
    now rewrite !append_assoc.
Qed.

Lemma last_split_on (s : string) :
  after_last_slash s (last (split_on "/" s) "").
Proof.
  split.
  - pose proof (split_on_pieces "/" s) as H.
    pose proof (split_on_nonempty "/" s) as Hn.
    rewrite Forall_forall in H. apply H.
    destruct (split_on "/" s) as [| w ws]; [congruence |].
    apply (@exists_last _ (w :: ws)) in Hn as (l' & a & E).
    rewrite E, last_last. apply in_or_app. right. left. reflexivity.
  - pose proof (concat_last "/" _ (split_on_nonempty "/" s)) as H.
    rewrite (concat_split_on "/" s) in H. exact H.
Qed.

Lemma replace_char_length (a b : ascii) (s : string) :
  String.length (replace_char a b s) = String.length s.
Proof.
  induction s as [| c s IH]; simpl; [reflexivity | now rewrite IH].
Qed.

Lemma replace_char_gone (a b : ascii) (s : string) :
  a <> b -> ~ has_char a (replace_char a b s).
Proof.
  unfold has_char. intros Hab. induction s as [| c s IH]; simpl; [tauto |].
  intros [H | H]; [| exact (IH H)].
  destruct (Ascii.eqb_spec c a) as [E | E]; congruence.
Qed.

Lemma title_key_clean (title : string) :
  (String.length (title_key title) <= 20)%nat /\
  ~ has_char " " (title_key title).
Proof.
  unfold title_key. split.
  - rewrite replace_char_length. apply str_take_length.
  - apply replace_char_gone. discriminate.
Qed.

(** X10. Whenever [format_bibtex] returns, the entry opens with
    [@article{key,]: for a record with a DOI, which must then be a string,
    the key is what follows the last slash of the DOI and holds no slash;
    for a record without one the title must be a string (or absent, which
    stands for ["unknown"]) and the key is its first twenty characters with
    underscores for spaces. *)
Theorem format_bibtex_key (d : list (string * pyval)) (out : string) :
  format_bibtex (PDict d) = Ok out ->
  exists key rest,
    out = ("@article{" ++ key ++ "," ++ nl ++ rest)%string /\
    ((truthy (dict_get d "doi" (PStr "")) = true /\
      exists doi, dict_get d "doi" (PStr "") = PStr doi /\
                  after_last_slash doi key) \/
     (truthy (dict_get d "doi" (PStr "")) = false /\
      exists title, dict_get d "title" (PStr "unknown") = PStr title /\
                    key = title_key title /\
                    (String.length key <= 20)%nat /\ ~ has_char " " key)).
Proof.
  unfold format_bibtex. intros H.
  apply bind_Ok in H as [names [_ H]].
  apply bind_Ok in H as [author_str [_ H]].
  rewrite py_get_dict in H. cbn [bind] in H.
  apply bind_Ok in H as [key [Ekey H]].
  bind_inv. subst out.
  exists key. eexists. split; [reflexivity |].
  unfold py_or in Ekey.
  destruct (truthy (dict_get d "doi" (PStr ""))) eqn:T.
  - left. split; [reflexivity |]. rewrite T in Ekey.
    apply bind_Ok in Ekey as [parts [Ep Ek]]. injection Ek as <-.
    destruct (dict_get d "doi" (PStr "")); try discriminate Ep.
    injection Ep as <-. eexists. split; [reflexivity |].
    apply last_split_on.
  - right. split; [reflexivity |].
    cbn [truthy String.eqb negb] in Ekey.
    rewrite py_get_dict in Ekey. cbn [bind] in Ekey.
    apply bind_Ok in Ekey as [t20 [Et Ek]].
    destruct (dict_get d "title" (PStr "unknown")) as [| | | | t | l |];
      try discriminate Et; injection Et as <-; try discriminate Ek.
    injection Ek as <-. exists t. split; [reflexivity |].
    split; [reflexivity |]. apply title_key_clean.
Qed.

Lemma format_bibtex_key_witness :
  exists key rest,
    ("@article{xyz123," ++ nl ++
     "  title = {T}," ++ nl ++
     "  author = {}," ++ nl ++
     "  journal = {}," ++ nl ++
     "  year = {}," ++ nl ++
     "  doi = {https://doi.org/10.1000/xyz123}," ++ nl ++
     "  publisher = {}" ++ nl ++
     "}" ++ nl)%string
    = ("@article{" ++ key ++ "," ++ nl ++ rest)%string /\
    after_last_slash "https://doi.org/10.1000/xyz123" key.
Proof.
  destruct (format_bibtex_key
              [("title", PStr "T");
               ("doi", PStr "https://doi.org/10.1000/xyz123")]
              _ eq_refl)
    as (key & rest & Hout & [[_ (doi & Hd & Hk)] | [Hf _]]).
  - exists key, rest. split; [exact Hout |].
    injection Hd as <-. exact Hk.
  - discriminate Hf.
Defined.

(** *** [quote] and the Scopus link *)

Lemma quote_char_url (c : ascii) :
  forallb url_char (list_ascii_of_string (quote_char c)) = true.
Proof.
  destruct c as [[] [] [] [] [] [] [] []]; vm_compute; reflexivity.
Qed.

Lemma list_ascii_of_string_append (a b : string) :
  list_ascii_of_string (a ++ b)
  = list_ascii_of_string a ++ list_ascii_of_string b.
Proof.
  induction a as [| c a IH]; simpl; [reflexivity | now rewrite IH].
Qed.

Lemma quote_url (s : string) :
  forallb url_char (list_ascii_of_string (quote s)) = true.
Proof.
  induction s as [| c s IH]; [reflexivity |].
  cbn [quote]. rewrite list_ascii_of_string_append, forallb_app.
  rewrite quote_char_url, IH. reflexivity.
Qed.



(** *** The citation endpoints *)

Lemma str_field_get (k : string) (d : list (string * pyval)) (dflt : string) :
  str_field k d -> exists s, dict_get d k (PStr dflt) = PStr s.
Proof.
  unfold str_field, dict_get. intros H.
  destruct (lookup k d) as [v |]; [apply H; reflexivity | eauto].
Qed.

Lemma cite_ready_names (d : list (string * pyval)) :
  cite_ready d ->
  exists names, citation_author_names (PDict d) = Ok (map PStr names).
Proof.
  intros [(authors & names & Hget & Hn) _].
  unfold citation_author_names. rewrite py_get_dict, Hget.
  cbn [bind py_iter].
  destruct (mapM_cited_name _ _ Hn) as [ns [Hns Hc]].
  rewrite Hns. cbn [bind]. rewrite Hc. eauto.
Qed.

Lemma format_bibtex_returns (d : list (string * pyval)) :
  cite_ready d -> exists out, format_bibtex (PDict d) = Ok out.
Proof.
  intros Hr. destruct (cite_ready_names d Hr) as [names Hnames].
  destruct Hr as (_ & Ht & Hj & Hp & Hd & Hy).
  unfold format_bibtex. rewrite Hnames. cbn [bind].
  rewrite py_join_strings. cbn [bind]. rewrite !py_get_dict. cbn [bind].
  destruct (str_field_get "doi" d "" Hd) as [doi ->].
  destruct (str_field_get "title" d "unknown" Ht) as [t1 ->].
  destruct (str_field_get "title" d "" Ht) as [t2 ->].
  destruct (str_field_get "journal" d "" Hj) as [j ->].
  destruct (str_field_get "publisher" d "" Hp) as [p ->].
  assert (Hyear : exists y, py_str (dict_get d "year" (PStr "")) = Ok y).
  { unfold dict_get. destruct (lookup "year" d) as [v |] eqn:E.
    - apply (Hy v). reflexivity.
    - eexists. reflexivity. }
  destruct Hyear as [y Hyear].
  assert (Hdoi : exists s, py_or (PStr doi) (PStr "") = PStr s).
  { unfold py_or. destruct (truthy (PStr doi)); eauto. }
  destruct Hdoi as [s ->].
  destruct (truthy (PStr s)); cbn [py_split py_take py_replace bind py_str];
    rewrite Hyear; cbn [bind]; eexists; reflexivity.
Qed.

Lemma format_apa_returns (d : list (string * pyval)) :
  cite_ready d -> exists out, format_apa (PDict d) = Ok out.
Proof.
  intros Hr. destruct (cite_ready_names d Hr) as [names Hnames].
  destruct Hr as (_ & Ht & Hj & Hp & Hd & Hy).
  unfold format_apa. rewrite Hnames. cbn [bind].
  rewrite apa_author_str_strings. cbn [bind].
  rewrite !py_get_dict. cbn [bind].
  destruct (str_field_get "doi" d "" Hd) as [doi ->].
  destruct (str_field_get "title" d "" Ht) as [t2 ->].
  destruct (str_field_get "journal" d "" Hj) as [j ->].
  assert (Hyear : exists y, py_str (dict_get d "year" (PStr "n.d.")) = Ok y).
  { unfold dict_get. destruct (lookup "year" d) as [v |] eqn:E.
    - apply (Hy v). reflexivity.
    - eexists. reflexivity. }
  destruct Hyear as [y Hyear]. rewrite Hyear. cbn [bind py_str].
  destruct (truthy (PStr doi)); cbn [bind]; eexists; reflexivity.
Qed.

(** X11. For a non-empty record with well-typed fields the citation
    endpoint never fails: it returns the BibTeX entry when the format is
    absent or ["bibtex"], the APA citation when it is ["apa"], and answers
    400 with the offending name for every other format. *)
Theorem generate_citation_cite_ready
    (body d : list (string * pyval)) :
  lookup "paper" body = Some (PDict d) -> d <> [] -> cite_ready d ->
  ((lookup "format" body = None \/
    lookup "format" body = Some (PStr "bibtex")) ->
   exists out, format_bibtex (PDict d) = Ok out /\
               generate_citation body
               = Returned (PDict [("citation", PStr out)])) /\
  (lookup "format" body = Some (PStr "apa") ->
   exists out, format_apa (PDict d) = Ok out /\
               generate_citation body
               = Returned (PDict [("citation", PStr out)])) /\
  (forall f, lookup "format" body = Some (PStr f) ->
             f <> "bibtex" -> f <> "apa" ->
             generate_citation body
             = HTTPException 400 ("Unsupported format: " ++ f)%string).
Proof.
  intros Hp Hne Hr.
  assert (Hpaper : dict_get body "paper" (PDict []) = PDict d).
  { unfold dict_get. now rewrite Hp. }
  assert (Ht : truthy (PDict d) = true)
    by (destruct d; [exfalso; apply Hne; reflexivity | reflexivity]).
  unfold generate_citation. rewrite Hpaper, Ht. cbn [negb].
  split; [| split].
  - intros Hf.
    assert (E : dict_get body "format" (PStr "bibtex") = PStr "bibtex").
    { unfold dict_get. destruct Hf as [-> | ->]; reflexivity. }
    rewrite E. cbn [py_eq_str].
    destruct (format_bibtex_returns d Hr) as [out Ho].
    exists out. split; [exact Ho |]. rewrite Ho. reflexivity.
  - intros Hf.
    assert (E : dict_get body "format" (PStr "bibtex") = PStr "apa").
    { unfold dict_get. now rewrite Hf. }
    rewrite E. cbn [py_eq_str].
    destruct (format_apa_returns d Hr) as [out Ho].
    exists out. split; [exact Ho |]. rewrite Ho. reflexivity.
  - intros f Hf Hb Ha.
    assert (E : dict_get body "format" (PStr "bibtex") = PStr f).
    { unfold dict_get. now rewrite Hf. }
    rewrite E. cbn [py_eq_str].
    apply String.eqb_neq in Hb, Ha. rewrite Hb, Ha. reflexivity.
Qed.

Lemma generate_citation_cite_ready_witness :
  exists out,
    format_apa (PDict [("title", PStr "T"); ("year", PInt 2020)]) = Ok out /\
    generate_citation
      [("paper", PDict [("title", PStr "T"); ("year", PInt 2020)]);
       ("format", PStr "apa")]
    = Returned (PDict [("citation", PStr out)]).
Proof.
  apply (generate_citation_cite_ready
           [("paper", PDict [("title", PStr "T"); ("year", PInt 2020)]);
            ("format", PStr "apa")]
           [("title", PStr "T"); ("year", PInt 2020)]).
  - reflexivity.
  - discriminate.
  - split; [exists [], []; split; [reflexivity | constructor] |].
    split; [intros v [= <-]; eauto |].
    split; [intros v; discriminate |].
    split; [intros v; discriminate |].
    split; [intros v; discriminate |].
    intros v [= <-]. eexists. reflexivity.
  - reflexivity.
Defined.

Lemma mapM_batch_entry_unsupported (f : string) (els : list pyval) :
  f <> "bibtex" -> f <> "apa" ->
  exists cs, mapM (batch_entry (PStr f)) els = Ok cs /\ List.concat cs = [].
Proof.
  intros Hb Ha. apply String.eqb_neq in Hb, Ha.
  induction els as [| p els [cs [Hcs Hc]]]; simpl.
  - exists []. split; reflexivity.
  - unfold batch_entry at 1. cbn [py_eq_str]. rewrite Hb, Ha. cbn [bind].
    rewrite Hcs. cbn [bind]. eexists. split; [reflexivity | exact Hc].
Qed.

(** X13. An unsupported format name is an error for one citation and goes
    unnoticed for a batch: [generate_citation] answers 400 with the name,
    while [batch_citations] returns an empty text for any non-empty
    collection of papers, without looking at them. *)
Theorem unsupported_format_single_and_batch
    (body : list (string * pyval)) (f : string) :
  lookup "format" body = Some (PStr f) -> f <> "bibtex" -> f <> "apa" ->
  (truthy (dict_get body "paper" (PDict [])) = true ->
   generate_citation body
   = HTTPException 400 ("Unsupported format: " ++ f)%string) /\
  (forall els,
     truthy (dict_get body "papers" (PList [])) = true ->
     py_iter (dict_get body "papers" (PList [])) = Ok els ->
     batch_citations body = Returned (PDict [("citations", PStr "")])).
Proof.
  intros Hf Hb Ha.
  assert (E : dict_get body "format" (PStr "bibtex") = PStr f).
  { unfold dict_get. now rewrite Hf. }
  split.
  - intros Ht. unfold generate_citation. rewrite Ht, E. cbn [negb py_eq_str].
    apply String.eqb_neq in Hb, Ha. rewrite Hb, Ha. reflexivity.
  - intros els Ht Hels. unfold batch_citations. rewrite Ht, E, Hels.
    cbn [negb run].
    destruct (mapM_batch_entry_unsupported f els Hb Ha) as [cs [Hcs Hc]].
    rewrite Hcs. cbn [run]. rewrite Hc. reflexivity.
Qed.

Lemma unsupported_format_single_and_batch_witness :
  generate_citation [("paper", PDict [("title", PStr "T")]);
                     ("papers", PList [PDict [("title", PStr "T")]]);
                     ("format", PStr "BibTeX")]
  = HTTPException 400 "Unsupported format: BibTeX" /\
  batch_citations [("paper", PDict [("title", PStr "T")]);
                   ("papers", PList [PDict [("title", PStr "T")]]);
                   ("format", PStr "BibTeX")]
  = Returned (PDict [("citations", PStr "")]).
Proof.
  destruct (unsupported_format_single_and_batch
              [("paper", PDict [("title", PStr "T")]);
               ("papers", PList [PDict [("title", PStr "T")]]);
               ("format", PStr "BibTeX")] "BibTeX" eq_refl)
    as [H1 H2]; try discriminate.
  split; [apply H1; reflexivity |].
  apply (H2 [PDict [("title", PStr "T")]]); reflexivity.
Defined.

Section BatchFormat.

Variable format_type : pyval.
Variable formatter : pyval -> res string.
Hypothesis batch_entry_formatter :
  forall paper,
    batch_entry format_type paper = (c <- formatter paper ;; Ok [c]).

Lemma mapM_batch_entry_Ok (ps : list pyval) (cs : list string) :
  Forall2 (fun p c => formatter p = Ok c) ps cs ->
  exists ccs, mapM (batch_entry format_type) ps = Ok ccs /\
              List.concat ccs = cs.
Proof.
  induction 1 as [| p c ps cs Hpc _ [ccs [Hm Hc]]]; simpl.
  - exists []. split; reflexivity.
  - rewrite batch_entry_formatter, Hpc. cbn [bind]. rewrite Hm. cbn [bind].
    eexists. split; [reflexivity |]. simpl. now rewrite Hc.
Qed.

Lemma mapM_batch_entry_fails (ps : list pyval) (p : pyval) :
  In p ps -> (forall c, formatter p <> Ok c) ->
  forall ccs, mapM (batch_entry format_type) ps <> Ok ccs.
Proof.
  intros Hin Hp ccs H. apply mapM_Ok_Forall2 in H.
  revert p Hin Hp. induction H as [| q cs ps ccs Hq _ IH]; intros p Hin Hp.
  - destruct Hin.
  - destruct Hin as [-> | Hin]; [| exact (IH p Hin Hp)].
    rewrite batch_entry_formatter in Hq.
    apply bind_Ok in Hq as [c [Hc _]]. exact (Hp c Hc).
Qed.

End BatchFormat.

Lemma batch_entry_bibtex (paper : pyval) :
  batch_entry (PStr "bibtex") paper = (c <- format_bibtex paper ;; Ok [c]).
Proof. reflexivity. Qed.

Lemma batch_entry_apa (paper : pyval) :
  batch_entry (PStr "apa") paper = (c <- format_apa paper ;; Ok [c]).
Proof. reflexivity. Qed.

(** X14. A batch in BibTeX (the default) or APA is the citations of its
    papers, in their order, joined by newlines; one paper on which the
    formatter raises an exception makes the whole batch fail, nothing is
    returned for the others. *)
Theorem batch_citations_all_or_nothing
    (body : list (string * pyval)) (ps : list pyval) :
  lookup "papers" body = Some (PList ps) -> ps <> [] ->
  ((lookup "format" body = None \/
    lookup "format" body = Some (PStr "bibtex")) ->
   (forall cs, Forall2 (fun p c => format_bibtex p = Ok c) ps cs ->
               batch_citations body
               = Returned (PDict [("citations",
                                   PStr (String.concat nl cs))])) /\
   (forall p, In p ps -> fails (format_bibtex p) ->
              forall r, batch_citations body <> Returned r)) /\
  (lookup "format" body = Some (PStr "apa") ->
   (forall cs, Forall2 (fun p c => format_apa p = Ok c) ps cs ->
               batch_citations body
               = Returned (PDict [("citations",
                                   PStr (String.concat nl cs))])) /\
   (forall p, In p ps -> fails (format_apa p) ->
              forall r, batch_citations body <> Returned r)).
Proof.
  intros Hp Hne.
  assert (Hpapers : dict_get body "papers" (PList []) = PList ps).
  { unfold dict_get. now rewrite Hp. }
  assert (Ht : truthy (PList ps) = true)
    by (destruct ps; [exfalso; apply Hne; reflexivity | reflexivity]).
  unfold batch_citations. rewrite Hpapers, Ht. cbn [negb py_iter run].
  split.
  - intros Hf.
    assert (E : dict_get body "format" (PStr "bibtex") = PStr "bibtex").
    { unfold dict_get. destruct Hf as [-> | ->]; reflexivity. }
    rewrite E. split.
    + intros cs Hcs.
      destruct (mapM_batch_entry_Ok _ _ batch_entry_bibtex ps cs Hcs)
        as [ccs [Hm Hc]].
      rewrite Hm. cbn [run]. rewrite Hc. reflexivity.
    + intros p Hin [e0 [Hbad0 _]] r.
      assert (Hbad : forall c, format_bibtex p <> Ok c)
        by (intros c Hc; rewrite Hc in Hbad0; discriminate Hbad0).
      pose proof (mapM_batch_entry_fails _ _ batch_entry_bibtex ps p Hin Hbad)
        as Hfail.
      destruct (mapM (batch_entry (PStr "bibtex")) ps) as [ccs | e].
      * exfalso. exact (Hfail ccs eq_refl).
      * discriminate.
  - intros Hf.
    assert (E : dict_get body "format" (PStr "bibtex") = PStr "apa").
    { unfold dict_get. now rewrite Hf. }
    rewrite E. split.
    + intros cs Hcs.
      destruct (mapM_batch_entry_Ok _ _ batch_entry_apa ps cs Hcs)
        as [ccs [Hm Hc]].
      rewrite Hm. cbn [run]. rewrite Hc. reflexivity.
    + intros p Hin [e0 [Hbad0 _]] r.
      assert (Hbad : forall c, format_apa p <> Ok c)
        by (intros c Hc; rewrite Hc in Hbad0; discriminate Hbad0).
      pose proof (mapM_batch_entry_fails _ _ batch_entry_apa ps p Hin Hbad)
        as Hfail.
      destruct (mapM (batch_entry (PStr "apa")) ps) as [ccs | e].
      * exfalso. exact (Hfail ccs eq_refl).
      * discriminate.
Qed.

Lemma batch_citations_all_or_nothing_witness :
  batch_citations
    [("papers", PList [PDict [("title", PStr "A")];
                       PDict [("title", PStr "B")]]);
     ("format", PStr "apa")]
  = Returned (PDict [("citations",
                      PStr (String.concat nl ["Unknown (n.d.). A. **.";
                                              "Unknown (n.d.). B. **."]))]).
Proof.
  apply (proj2 (batch_citations_all_or_nothing
                  [("papers", PList [PDict [("title", PStr "A")];
                                     PDict [("title", PStr "B")]]);
                   ("format", PStr "apa")]
                  [PDict [("title", PStr "A")]; PDict [("title", PStr "B")]]
                  eq_refl ltac:(discriminate)) eq_refl).
  repeat constructor.
Defined.

(** ** Provider selection and the summary endpoint *)

Lemma get_active_None_iff (cfg : config) (p : probe) :
  get_active_llm_provider cfg p = None <->
  LLM_PROVIDER cfg <> "ollama" /\ OPENAI_API_KEY cfg = "" /\
  check_ollama_available cfg p = false.
Proof.
  unfold get_active_llm_provider.
  destruct (String.eqb_spec (LLM_PROVIDER cfg) "openai") as [Eo | Eo];
    destruct (String.eqb_spec (OPENAI_API_KEY cfg) "") as [Ek | Ek];
    destruct (String.eqb_spec (LLM_PROVIDER cfg) "ollama") as [El | El];
    destruct (check_ollama_available cfg p); cbn [andb negb];
    split; try discriminate; try tauto;
    intros (H1 & H2 & H3); congruence.
Qed.

(** X15. Outside the automatic mode: [LLM_PROVIDER = "ollama"] selects the
    local provider without probing it, [LLM_PROVIDER = "openai"] selects
    the remote one when a key is set and otherwise falls back to the
    probe.  In every mode the remote provider is selected only with a key,
    and no provider is selected exactly when the mode is not ["ollama"],
    no key is set and the probe does not find the model. *)
Theorem provider_selection_every_mode (cfg : config) (p : probe) :
  (LLM_PROVIDER cfg = "ollama" ->
   get_active_llm_provider cfg p = Some Ollama) /\
  (LLM_PROVIDER cfg = "openai" -> OPENAI_API_KEY cfg <> "" ->
   get_active_llm_provider cfg p = Some OpenAI) /\
  (LLM_PROVIDER cfg = "openai" -> OPENAI_API_KEY cfg = "" ->
   get_active_llm_provider cfg p
   = if check_ollama_available cfg p then Some Ollama else None) /\
  (get_active_llm_provider cfg p = Some OpenAI -> OPENAI_API_KEY cfg <> "") /\
  (get_active_llm_provider cfg p = None <->
   LLM_PROVIDER cfg <> "ollama" /\ OPENAI_API_KEY cfg = "" /\
   check_ollama_available cfg p = false).
Proof.
  split; [| split; [| split; [| split]]].
  - unfold get_active_llm_provider. intros ->. reflexivity.
  - unfold get_active_llm_provider. intros -> Hk.
    apply String.eqb_neq in Hk. rewrite Hk. reflexivity.
  - unfold get_active_llm_provider. intros -> ->. reflexivity.
  - unfold get_active_llm_provider.
    destruct (String.eqb_spec (OPENAI_API_KEY cfg) "") as [Ek | Ek];
      [| intros _; exact Ek].
    rewrite andb_false_r.
    destruct (String.eqb (LLM_PROVIDER cfg) "ollama"); [discriminate |].
    destruct (check_ollama_available cfg p); discriminate.
  - apply get_active_None_iff.
Qed.

Lemma provider_selection_every_mode_witness :
  get_active_llm_provider
    {| LLM_PROVIDER := "ollama"; OPENAI_API_KEY := "sk-1";
       OLLAMA_MODEL := "llama3.2" |} RequestFailed = Some Ollama.
Proof.
  apply (proj1 (provider_selection_every_mode _ RequestFailed)).
  reflexivity.
Defined.

Lemma no_abstract_test (body : list (string * pyval)) :
  negb (truthy (dict_get body "abstract" (PStr "")))
  || py_eq_str (dict_get body "abstract" (PStr "")) "No abstract available."
  = true <-> no_abstract body.
Proof.
  unfold no_abstract. rewrite orb_true_iff, negb_true_iff.
  split; (intros [H | H]; [left; exact H | right]).
  - destruct (dict_get body "abstract" (PStr "")); try discriminate H.
    simpl in H. apply String.eqb_eq in H. now subst.
  - rewrite H. reflexivity.
Qed.

(** The five ways [summarize_paper] ends. *)
Lemma summarize_paper_cases (cfg : config) (p : probe)
    (llm : provider -> string -> llm_outcome) (body : list (string * pyval)) :
  (get_active_llm_provider cfg p = None /\
   summarize_paper cfg p llm body = HTTPException 503 detail_503) \/
  (exists q, get_active_llm_provider cfg p = Some q /\ no_abstract body /\
             summarize_paper cfg p llm body = HTTPException 400 detail_400) \/
  (exists q e, get_active_llm_provider cfg p = Some q /\ ~ no_abstract body /\
               summarize_paper cfg p llm body = Uncaught e /\
               (py_str (dict_get body "title" (PStr "")) = Raise e \/
                py_str (dict_get body "abstract" (PStr "")) = Raise e)) \/
  (exists q t a,
     get_active_llm_provider cfg p = Some q /\ ~ no_abstract body /\
     py_str (dict_get body "title" (PStr "")) = Ok t /\
     py_str (dict_get body "abstract" (PStr "")) = Ok a /\
     summarize_paper cfg p llm body
     = match llm q (summary_prompt t a) with
       | LLMText summary =>
           Returned (PDict [("summary", PStr summary);
                            ("provider", PStr (provider_name q))])
       | LLMTimeout => HTTPException 504 detail_504
       | LLMRequestError => HTTPException 502 (detail_502 q)
       | LLMOther e => Uncaught e
       end).
Proof.
  unfold summarize_paper.
  destruct (get_active_llm_provider cfg p) as [q |]; [right | left; auto].
  pose proof (no_abstract_test body) as Hna.
  destruct (negb (truthy (dict_get body "abstract" (PStr "")))
            || py_eq_str (dict_get body "abstract" (PStr ""))
                         "No abstract available.").
  - left. exists q. split; [reflexivity |].
    split; [apply Hna; reflexivity | reflexivity].
  - right.
    assert (Hn : ~ no_abstract body)
      by (intros H; apply Hna in H; discriminate H).
    destruct (py_str (dict_get body "title" (PStr ""))) as [t | e] eqn:Et.
    2:{ left. exists q, e. auto. }
    destruct (py_str (dict_get body "abstract" (PStr ""))) as [a | e] eqn:Ea.
    2:{ left. exists q, e. auto. }
    right. exists q, t, a.
    split; [reflexivity |]. split; [exact Hn |].
    split; [reflexivity |]. split; [reflexivity |].
    cbn [run]. destruct (llm q (summary_prompt t a)); try reflexivity.
    destruct q; reflexivity.
Qed.

(** X16. [summarize_paper] answers 503 exactly when no provider is
    selected, that is when the mode is not ["ollama"], no key is set and
    the probe does not find the model; the request body plays no part. *)
Theorem summarize_paper_503_iff (cfg : config) (p : probe)
    (llm : provider -> string -> llm_outcome) (body : list (string * pyval)) :
  (exists detail,
     summarize_paper cfg p llm body = HTTPException 503 detail) <->
  LLM_PROVIDER cfg <> "ollama" /\ OPENAI_API_KEY cfg = "" /\
  check_ollama_available cfg p = false.
Proof.
  rewrite <- get_active_None_iff.
  destruct (summarize_paper_cases cfg p llm body)
    as [[Hq H] | [(q & Hq & _ & H) | [(q & e & Hq & _ & H & _)
                                     | (q & t & a & Hq & _ & _ & _ & H)]]];
    rewrite H, Hq.
  - split; [reflexivity | eauto].
  - split; [intros [detail Hd]; discriminate Hd | discriminate].
  - split; [intros [detail Hd]; discriminate Hd | discriminate].
  - split; [| discriminate]. intros [detail Hd].
    destruct (llm q (summary_prompt t a)); discriminate Hd.
Qed.

(** X17. With a provider selected, [summarize_paper] answers 400 exactly
    when the body has no abstract (absent, falsy, or the placeholder of the
    search results), and then without calling the model: the answer is the
    same whatever the model would have done. *)
Theorem summarize_paper_400_iff (cfg : config) (p : probe) (q : provider)
    (llm : provider -> string -> llm_outcome) (body : list (string * pyval)) :
  get_active_llm_provider cfg p = Some q ->
  ((exists detail,
      summarize_paper cfg p llm body = HTTPException 400 detail) <->
   no_abstract body) /\
  (no_abstract body ->
   forall llm', summarize_paper cfg p llm' body
                = HTTPException 400 detail_400).
Proof.
  intros Hq. split.
  - destruct (summarize_paper_cases cfg p llm body)
      as [[Hq' H] | [(q' & _ & Hn & H) | [(q' & e & _ & Hn & H & _)
                                         | (q' & t & a & _ & Hn & _ & _ & H)]]];
      rewrite H.
    + congruence.
    + split; [intros _; exact Hn | eauto].
    + split; [intros [detail Hd]; discriminate Hd | contradiction].
    + split; [| contradiction]. intros [detail Hd].
      destruct (llm q' (summary_prompt t a)); discriminate Hd.
  - intros Hn llm'.
    destruct (summarize_paper_cases cfg p llm' body)
      as [[Hq' H] | [(q' & _ & _ & H) | [(q' & e & _ & Hn' & _)
                                        | (q' & t & a & _ & Hn' & _)]]].
    + congruence.
    + exact H.
    + contradiction.
    + contradiction.
Qed.

Lemma summarize_paper_400_iff_witness :
  summarize_paper
    {| LLM_PROVIDER := "ollama"; OPENAI_API_KEY := "";
       OLLAMA_MODEL := "llama3.2" |} RequestFailed
    (fun _ _ => LLMText "never asked")
    [("title", PStr "T"); ("abstract", PStr "No abstract available.")]
  = HTTPException 400 detail_400.
Proof.
  apply (proj2 (summarize_paper_400_iff
                  {| LLM_PROVIDER := "ollama"; OPENAI_API_KEY := "";
                     OLLAMA_MODEL := "llama3.2" |} RequestFailed Ollama
                  (fun _ _ => LLMTimeout)
                  [("title", PStr "T");
                   ("abstract", PStr "No abstract available.")]
                  eq_refl)).
  right. reflexivity.
Defined.

(** X18. What the other answers of [summarize_paper] tell: a returned
    object carries the text of the selected provider and its name, a 504
    means that this provider timed out, a 502 that its request failed, with
    the hint that belongs to it; in each case the provider was asked once,
    with the prompt built from the title and the abstract of the body. *)
Theorem summarize_paper_outcomes (cfg : config) (p : probe)
    (llm : provider -> string -> llm_outcome) (body : list (string * pyval)) :
  (forall r,
     summarize_paper cfg p llm body = Returned r ->
     exists q t a summary,
       get_active_llm_provider cfg p = Some q /\
       py_str (dict_get body "title" (PStr "")) = Ok t /\
       py_str (dict_get body "abstract" (PStr "")) = Ok a /\
       llm q (summary_prompt t a) = LLMText summary /\
       r = PDict [("summary", PStr summary);
                  ("provider", PStr (provider_name q))]) /\
  (forall detail,
     summarize_paper cfg p llm body = HTTPException 504 detail ->
     exists q t a,
       get_active_llm_provider cfg p = Some q /\
       py_str (dict_get body "title" (PStr "")) = Ok t /\
       py_str (dict_get body "abstract" (PStr "")) = Ok a /\
       llm q (summary_prompt t a) = LLMTimeout /\ detail = detail_504) /\
  (forall detail,
     summarize_paper cfg p llm body = HTTPException 502 detail ->
     exists q t a,
       get_active_llm_provider cfg p = Some q /\
       py_str (dict_get body "title" (PStr "")) = Ok t /\
       py_str (dict_get body "abstract" (PStr "")) = Ok a /\
       llm q (summary_prompt t a) = LLMRequestError /\
       detail = detail_502 q).
Proof.
  destruct (summarize_paper_cases cfg p llm body)
    as [[Hq H] | [(q & Hq & _ & H) | [(q & e & Hq & _ & H & _)
                                     | (q & t & a & Hq & _ & Ht & Ha & H)]]];
    rewrite H; (split; [| split]); try (intros x Hx; discriminate Hx).
  - intros r Hr. exists q, t, a.
    destruct (llm q (summary_prompt t a)) as [s | | |];
      try discriminate Hr.
    injection Hr as <-. exists s. auto.
  - intros detail Hd. exists q, t, a.
    destruct (llm q (summary_prompt t a)) as [s | | |];
      try discriminate Hd.
    injection Hd as <-. auto.
  - intros detail Hd. exists q, t, a.
    destruct (llm q (summary_prompt t a)) as [s | | |];
      try discriminate Hd.
    injection Hd as <-. auto.
Qed.

Lemma summarize_paper_outcomes_witness :
  exists q t a,
    get_active_llm_provider
      {| LLM_PROVIDER := "ollama"; OPENAI_API_KEY := "";
         OLLAMA_MODEL := "llama3.2" |} RequestFailed = Some q /\
    py_str (dict_get [("title", PStr "T"); ("abstract", PStr "A.")]
                     "title" (PStr "")) = Ok t /\
    py_str (dict_get [("title", PStr "T"); ("abstract", PStr "A.")]
                     "abstract" (PStr "")) = Ok a /\
    (fun (_ : provider) (_ : string) => LLMRequestError) q (summary_prompt t a)
    = LLMRequestError /\
    "AI summary service is temporarily unavailable. Make sure Ollama is running on your system."
    = detail_502 q.
Proof.
  apply (proj2 (proj2 (summarize_paper_outcomes
                         {| LLM_PROVIDER := "ollama"; OPENAI_API_KEY := "";
                            OLLAMA_MODEL := "llama3.2" |} RequestFailed
                         (fun _ _ => LLMRequestError)
                         [("title", PStr "T"); ("abstract", PStr "A.")]))).
  reflexivity.
Defined.

Lemma reconstruct_abstract_falsy (inv : pyval) :
  truthy inv = false -> reconstruct_abstract inv = Ok "".
Proof.
  unfold reconstruct_abstract. intros ->. reflexivity.
Qed.

(** X19. A record of the search results built from an item without an
    abstract index cannot be summarized: sent back as the body of a summary
    request it is answered with 400 whenever a provider is selected, and
    the model is not called. *)
Theorem record_without_abstract_not_summarized
    (item : pyval) (start_year end_year : Z) (max_citations : pyval)
    (d : list (string * pyval)) (inv : pyval)
    (cfg : config) (p : probe) (q : provider)
    (llm : provider -> string -> llm_outcome) :
  build_paper_result item start_year end_year max_citations = Ok (PDict d) ->
  py_get item "abstract_inverted_index" PNone = Ok inv ->
  truthy inv = false ->
  get_active_llm_provider cfg p = Some q ->
  lookup "summary" d = Some (PStr "No abstract available.") /\
  summarize_paper cfg p llm d = HTTPException 400 detail_400.
Proof.
  intros H Hinv Hf Hq.
  destruct (build_paper_result_fields _ _ _ _ _ H)
    as (d' & inv' & abstract & jp & authors & concepts & Hd & Hinv' & Habs
        & _ & _ & _ & Labs & Lsum & _).
  injection Hd as <-.
  assert (inv' = inv) as -> by congruence.
  rewrite (reconstruct_abstract_falsy _ Hf) in Habs. injection Habs as <-.
  split; [exact Lsum |].
  destruct (summarize_paper_cases cfg p llm d)
    as [[Hq' _] | [(q' & _ & _ & Hs) | [(q' & e & _ & Hn & _)
                                      | (q' & t & a & _ & Hn & _)]]].
  - congruence.
  - exact Hs.
  - exfalso. apply Hn. left. unfold dict_get. rewrite Labs. reflexivity.
  - exfalso. apply Hn. left. unfold dict_get. rewrite Labs. reflexivity.
Qed.

Lemma record_without_abstract_not_summarized_witness :
  exists d,
    build_paper_result (PDict [("title", PStr "T")]) 2020 2025 (PInt 1)
    = Ok (PDict d) /\
    lookup "summary" d = Some (PStr "No abstract available.") /\
    summarize_paper
      {| LLM_PROVIDER := "ollama"; OPENAI_API_KEY := "";
         OLLAMA_MODEL := "llama3.2" |} RequestFailed
      (fun _ _ => LLMText "s") d
    = HTTPException 400 detail_400.
Proof.
  destruct (build_paper_result (PDict [("title", PStr "T")]) 2020 2025
                               (PInt 1))
    as [[| | | | | | d] | e] eqn:H; try (vm_compute in H; discriminate H).
  exists d. split; [reflexivity |].
  apply (record_without_abstract_not_summarized
           (PDict [("title", PStr "T")]) 2020 2025 (PInt 1) d PNone
           _ RequestFailed Ollama _ H); reflexivity.
Defined.

(** ** The probe of the local provider and the health report *)

Lemma listed_models_listing (names : list string) :
  listed_models (PDict [("models",
                         PList (map (fun n => PDict [("name", PStr n)])
                                    names))])
  = Ok (map model_tag_stripped names).
Proof.
  unfold listed_models.
  cbn [py_get lookup String.eqb Ascii.eqb Bool.eqb bind py_iter].
  induction names as [| n names IH]; [reflexivity |].
  cbn [map mapM]. cbn [py_get lookup String.eqb Ascii.eqb Bool.eqb bind
                        py_split].
  rewrite IH. reflexivity.
Qed.

Lemma check_ollama_available_listing (cfg : config) (names : list string) :
  check_ollama_available cfg (listing names)
  = existsb (String.eqb (model_tag_stripped (OLLAMA_MODEL cfg)))
            (map model_tag_stripped names).
Proof.
  unfold check_ollama_available, listing. cbn [Z.eqb Pos.eqb].
  rewrite listed_models_listing. reflexivity.
Qed.

(** X20. The probe compares model names without their tags: a configured
    model [m:t] counts as available as soon as the local provider lists
    [m] under any tag, or untagged, although the configured variant itself
    may not be installed. *)
Theorem check_ollama_available_ignores_tags
    (cfg : config) (m t t' : string) (names : list string) :
  ~ has_char ":" m ->
  (In (m ++ ":" ++ t')%string names \/ In m names) ->
  check_ollama_available (with_model cfg (m ++ ":" ++ t)) (listing names)
  = true /\
  check_ollama_available (with_model cfg m) (listing names) = true.
Proof.
  intros Hm Hin.
  rewrite !check_ollama_available_listing. cbn [with_model OLLAMA_MODEL].
  rewrite (model_tag_stripped_tagged m t Hm), (model_tag_stripped_bare m Hm).
  assert (H : existsb (String.eqb m) (map model_tag_stripped names) = true).
  { apply existsb_exists. exists m. split; [| apply String.eqb_refl].
    apply in_map_iff. destruct Hin as [Hin | Hin].
    - exists (m ++ ":" ++ t')%string.
      split; [apply model_tag_stripped_tagged; exact Hm | exact Hin].
    - exists m. split; [apply model_tag_stripped_bare; exact Hm | exact Hin]. }
  split; exact H.
Qed.

Lemma check_ollama_available_ignores_tags_witness :
  check_ollama_available
    {| LLM_PROVIDER := "auto"; OPENAI_API_KEY := "";
       OLLAMA_MODEL := "llama3:70b" |}
    (listing ["mistral:7b"; "llama3:8b"]) = true /\
  check_ollama_available
    {| LLM_PROVIDER := "auto"; OPENAI_API_KEY := "";
       OLLAMA_MODEL := "llama3" |}
    (listing ["mistral:7b"; "llama3:8b"]) = true.
Proof.
  apply (check_ollama_available_ignores_tags
           {| LLM_PROVIDER := "auto"; OPENAI_API_KEY := "";
              OLLAMA_MODEL := "" |}
           "llama3" "70b" "8b" ["mistral:7b"; "llama3:8b"]).
  - unfold has_char. simpl. intros H.
    repeat (destruct H as [H | H]; [discriminate H |]). exact H.
  - left. right. left. reflexivity.
Defined.

(** X21. The health report, when both of its probes see the same state of
    the local provider: AI is reported enabled whenever the local model is
    available or a key is configured; it is reported enabled with neither
    only in the forced mode [LLM_PROVIDER = "ollama"]; the model name is
    reported exactly when the local model is available. *)
Theorem health_check_consistent (st : settings) (p : probe) :
  exists ai ollama openai,
    py_item (health_check st p p) "ai_enabled" = Ok (PBool ai) /\
    py_item (health_check st p p) "ollama_available" = Ok (PBool ollama) /\
    py_item (health_check st p p) "openai_configured" = Ok (PBool openai) /\
    py_item (health_check st p p) "ollama_model"
    = Ok (if ollama then PStr (OLLAMA_MODEL (llm_config st)) else PNone) /\
    (ollama = true -> ai = true) /\
    (openai = true -> ai = true) /\
    (ai = true -> ollama = false -> openai = false ->
     LLM_PROVIDER (llm_config st) = "ollama") /\
    (ai = false <->
     py_item (health_check st p p) "ai_provider" = Ok (PStr "none")).
Proof.
  unfold health_check.
  set (cfg := llm_config st).
  pose proof (get_active_None_iff cfg p) as Hnone.
  exists (match get_active_llm_provider cfg p with
          | Some _ => true
          | None => false
          end),
         (check_ollama_available cfg p),
         (negb (String.eqb (OPENAI_API_KEY cfg) "")).
  split; [reflexivity |]. split; [reflexivity |]. split; [reflexivity |].
  split; [reflexivity |].
  split; [| split; [| split]].
  - intros Ho. destruct (get_active_llm_provider cfg p); [reflexivity |].
    destruct (proj1 Hnone eq_refl) as (_ & _ & Hc). congruence.
  - intros Hk. destruct (get_active_llm_provider cfg p); [reflexivity |].
    destruct (proj1 Hnone eq_refl) as (_ & Hk' & _).
    rewrite Hk' in Hk. discriminate Hk.
  - intros Hai Ho Hk. apply negb_false_iff, String.eqb_eq in Hk.
    destruct (String.eqb_spec (LLM_PROVIDER cfg) "ollama") as [E | E];
      [exact E |].
    rewrite (proj2 Hnone (conj E (conj Hk Ho))) in Hai. discriminate Hai.
  - cbn [py_item lookup String.eqb Ascii.eqb Bool.eqb].
    destruct (get_active_llm_provider cfg p) as [[|] |].
    + split; discriminate.
    + split; discriminate.
    + split; reflexivity.
Qed.

(** ** The ends of the score scale *)







(** ** The order of the index does not matter *)

Lemma ascii_compare_trans (a b c : ascii) (o : comparison) :
  Ascii.compare a b = o -> Ascii.compare b c = o -> Ascii.compare a c = o.
Proof.
  unfold Ascii.compare. intros H1 H2. destruct o.
  - apply N.compare_eq_iff in H1, H2. apply N.compare_eq_iff. congruence.
  - exact (N.lt_trans _ _ _ H1 H2).
  - apply N.compare_gt_iff. apply N.compare_gt_iff in H1.
    apply N.compare_gt_iff in H2. exact (N.lt_trans _ _ _ H2 H1).
Qed.

Lemma ascii_compare_eq (a b : ascii) : Ascii.compare a b = Eq -> a = b.
Proof. apply Ascii.compare_eq_iff. Qed.

Lemma string_compare_lt_trans (a b c : string) :
  String.compare a b = Lt -> String.compare b c = Lt ->
  String.compare a c = Lt.
Proof.
  revert b c. induction a as [| x a IH]; intros [| y b] [| z c]; simpl;
    try discriminate; try reflexivity.
  destruct (Ascii.compare x y) eqn:Exy; try discriminate;
    destruct (Ascii.compare y z) eqn:Eyz; try discriminate; intros H1 H2.
  - rewrite (ascii_compare_trans _ _ _ _ Exy Eyz). eapply IH; eassumption.
  - apply ascii_compare_eq in Exy. subst y. rewrite Eyz. reflexivity.
  - apply ascii_compare_eq in Eyz. subst z. rewrite Exy. reflexivity.
  - rewrite (ascii_compare_trans _ _ _ _ Exy Eyz). reflexivity.
Qed.

Lemma string_ltb_lt (a b : string) :
  String.ltb a b = true <-> String.compare a b = Lt.
Proof.
  unfold String.ltb. destruct (String.compare a b); split; congruence.
Qed.

Lemma string_trichotomy (a b : string) :
  String.ltb a b = true \/ a = b \/ String.ltb b a = true.
Proof.
  rewrite !string_ltb_lt. rewrite (String.compare_antisym a b).
  destruct (String.compare b a) eqn:E; simpl; auto.
  right. left. symmetry. apply String.compare_eq_iff. exact E.
Qed.

Lemma string_compare_refl (a : string) : String.compare a a = Eq.
Proof.
  induction a as [| c a IH]; [reflexivity |].
  simpl. unfold Ascii.compare. now rewrite N.compare_refl.
Qed.

Lemma string_ltb_irrefl (a : string) : String.ltb a a = false.
Proof.
  unfold String.ltb. rewrite string_compare_refl. reflexivity.
Qed.

Lemma string_ltb_trans (a b c : string) :
  String.ltb a b = true -> String.ltb b c = true -> String.ltb a c = true.
Proof.
  rewrite !string_ltb_lt. apply string_compare_lt_trans.
Qed.

(** [occ_ltb], as a relation on pairs. *)
Lemma occ_ltb_spec (a b : Z * string) :
  occ_ltb a b = true <->
  fst a < fst b \/ (fst a = fst b /\ String.ltb (snd a) (snd b) = true).
Proof.
  unfold occ_ltb. rewrite orb_true_iff, andb_true_iff, Z.ltb_lt, Z.eqb_eq.
  reflexivity.
Qed.

Lemma occ_ltb_trans (a b c : Z * string) :
  occ_ltb a b = true -> occ_ltb b c = true -> occ_ltb a c = true.
Proof.
  rewrite !occ_ltb_spec.
  intros [H1 | [H1 S1]] [H2 | [H2 S2]]; try (left; lia).
  right. split; [lia |]. eapply string_ltb_trans; eassumption.
Qed.

Lemma occ_trichotomy (a b : Z * string) :
  occ_ltb a b = true \/ a = b \/ occ_ltb b a = true.
Proof.
  rewrite !occ_ltb_spec. destruct a as [p v], b as [q w]. cbn [fst snd].
  destruct (Z.lt_trichotomy p q) as [H | [H | H]]; [left; left; exact H | |
    right; right; left; exact H].
  subst q.
  destruct (string_trichotomy v w) as [S | [S | S]];
    [left; right; auto | right; left; congruence | right; right; right; auto].
Qed.

Lemma occ_ltb_irrefl (a : Z * string) : occ_ltb a a = false.
Proof.
  unfold occ_ltb. rewrite Z.ltb_irrefl, string_ltb_irrefl.
  apply andb_false_r.
Qed.

Lemma occ_ltb_asym (a b : Z * string) :
  occ_ltb a b = true -> occ_ltb b a = false.
Proof.
  intros H. destruct (occ_ltb b a) eqn:E; [| reflexivity].
  pose proof (occ_ltb_trans _ _ _ H E) as Hc.
  rewrite occ_ltb_irrefl in Hc. discriminate Hc.
Qed.

Lemma occ_le_trans (a b c : Z * string) :
  occ_le a b -> occ_le b c -> occ_le a c.
Proof.
  unfold occ_le. intros Hab Hbc.
  destruct (occ_ltb c a) eqn:Hca; [| reflexivity].
  destruct (occ_trichotomy a b) as [H | [H | H]].
  - rewrite (occ_ltb_trans _ _ _ Hca H) in Hbc. discriminate Hbc.
  - subst b. congruence.
  - congruence.
Qed.

Lemma occ_le_antisym (a b : Z * string) :
  occ_le a b -> occ_le b a -> a = b.
Proof.
  unfold occ_le. intros Hab Hba.
  destruct (occ_trichotomy a b) as [H | [H | H]]; congruence.
Qed.

Lemma occ_fully_sorted (occ : list (Z * string)) :
  StronglySorted occ_le (stable_sort occ_ltb occ).
Proof.
  apply stable_sort_sorted with (dom := fun _ => True).
  - intros x y z _ _ _. apply occ_le_trans.
  - intros x y _ _. apply occ_ltb_asym.
  - intros x y _ _ H. exact H.
  - apply Forall_forall. intros; exact I.
Qed.

Lemma sorted_perm_unique {A : Type} (le : A -> A -> Prop) (l1 l2 : list A) :
  (forall a b, le a b -> le b a -> a = b) ->
  StronglySorted le l1 -> StronglySorted le l2 -> Permutation l1 l2 ->
  l1 = l2.
Proof.
  intros Hanti. revert l2.
  induction l1 as [| a l1 IH]; intros l2 H1 H2 Hp.
  - apply Permutation_nil in Hp. now subst.
  - destruct l2 as [| b l2].
    + apply Permutation_sym, Permutation_nil in Hp. discriminate Hp.
    + apply StronglySorted_inv in H1 as [H1 Ha].
      apply StronglySorted_inv in H2 as [H2 Hb].
      rewrite Forall_forall in Ha, Hb.
      assert (Hab : a = b).
      { assert (Hin1 : In a (b :: l2))
          by (apply (Permutation_in _ Hp); left; reflexivity).
        assert (Hin2 : In b (a :: l1))
          by (apply (Permutation_in _ (Permutation_sym Hp)); left;
              reflexivity).
        destruct Hin1 as [E | Hin1]; [congruence |].
        destruct Hin2 as [E | Hin2]; [congruence |].
        apply Hanti; [apply Ha | apply Hb]; assumption. }
      subst b. f_equal. apply IH; [assumption | assumption |].
      apply Permutation_cons_inv with a. exact Hp.
Qed.

(** X23. The text [reconstruct_abstract] returns depends on the
    occurrences in the index only, not on the order it lists them in: two
    indexes with the same (position, word) pairs, in whatever order of
    their entries and of the positions in an entry, give the same text. *)
Theorem reconstruct_abstract_order_independent
    (idx idx' : list (string * list Z)) :
  Permutation (occurrences idx) (occurrences idx') ->
  reconstruct_abstract (inverted_index idx)
  = reconstruct_abstract (inverted_index idx').
Proof.
  intros Hp. rewrite !reconstruct_abstract_index. do 3 f_equal.
  apply (sorted_perm_unique occ_le).
  - apply occ_le_antisym.
  - apply occ_fully_sorted.
  - apply occ_fully_sorted.
  - apply perm_trans with (occurrences idx); [apply stable_sort_perm |].
    apply perm_trans with (occurrences idx'); [exact Hp |].
    apply Permutation_sym, stable_sort_perm.
Qed.

Lemma reconstruct_abstract_order_independent_witness :
  reconstruct_abstract
    (inverted_index [("world", [2]); ("hello", [0]); ("big", [1])])
  = reconstruct_abstract
      (inverted_index [("hello", [0]); ("big", [1]); ("world", [2])]).
Proof.
  apply reconstruct_abstract_order_independent.
  apply (Permutation_cons_append [(0, "hello"); (1, "big")] (2, "world")).
Defined.

(** ** The answer of the search endpoint *)

Lemma run_Returned {A B : Type} (c : res A) (k : A -> http B) (r : B) :
  run c k = Returned r -> exists a, c = Ok a /\ k a = Returned r.
Proof.
  destruct c as [a | e]; simpl; intros H; [eauto | discriminate H].
Qed.

Lemma mapM_length {A B : Type} (f : A -> res B) (l : list A) (r : list B) :
  mapM f l = Ok r -> List.length r = List.length l.
Proof.
  intros H. apply mapM_Ok_Forall2 in H.
  induction H; simpl; [reflexivity | now f_equal].
Qed.

(** Sorting returns a rearrangement of the list, whatever the keys. *)
Lemma list_sort_perm {A : Type} (key : A -> res pyval) (reverse : bool)
    (l sorted : list A) :
  list_sort key reverse l = Ok sorted -> Permutation sorted l.
Proof.
  unfold list_sort. intros H. apply bind_Ok in H as [ks [Hks H]].
  apply mapM_length in Hks.
  destruct l as [| a [| b l]];
    [injection H as <-; apply Permutation_refl
    | injection H as <-; apply Permutation_refl |].
  destruct (sortable_keys ks); [| discriminate H].
  cbv zeta in H. injection H as <-.
  set (kl := combine ks (a :: b :: l)).
  assert (Hsnd : map snd kl = a :: b :: l)
    by (apply map_snd_combine; exact Hks).
  apply perm_trans with (map snd kl);
    [| rewrite Hsnd; apply Permutation_refl].
  apply Permutation_map.
  destruct reverse.
  - apply perm_trans with (stable_sort
                             (fun x y : pyval * A => key_ltb (fst x) (fst y))
                             (rev kl)).
    + apply Permutation_sym, Permutation_rev.
    + apply perm_trans with (rev kl);
        [apply stable_sort_perm | apply Permutation_sym, Permutation_rev].
  - apply stable_sort_perm.
Qed.

Lemma mapM_build_and_key (start_year end_year : Z) (max_citations : pyval)
    (els : list pyval) (built : list (pyval * string)) :
  mapM (fun item =>
          paper <- build_paper_result item start_year end_year
                                      max_citations ;;
          j <- journal_key paper ;;
          Ok (paper, j)) els = Ok built ->
  mapM (fun item =>
          build_paper_result item start_year end_year max_citations) els
  = Ok (map fst built) /\
  Forall2 in_journal (map fst built) (map snd built).
Proof.
  intros H. apply mapM_Ok_Forall2 in H.
  induction H as [| item pj els built Hpj _ [IH1 IH2]]; simpl.
  - split; [reflexivity | constructor].
  - apply bind_Ok in Hpj as [paper [Hp Hpj]].
    apply bind_Ok in Hpj as [j [Hj Hpj]]. injection Hpj as <-.
    rewrite Hp, IH1. cbn [bind fst snd]. split; [reflexivity |].
    constructor; [| exact IH2].
    unfold journal_key in Hj. apply bind_Ok in Hj as [v [Hv Hj]].
    unfold in_journal. rewrite Hv.
    destruct v; try discriminate Hj. injection Hj as <-. reflexivity.
Qed.

(** The parts of a returned answer. *)
Lemma search_papers_response_inv (current_year : Z) (topic : string)
    (limit : nat) (page : Z) (start_year end_year : option Z)
    (sort_by : string) (data r : pyval) :
  search_papers_response current_year topic limit page start_year end_year
                         sort_by (Fetched data) = Returned r ->
  let s := fst (year_window current_year start_year end_year) in
  let e := snd (year_window current_year start_year end_year) in
  exists papers meta total_count,
    py_get data "results" (PList []) = Ok papers /\
    py_get data "meta" (PDict []) = Ok meta /\
    py_get meta "count" (PInt 0) = Ok total_count /\
    ((truthy papers = false /\
      r = PDict [("topic", PStr topic);
                 ("years_filter",
                  PStr (str_of_Z s ++ "-" ++ str_of_Z e)%string);
                 ("total_found", PInt 0);
                 ("total_journals", PInt 0);
                 ("page", PInt page);
                 ("results", PList [])]) \/
     (truthy papers = true /\
      exists els max_citations recs names sorted,
        py_iter papers = Ok els /\ els <> [] /\
        batch_max_citations els = Ok max_citations /\
        mapM (fun item => build_paper_result item s e max_citations) els
        = Ok recs /\
        Forall2 in_journal recs names /\
        (if String.eqb sort_by "relevance"
         then list_sort (fun x => py_item x "score") true recs
         else Ok recs) = Ok sorted /\
        r = PDict [("topic", PStr topic);
                   ("years_filter",
                    PStr (str_of_Z s ++ "-" ++ str_of_Z e)%string);
                   ("total_found", total_count);
                   ("total_journals",
                    PInt (Z.of_nat (List.length (nodup string_dec names))));
                   ("page", PInt page);
                   ("per_page", PInt (Z.of_nat limit));
                   ("results", PList (firstn limit sorted))])).
Proof.
  unfold search_papers_response.
  destruct (year_window current_year start_year end_year) as [s e].
  cbn [fst snd]. intros H.
  apply run_Returned in H as [papers [Hpapers H]].
  apply run_Returned in H as [meta [Hmeta H]].
  apply run_Returned in H as [total_count [Hcount H]].
  exists papers, meta, total_count.
  split; [exact Hpapers |]. split; [exact Hmeta |]. split; [exact Hcount |].
  destruct (truthy papers); cbn [negb] in H.
  - right. split; [reflexivity |].
    apply run_Returned in H as [els [Hels H]].
    apply run_Returned in H as [counts [Hcounts H]].
    apply run_Returned in H as [m [Hm H]].
    apply run_Returned in H as [built [Hbuilt H]].
    apply run_Returned in H as [sorted [Hsorted H]].
    injection H as <-.
    destruct (mapM_build_and_key _ _ _ _ _ Hbuilt) as [Hrecs Hj].
    exists els, (py_or m (PInt 1)), (map fst built), (map snd built), sorted.
    split; [exact Hels |].
    split.
    { intros ->. cbn in Hcounts. injection Hcounts as <-. discriminate Hm. }
    split.
    { unfold batch_max_citations. rewrite Hcounts. cbn [bind].
      rewrite Hm. reflexivity. }
    split; [exact Hrecs |]. split; [exact Hj |].
    split; [exact Hsorted | reflexivity].
  - left. split; [reflexivity |]. injection H as <-. reflexivity.
Qed.

(** X24. The ["results"] entry of the answer is what the ranking of the
    batch gives: at most [limit] records, each of them built from an item
    of the provider's batch with the year window after its defaults. *)
Theorem search_response_results (current_year : Z) (topic : string)
    (limit : nat) (page : Z) (start_year end_year : option Z)
    (sort_by : string) (data r : pyval) :
  search_papers_response current_year topic limit page start_year end_year
                         sort_by (Fetched data) = Returned r ->
  let s := fst (year_window current_year start_year end_year) in
  let e := snd (year_window current_year start_year end_year) in
  exists els results recs,
    batch_of data els /\
    search_papers sort_by limit s e els = Ok results /\
    py_item r "results" = Ok (PList results) /\
    (List.length results <= limit)%nat /\
    built_records s e els = Ok recs /\
    incl results recs.
Proof.
  intros H s e.
  destruct (search_papers_response_inv _ _ _ _ _ _ _ _ _ H)
    as (papers & meta & total_count & Hpapers & _ & _ & Hcases).
  fold s e in Hcases.
  destruct Hcases as [[Hf ->] | [Ht Hsome]].
  - exists [], [], [].
    split; [exists papers; rewrite Hf; auto |].
    split; [reflexivity |]. split; [reflexivity |].
    split; [simpl; lia |]. split; [reflexivity |]. intros x [].
  - destruct Hsome as (els & mc & recs & names & sorted & Hels & Hne & Hmax
                       & Hrecs & _ & Hsorted & ->).
    exists els, (firstn limit sorted), recs.
    split; [exists papers; rewrite Ht; auto |].
    split.
    { rewrite (search_papers_unfold _ _ _ _ _ _ _ Hmax Hrecs), Hsorted.
      reflexivity. }
    split; [reflexivity |].
    split; [apply firstn_le_length |].
    split.
    { unfold built_records. destruct els; [congruence |].
      rewrite Hmax. cbn [bind]. exact Hrecs. }
    intros x Hx. apply In_firstn in Hx.
    destruct (String.eqb sort_by "relevance").
    + apply (Permutation_in _ (list_sort_perm _ _ _ _ Hsorted)). exact Hx.
    + injection Hsorted as <-. exact Hx.
Qed.

(** X25. For an empty batch the answer reports nothing found, whatever
    number of works the provider counted, and has no ["per_page"] entry;
    it is returned exactly when the ["meta"] entry of the provider's
    answer is absent or an object, and raises otherwise. *)
Theorem search_response_empty_batch (current_year : Z) (topic : string)
    (limit : nat) (page : Z) (start_year end_year : option Z)
    (sort_by : string) (d : list (string * pyval)) :
  truthy (dict_get d "results" (PList [])) = false ->
  let answer :=
    search_papers_response current_year topic limit page start_year end_year
                           sort_by (Fetched (PDict d)) in
  ((exists r, answer = Returned r) <->
   (exists meta, dict_get d "meta" (PDict []) = PDict meta)) /\
  (forall r, answer = Returned r ->
             py_item r "total_found" = Ok (PInt 0) /\
             py_item r "total_journals" = Ok (PInt 0) /\
             py_item r "results" = Ok (PList []) /\
             py_item r "per_page" = Raise KeyError).
Proof.
  intros Hf answer. split.
  - split.
    + intros [r H].
      destruct (search_papers_response_inv _ _ _ _ _ _ _ _ _ H)
        as (papers & meta & total_count & _ & Hmeta & Hcount & _).
      rewrite py_get_dict in Hmeta. injection Hmeta as <-.
      apply py_get_Ok_dict in Hcount as [m [Hm _]]. eauto.
    + intros [meta Hmeta]. unfold answer, search_papers_response.
      destruct (year_window current_year start_year end_year) as [s e].
      rewrite !py_get_dict. cbn [run]. rewrite Hmeta, py_get_dict.
      cbn [run]. rewrite Hf. cbn [negb]. eauto.
  - intros r H.
    destruct (search_papers_response_inv _ _ _ _ _ _ _ _ _ H)
      as (papers & meta & total_count & Hpapers & _ & _ & Hcases).
    rewrite py_get_dict in Hpapers. injection Hpapers as <-.
    destruct Hcases as [[_ ->] | [Ht _]]; [| congruence].
    split; [reflexivity |]. split; [reflexivity |].
    split; reflexivity.
Qed.

Lemma search_response_empty_batch_witness :
  py_item (PDict [("topic", PStr "x"); ("years_filter", PStr "2020-2025");
                  ("total_found", PInt 0); ("total_journals", PInt 0);
                  ("page", PInt 9); ("results", PList [])])
          "total_found" = Ok (PInt 0).
Proof.
  apply (proj2 (search_response_empty_batch
                  2025 "x" 10 9 None None "relevance"
                  [("meta", PDict [("count", PInt 1234)]);
                   ("results", PList [])] eq_refl)).
  vm_compute. reflexivity.
Defined.

Lemma nodup_length_le {A : Type} (dec : forall x y : A, {x = y} + {x <> y})
    (l : list A) :
  (List.length (nodup dec l) <= List.length l)%nat.
Proof.
  induction l as [| a l IH]; simpl; [lia |].
  destruct (in_dec dec a l); simpl; lia.
Qed.

Lemma Forall2_length_eq {A B : Type} (R : A -> B -> Prop)
    (l : list A) (r : list B) :
  Forall2 R l r -> List.length l = List.length r.
Proof.
  induction 1; simpl; [reflexivity | now f_equal].
Qed.

(** X26. ["total_journals"] counts the distinct journal names of all the
    records built from the batch, those beyond [limit] included, so that
    it can exceed the number of results returned; ["total_found"] is the
    provider's count. *)
Theorem search_response_total_journals (current_year : Z) (topic : string)
    (limit : nat) (page : Z) (start_year end_year : option Z)
    (sort_by : string) (data r : pyval) :
  search_papers_response current_year topic limit page start_year end_year
                         sort_by (Fetched data) = Returned r ->
  let s := fst (year_window current_year start_year end_year) in
  let e := snd (year_window current_year start_year end_year) in
  exists els recs names,
    batch_of data els /\
    built_records s e els = Ok recs /\
    Forall2 in_journal recs names /\
    py_item r "total_journals"
    = Ok (PInt (Z.of_nat (List.length (nodup string_dec names)))) /\
    (List.length (nodup string_dec names) <= List.length els)%nat /\
    (els <> [] ->
     exists meta, py_get data "meta" (PDict []) = Ok meta /\
                  py_item r "total_found" = py_get meta "count" (PInt 0)).
Proof.
  intros H s e.
  destruct (search_papers_response_inv _ _ _ _ _ _ _ _ _ H)
    as (papers & meta & total_count & Hpapers & Hmeta & Hcount & Hcases).
  fold s e in Hcases.
  destruct Hcases as [[Hf ->] | [Ht Hsome]].
  - exists [], [], [].
    split; [exists papers; rewrite Hf; auto |].
    split; [reflexivity |]. split; [constructor |].
    split; [reflexivity |]. split; [simpl; lia |]. congruence.
  - destruct Hsome as (els & mc & recs & names & sorted & Hels & Hne & Hmax
                       & Hrecs & Hj & _ & ->).
    exists els, recs, names.
    split; [exists papers; rewrite Ht; auto |].
    split.
    { unfold built_records. destruct els; [congruence |].
      rewrite Hmax. cbn [bind]. exact Hrecs. }
    split; [exact Hj |]. split; [reflexivity |].
    split.
    { pose proof (nodup_length_le string_dec names).
      apply mapM_length in Hrecs. apply Forall2_length_eq in Hj. lia. }
    intros _. exists meta. split; [exact Hmeta |].
    rewrite Hcount. reflexivity.
Qed.

Lemma search_response_results_witness :
  exists r els results recs,
    search_papers_response 2025 "x" 1 1 None None "relevance"
                           (Fetched two_works_answer) = Returned r /\
    batch_of two_works_answer els /\
    search_papers "relevance" 1 2020 2025 els = Ok results /\
    py_item r "results" = Ok (PList results) /\
    (List.length results <= 1)%nat /\
    built_records 2020 2025 els = Ok recs /\
    incl results recs.
Proof.
  destruct (search_papers_response 2025 "x" 1 1 None None "relevance"
                                   (Fetched two_works_answer))
    as [r | status detail | e] eqn:H; try (vm_compute in H; discriminate H).
  exists r.
  destruct (search_response_results _ _ _ _ _ _ _ _ _ H)
    as (els & results & recs & Hx).
  exists els, results, recs. split; [reflexivity | exact Hx].
Defined.

Lemma search_response_total_journals_witness :
  exists r els recs names,
    search_papers_response 2025 "x" 1 1 None None "relevance"
                           (Fetched two_works_answer) = Returned r /\
    py_item r "total_journals" = Ok (PInt 2) /\
    batch_of two_works_answer els /\
    built_records 2020 2025 els = Ok recs /\
    Forall2 in_journal recs names /\
    py_item r "total_journals"
    = Ok (PInt (Z.of_nat (List.length (nodup string_dec names)))).
Proof.
  destruct (search_papers_response 2025 "x" 1 1 None None "relevance"
                                   (Fetched two_works_answer))
    as [r | status detail | e] eqn:H; try (vm_compute in H; discriminate H).
  exists r.
  destruct (search_response_total_journals _ _ _ _ _ _ _ _ _ H)
    as (els & recs & names & Hb & Hr & Hn & Ht & _).
  exists els, recs, names.
  split; [reflexivity |].
  split; [vm_compute in H; injection H as <-; reflexivity |].
  split; [exact Hb |]. split; [exact Hr |]. split; [exact Hn | exact Ht].
Defined.

(** ** The title and the Scopus link of a record *)

(** X27. The title of a record is the title of its item: every record
    [build_paper_result] returns has a string as its title, which is the
    item's title when that is truthy and the empty string when it is absent
    or falsy; an item whose title is truthy and not a string builds no
    record.  The record has no Scopus link exactly when its title is
    empty; otherwise the link is the fixed query around the quoted title,
    which consists of letters, digits and the characters [_.-~/%] only. *)
Theorem build_paper_result_title_link
    (item : pyval) (start_year end_year : Z) (max_citations paper : pyval) :
  build_paper_result item start_year end_year max_citations = Ok paper ->
  exists fields d title,
    item = PDict fields /\ paper = PDict d /\
    lookup "title" d = Some (PStr title) /\
    (truthy (dict_get fields "title" PNone) = true ->
     dict_get fields "title" PNone = PStr title) /\
    (truthy (dict_get fields "title" PNone) = false -> title = "") /\
    lookup "scopus_search_url" d
    = Some (if String.eqb title "" then PNone
            else PStr ("https://www.scopus.com/results/results.uri?sort=plf-f&src=s&sot=b&sdt=b&sl=50&s=TITLE%28"
                       ++ quote title ++ "%29")%string) /\
    forallb url_char (list_ascii_of_string (quote title)) = true.
Proof.
  unfold build_paper_result. intros H.
  apply bind_Ok in H as [r0 [Er0 H]].
  apply py_get_Ok_dict in Er0 as [fields [-> _]].
  bind_inv. subst paper.
  repeat match goal with
         | Hg : py_get (PDict fields) _ _ = Ok _ |- _ =>
             rewrite py_get_dict in Hg; injection Hg as Hg;
             try (symmetry in Hg; subst)
         end.
  match goal with
  | Hl : (if truthy (py_or ?t0 (PStr "")) then _ else _) = Ok ?link |- _ =>
      assert (Ht : exists title,
                 py_or t0 (PStr "") = PStr title /\
                 (truthy t0 = true -> t0 = PStr title) /\
                 (truthy t0 = false -> title = "") /\
                 link = (if String.eqb title "" then PNone
                         else PStr ("https://www.scopus.com/results/results.uri?sort=plf-f&src=s&sot=b&sdt=b&sl=50&s=TITLE%28"
                                    ++ quote title ++ "%29")%string))
  end.
  { match goal with
    | Hl : (if truthy ?t then _ else _) = Ok ?link |- _ =>
        destruct (truthy t) eqn:T
    end.
    - match goal with
      | Hl : get_scopus_search_url ?t = Ok _ |- _ =>
          destruct t as [| | | | title | |] eqn:Et; try discriminate Hl;
          injection Hl as <-
      end.
      exists title. split; [reflexivity |].
      cbn [truthy] in T. apply negb_true_iff in T.
      unfold py_or in Et.
      match type of Et with
      | (if truthy ?t0 then _ else _) = _ =>
          destruct (truthy t0) eqn:T0
      end.
      + split; [intros _; exact Et |]. split; [discriminate |].
        rewrite T. reflexivity.
      + injection Et as <-. discriminate T.
    - match goal with
      | Hl : Ok PNone = Ok _ |- _ => injection Hl as <-
      end.
      exists "". unfold py_or in T |- *.
      match goal with
      | |- (if truthy ?t0 then _ else _) = _ /\ _ =>
          destruct (truthy t0) eqn:T0; [congruence |]
      end.
      split; [reflexivity |]. split; [discriminate |].
      split; reflexivity. }
  destruct Ht as (title & Ht & Htrue & Hfalse & ->). rewrite Ht.
  exists fields. eexists. exists title.
  split; [reflexivity |]. split; [reflexivity |]. split; [reflexivity |].
  split; [exact Htrue |]. split; [exact Hfalse |].
  split; [reflexivity |]. apply quote_url.
Qed.

Lemma build_paper_result_title_link_witness :
  exists paper fields d title,
    build_paper_result (PDict [("title", PStr "A & B")]) 2020 2025 (PInt 1)
    = Ok paper /\
    PDict [("title", PStr "A & B")] = PDict fields /\ paper = PDict d /\
    lookup "title" d = Some (PStr title) /\
    (truthy (dict_get fields "title" PNone) = true ->
     dict_get fields "title" PNone = PStr title) /\
    (truthy (dict_get fields "title" PNone) = false -> title = "") /\
    lookup "scopus_search_url" d
    = Some (if String.eqb title "" then PNone
            else PStr ("https://www.scopus.com/results/results.uri?sort=plf-f&src=s&sot=b&sdt=b&sl=50&s=TITLE%28"
                       ++ quote title ++ "%29")%string) /\
    forallb url_char (list_ascii_of_string (quote title)) = true.
Proof.
  destruct (build_paper_result (PDict [("title", PStr "A & B")]) 2020 2025
                               (PInt 1))
    as [paper | e] eqn:H; [| vm_compute in H; discriminate H].
  exists paper.
  destruct (build_paper_result_title_link _ _ _ _ _ H)
    as (fields & d & title & Hx).
  exists fields, d, title. split; [reflexivity | exact Hx].
Defined.

(** ** The rows of the export *)

Lemma py_join_Ok (sep : string) (l : list pyval) (s : string) :
  py_join sep l = Ok s ->
  exists ws, l = map PStr ws /\ s = String.concat sep ws.
Proof.
  unfold py_join. intros H. apply bind_Ok in H as [ws [Hws H]].
  injection H as <-. exists ws. split; [| reflexivity].
  apply mapM_Ok_Forall2 in Hws.
  induction Hws as [| v w l ws Hv _ IH]; [reflexivity |].
  destruct v; try discriminate Hv. injection Hv as <-.
  simpl. now rewrite IH.
Qed.

Lemma str_take_empty (n : nat) : str_take n "" = "".
Proof. destruct n; reflexivity. Qed.

(** X28. A row of the export, whenever it is built: the Authors cell is
    the names a citation of the same item shows, joined by ["; "], so the
    [+N more] entry is not in it; the Abstract cell is the first 500
    characters of the reconstructed abstract, cut wherever they end; the
    Journal and the Publisher are truthy. *)
Theorem export_row_cells (item row : pyval) :
  export_row item = Ok row ->
  exists d inv abstract authors names journal publisher,
    row = PDict d /\
    py_get item "abstract_inverted_index" PNone = Ok inv /\
    reconstruct_abstract inv = Ok abstract /\
    lookup "Abstract" d = Some (PStr (str_take 500 abstract)) /\
    extract_authors item 5 = Ok authors /\
    citation_author_names (with_authors authors []) = Ok (map PStr names) /\
    lookup "Authors" d = Some (PStr (String.concat "; " names)) /\
    lookup "Journal" d = Some journal /\ truthy journal = true /\
    lookup "Publisher" d = Some publisher /\ truthy publisher = true.
Proof.
  unfold export_row. intros H.
  apply bind_Ok in H as [[journal publisher] [Hjp H]].
  apply bind_Ok in H as [authors [Hau H]].
  apply bind_Ok in H as [ns [Hns H]].
  apply bind_Ok in H as [author_str [Hjoin H]].
  apply bind_Ok in H as [inv [Hinv H]].
  apply bind_Ok in H as [abstract [Habs H]].
  bind_inv. subst row.
  apply py_join_Ok in Hjoin as [names [Hnames ->]].
  destruct (safe_journal_info_truthy_pair _ _ _ Hjp) as [Tj Tp].
  eexists. exists inv, abstract, authors, names, journal, publisher.
  split; [reflexivity |]. split; [exact Hinv |]. split; [exact Habs |].
  split.
  { cbn [lookup String.eqb Ascii.eqb Bool.eqb].
    destruct (String.eqb_spec abstract "") as [-> | _];
      [rewrite str_take_empty |]; reflexivity. }
  split; [exact Hau |].
  split.
  { unfold citation_author_names, with_authors.
    cbn [py_get lookup String.eqb Ascii.eqb Bool.eqb bind py_iter].
    rewrite <- (mapM_ext_Forall named_entry export_author cited_name authors
                  export_author_named (extract_authors_named _ _ _ Hau)).
    rewrite Hns. cbn [bind]. now rewrite Hnames. }
  split; [reflexivity |]. split; [reflexivity |]. split; [exact Tj |].
  split; [reflexivity | exact Tp].
Qed.

Lemma export_row_cells_witness :
  exists row d inv abstract authors names journal publisher,
    export_row seven_authors_item = Ok row /\
    row = PDict d /\
    py_get seven_authors_item "abstract_inverted_index" PNone = Ok inv /\
    reconstruct_abstract inv = Ok abstract /\
    lookup "Abstract" d = Some (PStr (str_take 500 abstract)) /\
    extract_authors seven_authors_item 5 = Ok authors /\
    citation_author_names (with_authors authors []) = Ok (map PStr names) /\
    lookup "Authors" d = Some (PStr (String.concat "; " names)) /\
    lookup "Journal" d = Some journal /\ truthy journal = true /\
    lookup "Publisher" d = Some publisher /\ truthy publisher = true.
Proof.
  destruct (export_row seven_authors_item) as [row | e] eqn:H;
    [| vm_compute in H; discriminate H].
  exists row.
  destruct (export_row_cells _ _ H)
    as (d & inv & abstract & authors & names & journal & publisher & Hx).
  exists d, inv, abstract, authors, names, journal, publisher.
  split; [reflexivity | exact Hx].
Defined.
